(** * M-x402: HTTP 402 payment gating and bot classification

    A shallow embedding of the TypeScript sources of the repository:
    the bot and AI-crawler classifiers, the X-PAYMENT header codec
    (JSON and base64), the facilitator endpoints [verify] and [settle],
    and the payment middleware; then the payment path of the middleware,
    the bot and AI-crawler middlewares, the facilitator client, the chain
    utilities and the client [x402axios].

    Conventions.
    - A JavaScript string is modelled by the [string] of its UTF-8 bytes.
      ASCII text is therefore represented character by character, and
      [Buffer.from(s)] (UTF-8 encoding) is the identity on the model.
    - JavaScript exceptions are values of [JsError]; handlers are written in
      a small monad [Handler] with early [return], [throw] and [try/catch].
    - [console.log] calls are kept only where their arguments can throw.
    - Calls into the chain SDK (ethers) are explicit parameters, and so is
      the network that answers [fetch]. *)

From Stdlib Require Import String Ascii List ZArith NArith Bool Lia.
From Stdlib Require Import Decimal DecimalString DecimalN DecimalZ.
From Stdlib Require DecimalFacts DecimalPos.
From stdpp Require Import base option gmap strings.
Import ListNotations.

(* ===================================================================== *)
(** * Part I: definitions *)
(* ===================================================================== *)

(** ** JavaScript string primitives *)

Module Js.

Definition code (c : ascii) : N := N_of_ascii c.

Definition in_range (lo hi : N) (c : ascii) : bool :=
  ((lo <=? code c) && (code c <=? hi))%N.

Definition is_upper (c : ascii) : bool := in_range 65 90 c.
Definition is_lower (c : ascii) : bool := in_range 97 122 c.

(** [String.prototype.toLowerCase]. Only the ASCII letters are given
    another case: the function is the one of the language on the strings
    of ASCII characters, and on the others it leaves the characters
    outside ASCII as they are, where the language folds the letters among
    them too. The strings that the code folds are addresses, header
    values and configured names. *)
Definition lower_char (c : ascii) : ascii :=
  if is_upper c then ascii_of_N (code c + 32) else c.

Definition upper_char (c : ascii) : ascii :=
  if is_lower c then ascii_of_N (code c - 32) else c.

Fixpoint toLowerCase (s : string) : string :=
  match s with
  | EmptyString => EmptyString
  | String c r => String (lower_char c) (toLowerCase r)
  end.

(** [s.startsWith(p)] *)
Definition startsWith (s p : string) : bool := String.prefix p s.

(** [s.includes(sub)] *)
Fixpoint includes (s sub : string) : bool :=
  startsWith s sub ||
  match s with
  | EmptyString => false
  | String _ r => includes r sub
  end.

(** Truthiness of a string: only the empty string is falsy. *)
Definition truthy (s : string) : bool := negb (String.eqb s "").

(** Truthiness of [string | null | undefined]. *)
Definition truthy_opt (o : option string) : bool :=
  match o with
  | Some s => truthy s
  | None => false
  end.

(** [BigInt.prototype.toString], and [Number.prototype.toString] on an
    integer of absolute value below 10^21 (from there on a number is
    printed with an exponent): the decimal digits, with a leading minus
    sign below zero. *)
Definition int_toString (z : Z) : string :=
  NilEmpty.string_of_int (Z.to_int z).

(** A regular expression literal whose source has no metacharacter. *)
Record RegExp := { source : string; ignoreCase : bool }.

(** Canonicalize of the regular expression semantics: with the [i] flag a
    character is compared through its upper case. *)
Definition canonicalize (i : bool) (c : ascii) : ascii :=
  if i then upper_char c else c.

Fixpoint match_here (i : bool) (pat s : string) : bool :=
  match pat with
  | EmptyString => true
  | String p pat' =>
      match s with
      | EmptyString => false
      | String c s' =>
          Ascii.eqb (canonicalize i p) (canonicalize i c)
          && match_here i pat' s'
      end
  end.

Fixpoint search (i : bool) (pat s : string) : bool :=
  match_here i pat s ||
  match s with
  | EmptyString => false
  | String _ r => search i pat r
  end.

(** [re.test(s)] *)
Definition test (re : RegExp) (s : string) : bool :=
  search (ignoreCase re) (source re) s.

(** [/src/i] *)
Definition re_i (src : string) : RegExp :=
  {| source := src; ignoreCase := true |}.

(** The 256 characters. *)
Definition all_chars : list ascii := map ascii_of_nat (seq 0 256).

Fixpoint forall_chars (P : ascii -> bool) (s : string) : bool :=
  match s with
  | EmptyString => true
  | String c r => P c && forall_chars P r
  end.

End Js.

(** ** Requests *)

(** [Headers]: names are case-insensitive and stored in lower case. *)
Record NextRequest := {
  headers : gmap string string;
  url : string;
  pathname : string;
}.

Definition headers_get (r : NextRequest) (name : string) : option string :=
  headers r !! Js.toLowerCase name.

(** ** Universal bot detection (bot-protection middleware) *)

Module BotProtection.

Definition BOT_PATTERNS : list Js.RegExp :=
  map Js.re_i
    [ (* Search Engine Bots *)
      "bot"; "crawler"; "spider"; "crawling";
      (* Common Bot Names *)
      "googlebot"; "bingbot"; "slurp"; "duckduckbot"; "baiduspider";
      "yandexbot"; "sogou"; "exabot"; "facebot"; "ia_archiver";
      (* AI Crawlers *)
      "GPTBot"; "ChatGPT"; "Claude"; "Google-Extended"; "anthropic";
      "PerplexityBot"; "CCBot"; "Bytespider";
      (* Scraping & Monitoring *)
      "scrapy"; "wget"; "curl"; "httpie"; "python-requests";
      "go-http-client"; "java"; "okhttp"; "axios"; "node-fetch";
      (* SEO & Analytics *)
      "Screaming Frog"; "Semrush"; "Ahrefs"; "Majestic"; "Moz";
      (* Social Media Bots *)
      "facebookexternalhit"; "Twitterbot"; "LinkedInBot"; "Slackbot";
      "TelegramBot"; "WhatsApp"; "Discordbot";
      (* Headless Browsers *)
      "HeadlessChrome"; "PhantomJS"; "Selenium"; "Puppeteer"; "Playwright"
    ].

Definition hasNoJavaScript (request : NextRequest) : bool :=
  let acceptHeader :=
    match headers_get request "accept" with
    | Some v => if Js.truthy v then v else ""
    | None => ""
    end in
  let hasHtmlAccept := Js.includes acceptHeader "text/html" in
  let hasImageAccept := Js.includes acceptHeader "image/" in
  negb hasHtmlAccept && negb hasImageAccept.

Definition hasSuspiciousHeaders (request : NextRequest) : bool :=
  let acceptLanguage := headers_get request "accept-language" in
  let acceptEncoding := headers_get request "accept-encoding" in
  negb (Js.truthy_opt acceptLanguage) || negb (Js.truthy_opt acceptEncoding).

Definition isBot (userAgent : string) (request : option NextRequest) : bool :=
  if negb (Js.truthy userAgent) then true
  else
    let matchesPattern :=
      existsb (fun pattern => Js.test pattern userAgent) BOT_PATTERNS in
    if matchesPattern then true
    else
      match request with
      | Some r =>
          if hasNoJavaScript r then true
          else if hasSuspiciousHeaders r then true
          else false
      | None => false
      end.

Definition getBotType (userAgent : string) : string :=
  let t src := Js.test (Js.re_i src) userAgent in
  if negb (Js.truthy userAgent) then "Unknown Bot"
  else if t "googlebot" then "Google Bot"
  else if t "bingbot" then "Bing Bot"
  else if t "yandex" then "Yandex Bot"
  else if t "baidu" then "Baidu Bot"
  else if t "GPTBot" then "OpenAI GPTBot"
  else if t "Claude" then "Anthropic Claude"
  else if t "Google-Extended" then "Google Gemini"
  else if t "Perplexity" then "Perplexity Bot"
  else if t "facebookexternalhit" then "Facebook Bot"
  else if t "Twitterbot" then "Twitter Bot"
  else if t "LinkedInBot" then "LinkedIn Bot"
  else if t "scrapy" then "Scrapy"
  else if t "wget" then "Wget"
  else if t "curl" then "cURL"
  else if t "python-requests" then "Python Requests"
  else if t "HeadlessChrome" then "Headless Chrome"
  else if t "Puppeteer" then "Puppeteer"
  else if t "Playwright" then "Playwright"
  else if t "Semrush" then "Semrush Bot"
  else if t "Ahrefs" then "Ahrefs Bot"
  else if t "Screaming Frog" then "Screaming Frog"
  else "Bot".

End BotProtection.

(** ** AI crawler detection (AI-crawler middleware) *)

Module AICrawler.

Definition AI_CRAWLER_PATTERNS : list Js.RegExp :=
  map Js.re_i
    [ "GPTBot"; "ChatGPT-User"; "Claude-Web"; "ClaudeBot";
      "Google-Extended"; "anthropic-ai"; "cohere-ai"; "PerplexityBot";
      "Omgilibot"; "FacebookBot"; "Applebot-Extended"; "Bytespider";
      "CCBot"; "anthropic"; "AI2Bot"; "YouBot" ].

Definition isAICrawler (userAgent : string) : bool :=
  if negb (Js.truthy userAgent) then false
  else existsb (fun pattern => Js.test pattern userAgent) AI_CRAWLER_PATTERNS.

Definition getAICrawlerName (userAgent : string) : option string :=
  let t src := Js.test (Js.re_i src) userAgent in
  if negb (Js.truthy userAgent) then None
  else if t "GPTBot" then Some "OpenAI GPTBot"
  else if t "ChatGPT-User" then Some "ChatGPT"
  else if t "Claude" then Some "Anthropic Claude"
  else if t "Google-Extended" then Some "Google Gemini"
  else if t "PerplexityBot" then Some "Perplexity"
  else if t "CCBot" then Some "Common Crawl"
  else if t "Bytespider" then Some "ByteDance"
  else Some "AI Crawler".

End AICrawler.

(** ** Base64 ([Buffer] with the ['base64'] encoding) *)

Module Base64.

Definition alphabet : string :=
  "ABCDEFGHIJKLMNOPQRSTUVWXYZabcdefghijklmnopqrstuvwxyz0123456789+/".

Definition pad : ascii := "="%char.
Definition zero : ascii := Ascii false false false false false false false false.

(** A base64 digit is a byte below 64; a byte is [Ascii b0 .. b7] with the
    least significant bit first. Three bytes are regrouped into four
    digits. *)
Definition digits_of_3 (a b c : ascii) : ascii * ascii * ascii * ascii :=
  let '(Ascii a0 a1 a2 a3 a4 a5 a6 a7) := a in
  let '(Ascii b0 b1 b2 b3 b4 b5 b6 b7) := b in
  let '(Ascii c0 c1 c2 c3 c4 c5 c6 c7) := c in
  (Ascii a2 a3 a4 a5 a6 a7 false false,   (* a >> 2 *)
   Ascii b4 b5 b6 b7 a0 a1 false false,   (* (a & 3) << 4 | b >> 4 *)
   Ascii c6 c7 b0 b1 b2 b3 false false,   (* (b & 15) << 2 | c >> 6 *)
   Ascii c0 c1 c2 c3 c4 c5 false false).  (* c & 63 *)

Definition bytes_of_4 (d1 d2 d3 d4 : ascii) : ascii * ascii * ascii :=
  let '(Ascii p0 p1 p2 p3 p4 p5 _ _) := d1 in
  let '(Ascii q0 q1 q2 q3 q4 q5 _ _) := d2 in
  let '(Ascii r0 r1 r2 r3 r4 r5 _ _) := d3 in
  let '(Ascii s0 s1 s2 s3 s4 s5 _ _) := d4 in
  (Ascii q4 q5 p0 p1 p2 p3 p4 p5,         (* d1 << 2 | d2 >> 4 *)
   Ascii r2 r3 r4 r5 q0 q1 q2 q3,         (* (d2 & 15) << 4 | d3 >> 2 *)
   Ascii s0 s1 s2 s3 s4 s5 r0 r1).        (* (d3 & 3) << 6 | d4 *)

Definition digit_char (d : ascii) : ascii :=
  match String.get (nat_of_ascii d) alphabet with
  | Some c => c
  | None => pad
  end.

Fixpoint index_of (c : ascii) (s : string) (i : N) : option N :=
  match s with
  | EmptyString => None
  | String x r => if Ascii.eqb x c then Some i else index_of c r (N.succ i)
  end.

(** The decoder also accepts the URL-safe digits [-] and [_]. *)
Definition unbase64 (c : ascii) : option ascii :=
  if Ascii.eqb c "-" then Some (ascii_of_N 62)
  else if Ascii.eqb c "_" then Some (ascii_of_N 63)
  else ascii_of_N <$> index_of c alphabet 0.

(** [buf.toString('base64')] *)
Fixpoint encode (s : string) : string :=
  match s with
  | EmptyString => EmptyString
  | String a EmptyString =>
      let '(d1, d2, _, _) := digits_of_3 a zero zero in
      String (digit_char d1) (String (digit_char d2)
        (String pad (String pad EmptyString)))
  | String a (String b EmptyString) =>
      let '(d1, d2, d3, _) := digits_of_3 a b zero in
      String (digit_char d1) (String (digit_char d2)
        (String (digit_char d3) (String pad EmptyString)))
  | String a (String b (String c r)) =>
      let '(d1, d2, d3, d4) := digits_of_3 a b c in
      String (digit_char d1) (String (digit_char d2)
        (String (digit_char d3) (String (digit_char d4) (encode r))))
  end.

(** The decoder of [Buffer.from(s, 'base64')] never fails: characters that
    are not digits are skipped and decoding stops at the first [=]. *)
Fixpoint digits (s : string) : list ascii :=
  match s with
  | EmptyString => []
  | String c r =>
      if Ascii.eqb c pad then []
      else match unbase64 c with
           | Some d => d :: digits r
           | None => digits r
           end
  end.

Fixpoint bytes_of_digits (ds : list ascii) : string :=
  match ds with
  | d1 :: d2 :: d3 :: d4 :: r =>
      let '(a, b, c) := bytes_of_4 d1 d2 d3 d4 in
      String a (String b (String c (bytes_of_digits r)))
  | [d1; d2; d3] =>
      let '(a, b, _) := bytes_of_4 d1 d2 d3 zero in
      String a (String b EmptyString)
  | [d1; d2] =>
      let '(a, _, _) := bytes_of_4 d1 d2 zero zero in
      String a EmptyString
  | _ => EmptyString
  end.

(** [Buffer.from(s, 'base64')] *)
Definition decode (s : string) : string := bytes_of_digits (digits s).

End Base64.

(** ** UTF-8 ([Buffer] with the ['utf-8'] encoding) *)

Module Utf8.

(** U+FFFD, the replacement character. *)
Definition replacement : string :=
  String (ascii_of_N 239) (String (ascii_of_N 191) (String (ascii_of_N 189) "")).

Definition is_ascii (c : ascii) : bool := (Js.code c <? 128)%N.
Definition continuation (c : ascii) : bool := Js.in_range 128 191 c.

(** Range of the byte that may follow lead byte [b] (it is narrower after
    E0, ED, F0 and F4, to exclude overlong forms, surrogates and code
    points above U+10FFFF). *)
Definition second_lo (b : ascii) : N :=
  if (Js.code b =? 224)%N then 160
  else if (Js.code b =? 240)%N then 144 else 128.
Definition second_hi (b : ascii) : N :=
  if (Js.code b =? 237)%N then 159
  else if (Js.code b =? 244)%N then 143 else 191.
Definition second (b c : ascii) : bool :=
  Js.in_range (second_lo b) (second_hi b) c.

(** [buf.toString('utf-8')]: well-formed sequences are kept, every
    ill-formed one (its maximal valid prefix) becomes U+FFFD. *)
Fixpoint toString (s : string) : string :=
  match s with
  | EmptyString => EmptyString
  | String b r =>
      if is_ascii b then String b (toString r)
      else if Js.in_range 194 223 b then
        match r with
        | String c1 r1 =>
            if continuation c1 then String b (String c1 (toString r1))
            else replacement +:+ toString r
        | EmptyString => replacement
        end
      else if Js.in_range 224 239 b then
        match r with
        | String c1 r1 =>
            if second b c1 then
              match r1 with
              | String c2 r2 =>
                  if continuation c2
                  then String b (String c1 (String c2 (toString r2)))
                  else replacement +:+ toString r1
              | EmptyString => replacement
              end
            else replacement +:+ toString r
        | EmptyString => replacement
        end
      else if Js.in_range 240 244 b then
        match r with
        | String c1 r1 =>
            if second b c1 then
              match r1 with
              | String c2 r2 =>
                  if continuation c2 then
                    match r2 with
                    | String c3 r3 =>
                        if continuation c3
                        then String b (String c1 (String c2 (String c3
                               (toString r3))))
                        else replacement +:+ toString r2
                    | EmptyString => replacement
                    end
                  else replacement +:+ toString r1
              | EmptyString => replacement
              end
            else replacement +:+ toString r
        | EmptyString => replacement
        end
      else replacement +:+ toString r
  end.

(** Well-formed UTF-8: the strings that represent a JavaScript string
    without lone surrogates. *)
Fixpoint valid (s : string) : bool :=
  match s with
  | EmptyString => true
  | String b r =>
      if is_ascii b then valid r
      else if Js.in_range 194 223 b then
        match r with
        | String c1 r1 => continuation c1 && valid r1
        | _ => false
        end
      else if Js.in_range 224 239 b then
        match r with
        | String c1 (String c2 r2) =>
            second b c1 && continuation c2 && valid r2
        | _ => false
        end
      else if Js.in_range 240 244 b then
        match r with
        | String c1 (String c2 (String c3 r3)) =>
            second b c1 && continuation c2 && continuation c3 && valid r3
        | _ => false
        end
      else false
  end.

(** The UTF-8 form of a code point (used for [\uXXXX] escapes). *)
Definition of_code_point (n : N) : string :=
  let byte (k : N) := ascii_of_N k in
  (if n <? 128 then String (byte n) ""
   else if n <? 2048 then
     String (byte (192 + n / 64)) (String (byte (128 + n mod 64)) "")
   else if n <? 65536 then
     String (byte (224 + n / 4096))
       (String (byte (128 + (n / 64) mod 64))
         (String (byte (128 + n mod 64)) ""))
   else
     String (byte (240 + n / 262144))
       (String (byte (128 + (n / 4096) mod 64))
         (String (byte (128 + (n / 64) mod 64))
           (String (byte (128 + n mod 64)) ""))))%N.

End Utf8.

(** ** JSON ([JSON.stringify] and [JSON.parse]) *)

Module JSON.

(** A number read from an integer literal is [JNum z]; a literal with a
    fraction or an exponent is [JFloat m e], the decimal [m * 10^e]
    (binary64 rounding is not modelled). *)
#[local] Set Warnings "-register-all".
Inductive json :=
| JNull
| JBool (b : bool)
| JNum (z : Z)
| JFloat (m e : Z)
| JStr (s : string)
| JArr (items : list json)
| JObj (members : list (string * json)).

Definition dquote : ascii := "034"%char.
Definition backslash : ascii := "\"%char.

(** *** Serialization *)

Definition hex_digit (n : N) : ascii :=
  match String.get (N.to_nat n) "0123456789abcdef" with
  | Some c => c
  | None => "0"%char
  end.

(** QuoteJSONString, one character. *)
Definition quote_char (c : ascii) : string :=
  let n := Js.code c in
  (if n =? 8 then "\b"
   else if n =? 9 then "\t"
   else if n =? 10 then "\n"
   else if n =? 12 then "\f"
   else if n =? 13 then "\r"
   else if n =? 34 then String backslash (String dquote "")
   else if n =? 92 then "\\"
   else if n <? 32 then
     "\u00" +:+ String (hex_digit (n / 16)) (String (hex_digit (n mod 16)) "")
   else String c "")%N.

Fixpoint quote_body (s : string) : string :=
  match s with
  | EmptyString => EmptyString
  | String c r => quote_char c +:+ quote_body r
  end.

Definition quote (s : string) : string :=
  String dquote (quote_body s +:+ String dquote "").

(** [JSON.stringify(v)]. The members of an object are printed in the
    order of the list, and a [JFloat] in exponent form, which denotes the
    same number: the text is the one of the language for the values
    without [JFloat] whose integers are below 2^53 in absolute value and
    whose keys are distinct and not made of digits. *)
Fixpoint stringify (v : json) : string :=
  match v with
  | JNull => "null"
  | JBool true => "true"
  | JBool false => "false"
  | JNum z => Js.int_toString z
  | JFloat m e => Js.int_toString m +:+ "e" +:+ Js.int_toString e
  | JStr s => quote s
  | JArr items =>
      "[" +:+
      (fix elements (l : list json) : string :=
         match l with
         | [] => ""
         | x :: r =>
             stringify x +:+
             match r with [] => "" | _ => "," +:+ elements r end
         end) items +:+ "]"
  | JObj members =>
      "{" +:+
      (fix properties (l : list (string * json)) : string :=
         match l with
         | [] => ""
         | kv :: r =>
             quote (fst kv) +:+ ":" +:+ stringify (snd kv) +:+
             match r with [] => "" | _ => "," +:+ properties r end
         end) members +:+ "}"
  end.

(** *** Parsing *)

Definition is_ws (c : ascii) : bool :=
  let n := Js.code c in
  ((n =? 32) || (n =? 9) || (n =? 10) || (n =? 13))%N.

Fixpoint skip_ws (s : string) : string :=
  match s with
  | EmptyString => EmptyString
  | String c r => if is_ws c then skip_ws r else s
  end.

(** [p] removed from the front of [s]. *)
Fixpoint strip_prefix (p s : string) : option string :=
  match p with
  | EmptyString => Some s
  | String a p' =>
      match s with
      | EmptyString => None
      | String b s' => if Ascii.eqb a b then strip_prefix p' s' else None
      end
  end.

(** The content of a string literal: raw bytes and [\uXXXX] code units. *)
Inductive item := Raw (c : ascii) | Unit16 (u : N).

Definition hex_value (c : ascii) : option N :=
  let n := Js.code c in
  (if Js.in_range 48 57 c then Some (n - 48)
   else if Js.in_range 97 102 c then Some (n - 87)
   else if Js.in_range 65 70 c then Some (n - 55)
   else None)%N.

Definition hex4 (h1 h2 h3 h4 : ascii) : option N :=
  match hex_value h1, hex_value h2, hex_value h3, hex_value h4 with
  | Some a, Some b, Some c, Some d => Some (((a * 16 + b) * 16 + c) * 16 + d)%N
  | _, _, _, _ => None
  end.

Definition simple_escape (e : ascii) : option ascii :=
  let n := Js.code e in
  (if n =? 34 then Some dquote
   else if n =? 92 then Some backslash
   else if n =? 47 then Some "/"%char
   else if n =? 98 then Some (ascii_of_N 8)
   else if n =? 102 then Some (ascii_of_N 12)
   else if n =? 110 then Some (ascii_of_N 10)
   else if n =? 114 then Some (ascii_of_N 13)
   else if n =? 116 then Some (ascii_of_N 9)
   else None)%N.

Definition push (i : item) (r : option (list item * string))
  : option (list item * string) :=
  match r with
  | Some (l, rest) => Some (i :: l, rest)
  | None => None
  end.

(** Reads a string literal after its opening quote. *)
Fixpoint lex_string (s : string) : option (list item * string) :=
  match s with
  | EmptyString => None
  | String c r =>
      if Ascii.eqb c dquote then Some ([], r)
      else if Ascii.eqb c backslash then
        match r with
        | EmptyString => None
        | String e r1 =>
            if Ascii.eqb e "u" then
              match r1 with
              | String h1 (String h2 (String h3 (String h4 r2))) =>
                  match hex4 h1 h2 h3 h4 with
                  | Some u => push (Unit16 u) (lex_string r2)
                  | None => None
                  end
              | _ => None
              end
            else
              match simple_escape e with
              | Some x => push (Raw x) (lex_string r1)
              | None => None
              end
        end
      else if (Js.code c <? 32)%N then None
      else push (Raw c) (lex_string r)
  end.

Definition is_high (u : N) : bool := ((55296 <=? u) && (u <=? 56319))%N.
Definition is_low (u : N) : bool := ((56320 <=? u) && (u <=? 57343))%N.

(** The string denoted by the items; a surrogate pair is one code point. *)
Fixpoint string_of_items (l : list item) : string :=
  match l with
  | [] => EmptyString
  | Raw c :: r => String c (string_of_items r)
  | Unit16 u :: r =>
      match r with
      | Unit16 lo :: r' =>
          if is_high u && is_low lo
          then Utf8.of_code_point
                 (65536 + (u - 55296) * 1024 + (lo - 56320))%N
               +:+ string_of_items r'
          else Utf8.of_code_point u +:+ string_of_items r
      | _ => Utf8.of_code_point u +:+ string_of_items r
      end
  end.

Definition parse_string (s : string) : option (string * string) :=
  match lex_string s with
  | Some (l, rest) => Some (string_of_items l, rest)
  | None => None
  end.

Definition is_digit (c : ascii) : bool := Js.in_range 48 57 c.

Fixpoint span_digits (s : string) : string * string :=
  match s with
  | EmptyString => (EmptyString, EmptyString)
  | String c r =>
      if is_digit c
      then let '(d, rest) := span_digits r in (String c d, rest)
      else (EmptyString, s)
  end.

Definition nat_of_digits (d : string) : Z :=
  match NilEmpty.uint_of_string d with
  | Some u => Z.of_N (N.of_uint u)
  | None => 0
  end.

Definition signed (neg : bool) (z : Z) : Z := if neg then (- z)%Z else z.

(** The sign of a number literal. *)
Definition lex_sign (s : string) : bool * string :=
  match s with
  | String c r => if Ascii.eqb c "-" then (true, r) else (false, s)
  | EmptyString => (false, s)
  end.

(** The fraction of a number literal, when a dot follows: its digits and
    what follows them. *)
Definition lex_fraction (s : string) : option (string * string) :=
  match s with
  | String c r => if Ascii.eqb c "." then Some (span_digits r) else None
  | EmptyString => None
  end.

(** The exponent of a number literal, when an [e] or [E] follows: its sign,
    its digits and what follows them. *)
Definition lex_exponent (s : string) : option (bool * string * string) :=
  match s with
  | String c r =>
      if Ascii.eqb c "e" || Ascii.eqb c "E" then
        match r with
        | String sg r' =>
            if Ascii.eqb sg "-" then
              let '(ds, rest) := span_digits r' in Some (true, ds, rest)
            else if Ascii.eqb sg "+" then
              let '(ds, rest) := span_digits r' in Some (false, ds, rest)
            else
              let '(ds, rest) := span_digits r in Some (false, ds, rest)
        | EmptyString => Some (false, EmptyString, EmptyString)
        end
      else None
  | EmptyString => None
  end.

(** A number literal: an optional minus sign, an integer part without a
    superfluous leading zero, an optional fraction (a dot and digits) and
    an optional exponent (e or E, an optional sign, digits). *)
Definition parse_number (s : string) : option (json * string) :=
  let '(neg, s1) := lex_sign s in
  let '(int_part, s2) := span_digits s1 in
  match int_part with
  | EmptyString => None
  | String d more =>
      if Ascii.eqb d "0" && negb (String.eqb more "") then None
      else
        let frac := lex_fraction s2 in
        let s3 := match frac with Some (_, r) => r | None => s2 end in
        let exp := lex_exponent s3 in
        match frac, exp with
        | None, None => Some (JNum (signed neg (nat_of_digits int_part)), s2)
        | Some (EmptyString, _), _ => None
        | _, Some (_, EmptyString, _) => None
        | _, _ =>
            let fd := match frac with Some (f, _) => f | None => EmptyString end in
            let ev := match exp with
                      | Some (eneg, ds, _) => signed eneg (nat_of_digits ds)
                      | None => 0%Z
                      end in
            let rest := match exp with Some (_, _, r) => r | None => s3 end in
            Some (JFloat (signed neg (nat_of_digits (int_part +:+ fd)))
                         (ev - Z.of_nat (String.length fd))%Z, rest)
        end
  end.

(** Defining a property: a repeated key keeps its place and takes the
    last value. *)
Fixpoint obj_set (k : string) (v : json) (l : list (string * json))
  : list (string * json) :=
  match l with
  | [] => [(k, v)]
  | kv :: r =>
      if String.eqb (fst kv) k then (k, v) :: r else kv :: obj_set k v r
  end.

(** Recursive descent; every call consumes input, so a fuel above the
    length of the text is never exhausted. *)
Fixpoint parse_value (fuel : nat) (s : string) : option (json * string) :=
  match fuel with
  | O => None
  | S fuel =>
      match skip_ws s with
      | EmptyString => None
      | String c r as s' =>
          if Ascii.eqb c "{" then
            match skip_ws r with
            | String c' r' =>
                if Ascii.eqb c' "}" then Some (JObj [], r')
                else parse_members fuel [] r
            | EmptyString => None
            end
          else if Ascii.eqb c "[" then
            match skip_ws r with
            | String c' r' =>
                if Ascii.eqb c' "]" then Some (JArr [], r')
                else parse_elements fuel [] r
            | EmptyString => None
            end
          else if Ascii.eqb c dquote then
            match parse_string r with
            | Some (str, r') => Some (JStr str, r')
            | None => None
            end
          else
            match strip_prefix "true" s' with
            | Some r' => Some (JBool true, r')
            | None =>
            match strip_prefix "false" s' with
            | Some r' => Some (JBool false, r')
            | None =>
            match strip_prefix "null" s' with
            | Some r' => Some (JNull, r')
            | None => parse_number s'
            end end end
      end
  end
with parse_members (fuel : nat) (acc : list (string * json)) (s : string)
  : option (json * string) :=
  match fuel with
  | O => None
  | S fuel =>
      match skip_ws s with
      | String c r =>
          if Ascii.eqb c dquote then
            match parse_string r with
            | Some (k, r1) =>
                match skip_ws r1 with
                | String c1 r2 =>
                    if Ascii.eqb c1 ":" then
                      match parse_value fuel r2 with
                      | Some (v, r3) =>
                          match skip_ws r3 with
                          | String c3 r4 =>
                              if Ascii.eqb c3 ","
                              then parse_members fuel (obj_set k v acc) r4
                              else if Ascii.eqb c3 "}"
                              then Some (JObj (obj_set k v acc), r4)
                              else None
                          | EmptyString => None
                          end
                      | None => None
                      end
                    else None
                | EmptyString => None
                end
            | None => None
            end
          else None
      | EmptyString => None
      end
  end
with parse_elements (fuel : nat) (acc : list json) (s : string)
  : option (json * string) :=
  match fuel with
  | O => None
  | S fuel =>
      match parse_value fuel s with
      | Some (v, r1) =>
          match skip_ws r1 with
          | String c r2 =>
              if Ascii.eqb c "," then parse_elements fuel (acc ++ [v]) r2
              else if Ascii.eqb c "]" then Some (JArr (acc ++ [v]), r2)
              else None
          | EmptyString => None
          end
      | None => None
      end
  end.

(** [JSON.parse(text)]; [None] stands for the SyntaxError. The numbers are
    kept as they are written, without the rounding to binary64. *)
Definition parse (text : string) : option json :=
  match parse_value (S (String.length text)) text with
  | Some (v, rest) =>
      match skip_ws rest with
      | EmptyString => Some v
      | String _ _ => None
      end
  | None => None
  end.

(** With fuel [f] a parser succeeds like with any fuel that is at least
    the number of characters it consumes. *)
Definition adequate {A} (parser : nat -> A -> string -> option (json * string))
    (f : nat) : Prop :=
  forall (a : A) (s : string) (v : json) (rest : string),
    parser f a s = Some (v, rest) ->
    String.length rest < String.length s /\
    forall f', String.length s - String.length rest <= f' ->
               parser f' a s = Some (v, rest).

(** *** Reading parsed values *)

Fixpoint lookup (k : string) (l : list (string * json)) : option json :=
  match l with
  | [] => None
  | kv :: r => if String.eqb (fst kv) k then Some (snd kv) else lookup k r
  end.

(** [v.k] for a value other than [null]; [None] is [undefined]. The
    property names read by the handlers exist on objects only. *)
Definition get (v : json) (k : string) : option json :=
  match v with
  | JObj members => lookup k members
  | _ => None
  end.

(** The decimal [m * 10^e] rounds to zero in binary64. *)
Definition float_is_zero (m e : Z) : bool :=
  ((m =? 0) || ((e <? 0) && (Z.abs m * 2 ^ 1075 <=? 10 ^ (- e))))%Z.

(** Truthiness of a value or [undefined]. *)
Definition truthy_value (v : option json) : bool :=
  match v with
  | None => false
  | Some JNull => false
  | Some (JBool b) => b
  | Some (JNum z) => negb (z =? 0)%Z
  | Some (JFloat m e) => negb (float_is_zero m e)
  | Some (JStr s) => Js.truthy s
  | Some (JArr _) => true
  | Some (JObj _) => true
  end.

(** [v === s] for a string [s]. *)
Definition is_string (v : option json) (s : string) : bool :=
  match v with
  | Some (JStr x) => String.eqb x s
  | _ => false
  end.

End JSON.

(** ** Handlers: early return, exceptions and chain effects *)

Module Handler.

(** A thrown [Error] object. *)
Record JsError := { name : string; message : string }.

Definition Error (msg : string) : JsError :=
  {| name := "Error"; message := msg |}.
Definition TypeError (msg : string) : JsError :=
  {| name := "TypeError"; message := msg |}.

(** [String(error)] *)
Definition error_toString (e : JsError) : string :=
  if Js.truthy (message e) then name e +:+ ": " +:+ message e else name e.

(** [error.message || String(error)] *)
Definition message_or_string (e : JsError) : string :=
  if Js.truthy (message e) then message e else error_toString e.

(** What a handler asks of the chain: the calls of
    [provider.broadcastTransaction] and [provider.waitForTransaction]. *)
Inductive Effect :=
| Broadcast (signedTransaction : string)
| AwaitReceipt (txHash : string) (confirmations : N).

Inductive outcome (R A : Type) :=
| Value (a : A)
| Return (r : R)
| Throw (e : JsError).
Arguments Value {R A} a.
Arguments Return {R A} r.
Arguments Throw {R A} e.

(** A computation inside a function that returns [R]: it threads the log
    of effects and ends with a value, a [return] or a [throw]. *)
Definition M (R A : Type) : Type := list Effect -> outcome R A * list Effect.

Definition ret {R A} (a : A) : M R A := fun log => (Value a, log).
Definition return_ {R A} (r : R) : M R A := fun log => (Return r, log).
Definition throw {R A} (e : JsError) : M R A := fun log => (Throw e, log).
Definition tell {R} (eff : Effect) : M R unit :=
  fun log => (Value tt, log ++ [eff]).

Definition bind {R A B} (m : M R A) (k : A -> M R B) : M R B :=
  fun log =>
    match m log with
    | (Value a, log') => k a log'
    | (Return r, log') => (Return r, log')
    | (Throw e, log') => (Throw e, log')
    end.

(** [try { m } catch (e) { h e }] *)
Definition try_catch {R A} (m : M R A) (h : JsError -> M R A) : M R A :=
  fun log =>
    match m log with
    | (Throw e, log') => h e log'
    | other => other
    end.

(** [if (c) return r;] *)
Definition return_if {R} (c : bool) (r : R) : M R unit :=
  if c then return_ r else ret tt.

(** The result of calling the function. *)
Inductive completion (R : Type) :=
| Returned (r : R)
| Uncaught (e : JsError).
Arguments Returned {R} r.
Arguments Uncaught {R} e.

Definition run {R} (m : M R R) : completion R * list Effect :=
  match m [] with
  | (Value r, log) => (Returned r, log)
  | (Return r, log) => (Returned r, log)
  | (Throw e, log) => (Uncaught e, log)
  end.

(** Reading property [k] of [o], which throws on [undefined]. *)
Definition deref {R A} (o : option A) (k : string) : M R A :=
  match o with
  | Some a => ret a
  | None =>
      throw (TypeError
        ("Cannot read properties of undefined (reading '" +:+ k +:+ "')"))
  end.

(** Reading property [k] of a parsed JSON value or [undefined]. *)
Definition member {R} (v : option JSON.json) (k : string)
  : M R (option JSON.json) :=
  match v with
  | None =>
      throw (TypeError
        ("Cannot read properties of undefined (reading '" +:+ k +:+ "')"))
  | Some JSON.JNull =>
      throw (TypeError
        ("Cannot read properties of null (reading '" +:+ k +:+ "')"))
  | Some x => ret (JSON.get x k)
  end.

(** The string that a template literal shows for a value. *)
Fixpoint show (v : JSON.json) : string :=
  match v with
  | JSON.JNull => "null"
  | JSON.JBool true => "true"
  | JSON.JBool false => "false"
  | JSON.JNum z => Js.int_toString z
  | JSON.JFloat m e => Js.int_toString m +:+ "e" +:+ Js.int_toString e
  | JSON.JStr s => s
  | JSON.JArr items =>
      (fix join (l : list JSON.json) : string :=
         match l with
         | [] => ""
         | x :: r =>
             match x with JSON.JNull => "" | _ => show x end +:+
             match r with [] => "" | _ => "," +:+ join r end
         end) items
  | JSON.JObj _ => "[object Object]"
  end.

Definition show_opt (v : option JSON.json) : string :=
  match v with
  | Some x => show x
  | None => "undefined"
  end.

End Handler.

Declare Scope handler_scope.
Delimit Scope handler_scope with handler.
Notation "'let*' x ':=' m 'in' k" :=
  (Handler.bind m (fun x => k))
  (at level 10, x binder, m at level 100, k at level 200) : handler_scope.
Notation "'let*' ' p ':=' m 'in' k" :=
  (Handler.bind m (fun x => match x with p => k end))
  (at level 10, p pattern, m at level 100, k at level 200) : handler_scope.

(** ** Protocol types and constants *)

Module Protocol.

Definition X402_VERSION : Z := 1.
Definition MONAD_SCHEME : string := "evm-transfer".
Definition MONAD_MAINNET : string := "monad-mainnet".
Definition MONAD_TESTNET : string := "monad-testnet".

Record PaymentRequirements := {
  scheme : string;
  network : string;
  maxAmountRequired : string;
  resource : string;
  description : option string;
  mimeType : option string;
  outputSchema : option JSON.json;
  payTo : string;
  maxTimeoutSeconds : option Z;
  extra : option JSON.json;
}.

Record PaymentRequiredResponse := {
  x402Version : Z;
  accepts : list PaymentRequirements;
}.

Record VerifyResponse := {
  isValid : bool;
  invalidReason : option string;
}.

Record SettleResponse := {
  success : bool;
  error : option string;
  txHash : option string;
  networkId : option string;
}.

(** [NextResponse.json(body, { status })] *)
Record Response (B : Type) := { status : N; body : B }.
Arguments status {B} r.
Arguments body {B} r.

Definition NextResponse_json {B} (b : B) : Response B :=
  {| status := 200; body := b |}.
Definition NextResponse_json_status {B} (b : B) (st : N) : Response B :=
  {| status := st; body := b |}.

End Protocol.

(** ** The X-PAYMENT header payload *)

Module PaymentPayload.

Record Payload := { signedTransaction : string }.

Record t := {
  x402Version : Z;
  scheme : string;
  network : string;
  payload : Payload;
}.

(** The object as a JSON value, properties in declaration order. *)
Definition to_json (p : t) : JSON.json :=
  JSON.JObj
    [ ("x402Version", JSON.JNum (x402Version p));
      ("scheme", JSON.JStr (scheme p));
      ("network", JSON.JStr (network p));
      ("payload",
       JSON.JObj [("signedTransaction",
                   JSON.JStr (signedTransaction (payload p)))]) ].

(** [Buffer.from(JSON.stringify(paymentPayload)).toString('base64')]
    (x402axiosMain, step 8). *)
Definition encodeHeader (p : t) : string :=
  Base64.encode (JSON.stringify (to_json p)).

(** [JSON.parse(Buffer.from(paymentHeader, 'base64').toString('utf-8'))]
    (facilitator and middleware). *)
Definition decodeHeader (paymentHeader : string) : option JSON.json :=
  JSON.parse (Utf8.toString (Base64.decode paymentHeader)).

End PaymentPayload.

(** ** Chain utilities (monad-utils) *)

Module MonadUtils.
Import Handler.
Local Open Scope handler_scope.

Inductive Network := testnet | mainnet.

Definition network_name (n : Network) : string :=
  match n with testnet => "testnet" | mainnet => "mainnet" end.

Record MonadNetworkConfig := {
  rpcUrl : string;
  chainId : Z;
  explorer : string;
}.

Definition MONAD_TESTNET_RPC : string := "https://testnet-rpc.monad.xyz".
Definition MONAD_TESTNET_CHAIN_ID : Z := 10143.
Definition MONAD_TESTNET_EXPLORER : string := "https://testnet-explorer.monad.xyz".

Definition testnet_config : MonadNetworkConfig :=
  {| rpcUrl := MONAD_TESTNET_RPC;
     chainId := MONAD_TESTNET_CHAIN_ID;
     explorer := MONAD_TESTNET_EXPLORER |}.

(** Mainnet will be added when available. *)
Definition MONAD_NETWORKS : gmap string MonadNetworkConfig :=
  {[ "testnet" := testnet_config ]}.

(** A parsed transaction ([ethers.Transaction]). *)
Record Transaction := {
  from : option string;
  to : option string;
  value : Z;
  tx_chainId : Z;
}.

Record TransactionResponse := { hash : string }.

Record TransactionReceipt := {
  status : option Z;
  blockNumber : Z;
}.

(** The chain SDK: what the repository calls and does not define. *)
Record Ethers := {
  (** [ethers.Transaction.from(signedTx)] *)
  Transaction_from : string -> JsError + Transaction;
  (** [ethers.isAddress(address)] *)
  isAddress : string -> bool;
  (** [provider.broadcastTransaction(signedTx)] *)
  broadcastTransaction : MonadNetworkConfig -> string -> JsError + TransactionResponse;
  (** [provider.waitForTransaction(txHash, confirmations)] *)
  provider_waitForTransaction :
    MonadNetworkConfig -> string -> N -> JsError + option TransactionReceipt;
}.

Section WithSdk.
Context {R : Type} (ethers : Ethers).

Definition lift {A} (r : JsError + A) : M R A :=
  match r with
  | inl e => throw e
  | inr a => ret a
  end.

Definition getMonadNetwork (network : Network) : M R MonadNetworkConfig :=
  match MONAD_NETWORKS !! network_name network with
  | Some config => ret config
  | None =>
      throw (Error ("Unsupported Monad network: " +:+ network_name network))
  end.

(** The provider is determined by the configuration it is built from. *)
Definition createMonadProvider (network : Network) : M R MonadNetworkConfig :=
  getMonadNetwork network.

Definition submitTransaction (signedTransaction : string) (network : Network)
  : M R TransactionResponse :=
  let* provider := createMonadProvider network in
  let* _ := tell (Broadcast signedTransaction) in
  lift (broadcastTransaction ethers provider signedTransaction).

Definition waitForTransaction (txHash : string) (network : Network)
    (confirmations : N) : M R (option TransactionReceipt) :=
  let* provider := createMonadProvider network in
  let* _ := tell (AwaitReceipt txHash confirmations) in
  lift (provider_waitForTransaction ethers provider txHash confirmations).

Definition parseSignedTransaction (signedTx : string) : M R Transaction :=
  lift (Transaction_from ethers signedTx).

Definition isValidAddress (address : string) : bool :=
  isAddress ethers address.

End WithSdk.

End MonadUtils.

(** ** Facilitator: POST /api/facilitator/verify *)

Module FacilitatorVerify.
Import Handler Protocol MonadUtils.
Local Open Scope handler_scope.

(** The parsed request body. A field that the handler tests for absence
    is optional. *)
Record VerifyRequest := {
  x402Version : Z;
  paymentHeader : option string;
  paymentRequirements : option PaymentRequirements;
}.

Definition VerifyResp : Type := Response VerifyResponse.

Definition invalid (reason : string) : VerifyResponse :=
  {| isValid := false; invalidReason := Some reason |}.

Definition valid_response : VerifyResponse :=
  {| isValid := true; invalidReason := None |}.

Definition recipient_mismatch (payTo : string) (to : option string) : string :=
  "Recipient mismatch: expected " +:+ payTo +:+ ", got " +:+
  match to with Some a => a | None => "null" end.

Definition amount_mismatch (maxAmountRequired : string) (value : Z) : string :=
  "Amount mismatch: expected " +:+ maxAmountRequired +:+ ", got " +:+
  Js.int_toString value.

(** [tx.to?.toLowerCase() !== payTo.toLowerCase()] *)
Definition recipient_differs (to : option string) (payTo : string) : bool :=
  match to with
  | Some a => negb (String.eqb (Js.toLowerCase a) (Js.toLowerCase payTo))
  | None => true
  end.

Section WithSdk.
Context (ethers : Ethers).

(** From the request body to the signed transaction (the statements
    before the transaction is parsed). *)
Definition read_verify_request (body : VerifyRequest)
  : M VerifyResp (PaymentRequirements * string) :=
  (* the request is logged: paymentRequirements.scheme is read *)
  let* _ := deref (paymentRequirements body) "scheme" in
  (* Validate x402 version *)
  let* _ := return_if (negb (x402Version body =? X402_VERSION)%Z)
    (NextResponse_json (invalid ("Unsupported x402 version: " +:+
                    Js.int_toString (x402Version body)))) in
  (* Validate required fields *)
  match paymentHeader body, paymentRequirements body with
  | Some paymentHeader, Some paymentRequirements =>
      let* _ := return_if (negb (Js.truthy paymentHeader))
        (NextResponse_json_status
           (invalid "Missing paymentHeader or paymentRequirements") 400) in
      (* Validate scheme *)
      let* _ := return_if
        (negb (String.eqb (scheme paymentRequirements) MONAD_SCHEME))
        (NextResponse_json
           (invalid ("Unsupported scheme: " +:+ scheme paymentRequirements))) in
      (* Validate network is Monad-specific *)
      let network := network paymentRequirements in
      let* _ := return_if
        (negb (Js.truthy network) || negb (Js.startsWith network "monad-"))
        (NextResponse_json (invalid ("Invalid Monad network: " +:+ network +:+
                        ". Expected monad-testnet or monad-mainnet"))) in
      (* Parse the payment header (base64 encoded PaymentPayload) *)
      let paymentPayloadJson := Utf8.toString (Base64.decode paymentHeader) in
      match JSON.parse paymentPayloadJson with
      | None =>
          return_ (NextResponse_json (invalid "Invalid JSON in payment payload"))
      | Some paymentPayload =>
          (* the payload is logged: paymentPayload.x402Version is read *)
          let* _ := member (Some paymentPayload) "x402Version" in
          (* Validate payment payload matches requirements *)
          let* payloadScheme := member (Some paymentPayload) "scheme" in
          let* _ := return_if
            (negb (JSON.is_string payloadScheme (scheme paymentRequirements)))
            (NextResponse_json (invalid ("Scheme mismatch: expected " +:+
                     scheme paymentRequirements +:+ ", got " +:+
                     show_opt payloadScheme))) in
          let* payloadNetwork := member (Some paymentPayload) "network" in
          let* _ := return_if
            (negb (JSON.is_string payloadNetwork network))
            (NextResponse_json (invalid ("Network mismatch: expected " +:+
                     network +:+ ", got " +:+ show_opt payloadNetwork))) in
          (* Extract the signed transaction *)
          let* payload := member (Some paymentPayload) "payload" in
          let* signedTransaction := member payload "signedTransaction" in
          let* _ := return_if (negb (JSON.truthy_value signedTransaction))
            (NextResponse_json
               (invalid "Invalid payload: missing signedTransaction")) in
          (* the transaction is logged: signedTransaction.substring(0, 50) *)
          match signedTransaction with
          | Some (JSON.JStr signedTransaction) =>
              ret (paymentRequirements, signedTransaction)
          | _ =>
              throw (TypeError "signedTransaction.substring is not a function")
          end
      end
  | _, _ =>
      return_ (NextResponse_json_status
        (invalid "Missing paymentHeader or paymentRequirements") 400)
  end.

(** Parse and validate the signed transaction (the inner [try]). *)
Definition check_transaction (paymentRequirements : PaymentRequirements)
    (signedTransaction : string) : M VerifyResp unit :=
  try_catch
    (let* tx := parseSignedTransaction ethers signedTransaction in
     (* Validate recipient *)
     let* _ := return_if (recipient_differs (to tx) (payTo paymentRequirements))
       (NextResponse_json
          (invalid (recipient_mismatch (payTo paymentRequirements) (to tx)))) in
     (* Validate amount *)
     let* _ := return_if
       (negb (String.eqb (Js.int_toString (value tx))
                         (maxAmountRequired paymentRequirements)))
       (NextResponse_json
          (invalid (amount_mismatch (maxAmountRequired paymentRequirements)
                                    (value tx)))) in
     (* Validate sender address is valid *)
     let* _ := return_if
       (match from tx with
        | Some sender => negb (Js.truthy sender)
                         || negb (isValidAddress ethers sender)
        | None => true
        end)
       (NextResponse_json (invalid "Invalid sender address")) in
     ret tt)
    (fun parseError =>
       return_ (NextResponse_json
         (invalid ("Failed to parse transaction: " +:+ message parseError)))).

Definition verify_handler (body : VerifyRequest) : M VerifyResp VerifyResp :=
  try_catch
    (let* '(paymentRequirements, signedTransaction) :=
       read_verify_request body in
     let* _ := check_transaction paymentRequirements signedTransaction in
     return_ (NextResponse_json valid_response))
    (fun error =>
       return_ (NextResponse_json_status
                  (invalid (message_or_string error)) 500)).

(** The handler of the route. (The response header with the duration of
    the verification is left out.) *)
Definition POST (body : VerifyRequest) : completion VerifyResp * list Effect :=
  run (verify_handler body).

End WithSdk.

End FacilitatorVerify.

(** ** Facilitator: POST /api/facilitator/settle *)

Module FacilitatorSettle.
Import Handler Protocol MonadUtils.
Local Open Scope handler_scope.

Record SettleRequest := {
  x402Version : Z;
  paymentHeader : option string;
  paymentRequirements : option PaymentRequirements;
}.

Definition SettleResp : Type := Response SettleResponse.

Definition failure (err : string) : SettleResponse :=
  {| success := false; error := Some err; txHash := None; networkId := None |}.

(** [network === MONAD_MAINNET ? 'mainnet' : 'testnet'] *)
Definition network_type (network : string) : Network :=
  if String.eqb network MONAD_MAINNET then mainnet else testnet.

Section WithSdk.
Context (ethers : Ethers).

(** From the request body to the signed transaction (the statements
    before the transaction is submitted). *)
Definition read_settle_request (body : SettleRequest)
  : M SettleResp (string * Network * string) :=
  (* the request is logged: paymentRequirements.scheme is read *)
  let* _ := deref (paymentRequirements body) "scheme" in
  (* Validate x402 version *)
  let* _ := return_if (negb (x402Version body =? X402_VERSION)%Z)
    (NextResponse_json (failure ("Unsupported x402 version: " +:+
                    Js.int_toString (x402Version body)))) in
  (* Validate required fields *)
  match paymentHeader body, paymentRequirements body with
  | Some paymentHeader, Some paymentRequirements =>
      let* _ := return_if (negb (Js.truthy paymentHeader))
        (NextResponse_json_status
           (failure "Missing paymentHeader or paymentRequirements") 400) in
      (* Validate scheme *)
      let* _ := return_if
        (negb (String.eqb (scheme paymentRequirements) MONAD_SCHEME))
        (NextResponse_json
           (failure ("Unsupported scheme: " +:+ scheme paymentRequirements))) in
      let network := network paymentRequirements in
      let* _ := return_if (negb (Js.truthy network))
        (NextResponse_json_status
           (failure "Network not specified in payment requirements") 400) in
      (* Extract network type (testnet/mainnet) *)
      let networkType := network_type network in
      (* Parse the payment header (base64 encoded PaymentPayload) *)
      let paymentPayloadJson := Utf8.toString (Base64.decode paymentHeader) in
      match JSON.parse paymentPayloadJson with
      | None => return_ (NextResponse_json_status (failure "Invalid JSON") 400)
      | Some paymentPayload =>
          (* the payload is logged: its scheme, its network and
             Object.keys(paymentPayload.payload) are read *)
          let* _ := member (Some paymentPayload) "scheme" in
          let* payload := member (Some paymentPayload) "payload" in
          let* _ :=
            match payload with
            | None | Some JSON.JNull =>
                throw (TypeError "Cannot convert undefined or null to object")
            | Some _ => ret tt
            end in
          (* Extract signed transaction from payload *)
          let* signedTransaction := member payload "signedTransaction" in
          let* _ := return_if (negb (JSON.truthy_value signedTransaction))
            (NextResponse_json
               (failure "Invalid payload: missing signedTransaction")) in
          (* the transaction is logged: signedTransaction.substring(0, 50) *)
          match signedTransaction with
          | Some (JSON.JStr signedTransaction) =>
              ret (network, networkType, signedTransaction)
          | _ =>
              throw (TypeError "signedTransaction.substring is not a function")
          end
      end
  | _, _ =>
      return_ (NextResponse_json_status
        (failure "Missing paymentHeader or paymentRequirements") 400)
  end.

(** Submit the transaction and wait for its receipt. *)
Definition submit_and_wait (network : string) (networkType : Network)
    (signedTransaction : string) : M SettleResp SettleResp :=
  let* txResponse :=
    try_catch
      (submitTransaction ethers signedTransaction networkType)
      (fun submitError =>
         return_ (NextResponse_json_status
                    (failure (message_or_string submitError)) 500)) in
  (* Wait for transaction to be confirmed *)
  let* receipt := waitForTransaction ethers (hash txResponse) networkType 1 in
  match receipt with
  | None =>
      return_ (NextResponse_json {| success := false;
                       error := Some "Transaction receipt not found";
                       txHash := Some (hash txResponse);
                       networkId := Some network |})
  | Some receipt =>
      let* _ := return_if
        (negb (match status receipt with Some 1%Z => true | _ => false end))
        (NextResponse_json {| success := false;
                 error := Some "Transaction failed on blockchain";
                 txHash := Some (hash txResponse);
                 networkId := Some network |}) in
      return_ (NextResponse_json {| success := true;
                       error := None;
                       txHash := Some (hash txResponse);
                       networkId := Some network |})
  end.

(** Check if it's a duplicate transaction error. *)
Definition is_duplicate (error : JsError) : bool :=
  Js.includes (message error) "SEQUENCE_NUMBER_TOO_OLD"
  || Js.includes (message error) "INVALID_SEQ_NUMBER"
  || Js.includes (message error) "already submitted".

Definition settle_handler (body : SettleRequest) : M SettleResp SettleResp :=
  try_catch
    (let* '(network, networkType, signedTransaction) :=
       read_settle_request body in
     submit_and_wait network networkType signedTransaction)
    (fun error =>
       let* _ := return_if (is_duplicate error)
         (NextResponse_json_status (failure "Transaction already used") 409) in
       return_ (NextResponse_json_status
                  (failure (message_or_string error)) 500)).

(** The handler of the route once the body of the request has been read.
    (The response header with the duration of the settlement is left
    out.) *)
Definition POST (body : SettleRequest) : completion SettleResp * list Effect :=
  run (settle_handler body).

(** The handler from the request. [await request.json()] is the first
    statement of the outer [try]: [json] is what it gives, the body or the
    fault of a body that cannot be read, and this fault reaches the outer
    [catch] like the faults of the statements after it. *)
Definition POST_request (json : JsError + SettleRequest)
  : completion SettleResp * list Effect :=
  run (try_catch
         (let* body := lift json in
          let* '(network, networkType, signedTransaction) :=
            read_settle_request body in
          submit_and_wait network networkType signedTransaction)
         (fun error =>
            let* _ := return_if (is_duplicate error)
              (NextResponse_json_status (failure "Transaction already used") 409) in
            return_ (NextResponse_json_status
                       (failure (message_or_string error)) 500))).

End WithSdk.

End FacilitatorSettle.

(** ** Payment middleware (x402-middleware) *)

Module X402Middleware.
Import Handler Protocol.
Local Open Scope handler_scope.

Record RouteOptions := {
  description : option string;
  mimeType : option string;
  outputSchema : option JSON.json;
  maxTimeoutSeconds : option Z;
}.

Record RouteConfig := {
  price : string;
  network : option string;
  config : option RouteOptions;
}.

Record FacilitatorConfig := { facilitator_url : string }.

(** What the middleware answers. [Process] stands for the entry into the
    payment path (decode the header, verify, settle, forward), which starts
    once a payment header is present. *)
Inductive Answer :=
| Next
| ServerError (status : N) (error : string)
| PaymentRequired (status : N) (response402 : PaymentRequiredResponse)
| Process (paymentHeader : string) (paymentRequirements : PaymentRequirements).

Definition middleware (recipientAddress : string)
    (routes : gmap string RouteConfig) (facilitatorConfig : FacilitatorConfig)
    (request : NextRequest) : M Answer Answer :=
  let pathname := pathname request in
  (* Check if this route is protected *)
  match routes !! pathname with
  | None => return_ Next
  | Some routeConfig =>
      let paymentHeader := headers_get request "X-PAYMENT" in
      (* Map network names to full Monad network identifiers *)
      let* network :=
        match network routeConfig with
        | Some routeNetwork =>
            ret (if String.eqb routeNetwork "mainnet" then MONAD_MAINNET
                 else if String.eqb routeNetwork "testnet" then MONAD_TESTNET
                 else if Js.startsWith routeNetwork "monad-" then routeNetwork
                 else "monad-" +:+ routeNetwork)
        | None =>
            throw (TypeError
              "Cannot read properties of undefined (reading 'startsWith')")
        end in
      (* Validate configuration *)
      let* _ := return_if (negb (Js.truthy recipientAddress))
        (ServerError 500
           "Server configuration error: Payment recipient not configured") in
      (* Build payment requirements per x402 spec *)
      let paymentRequirements :=
        {| Protocol.scheme := MONAD_SCHEME;
           Protocol.network := network;
           Protocol.maxAmountRequired := price routeConfig;
           Protocol.resource := url request;
           Protocol.description := config routeConfig ≫= description;
           Protocol.mimeType := config routeConfig ≫= mimeType;
           Protocol.outputSchema := config routeConfig ≫= outputSchema;
           Protocol.payTo := recipientAddress;
           Protocol.maxTimeoutSeconds := config routeConfig ≫= maxTimeoutSeconds;
           Protocol.extra := None |} in
      (* If no payment provided, return 402 with payment requirements *)
      match paymentHeader with
      | Some paymentHeader =>
          if Js.truthy paymentHeader
          then return_ (Process paymentHeader paymentRequirements)
          else return_ (PaymentRequired 402
                 {| x402Version := X402_VERSION;
                    accepts := [paymentRequirements] |})
      | None =>
          return_ (PaymentRequired 402
            {| x402Version := X402_VERSION;
               accepts := [paymentRequirements] |})
      end
  end.

Definition paymentMiddleware (recipientAddress : string)
    (routes : gmap string RouteConfig) (facilitatorConfig : FacilitatorConfig)
    (request : NextRequest) : completion Answer :=
  fst (run (middleware recipientAddress routes facilitatorConfig request)).

End X402Middleware.

(** ** Vocabulary of the specification *)

Module Spec.

(** [ua] contains [word] in some letter case. *)
Definition contains_ignoring_case (word ua : string) : Prop :=
  exists pre mid post : string,
    ua = pre +:+ mid +:+ post /\ Js.toLowerCase mid = word.

(** The payload decoded from header [h] is [v], and it carries the signed
    transaction [signedTx] (a non-empty string). *)
Definition carries (h : string) (v : JSON.json) (signedTx : string) : Prop :=
  PaymentPayload.decodeHeader h = Some v /\
  signedTx <> "" /\
  exists payload : JSON.json,
    JSON.get v "payload" = Some payload /\
    JSON.get payload "signedTransaction" = Some (JSON.JStr signedTx).

(** A verify request that passes steps 1 to 7: supported version, header
    and requirements present, supported scheme, Monad network, header
    decoded, payload scheme and network equal to the requirements', signed
    transaction present. *)
Definition verify_reads (body : FacilitatorVerify.VerifyRequest)
    (reqs : Protocol.PaymentRequirements) (signedTx : string) : Prop :=
  FacilitatorVerify.x402Version body = Protocol.X402_VERSION /\
  FacilitatorVerify.paymentRequirements body = Some reqs /\
  Protocol.scheme reqs = Protocol.MONAD_SCHEME /\
  Js.startsWith (Protocol.network reqs) "monad-" = true /\
  exists (h : string) (v : JSON.json),
    FacilitatorVerify.paymentHeader body = Some h /\ h <> "" /\
    carries h v signedTx /\
    JSON.get v "scheme" = Some (JSON.JStr (Protocol.scheme reqs)) /\
    JSON.get v "network" = Some (JSON.JStr (Protocol.network reqs)).

(** A settle request that passes the checks made before submission:
    supported version, header and requirements present, supported scheme,
    a network given, header decoded, signed transaction present. *)
Definition settle_reads (body : FacilitatorSettle.SettleRequest)
    (reqs : Protocol.PaymentRequirements) (signedTx : string) : Prop :=
  FacilitatorSettle.x402Version body = Protocol.X402_VERSION /\
  FacilitatorSettle.paymentRequirements body = Some reqs /\
  Protocol.scheme reqs = Protocol.MONAD_SCHEME /\
  Protocol.network reqs <> "" /\
  exists (h : string) (v : JSON.json),
    FacilitatorSettle.paymentHeader body = Some h /\ h <> "" /\
    carries h v signedTx.

(** The recipient of the transaction is the required one, up to the case
    of letters. *)
Definition same_address (to : option string) (payTo : string) : Prop :=
  exists a : string, to = Some a /\ Js.toLowerCase a = Js.toLowerCase payTo.

(** A number that is an integer and is represented exactly. *)
Definition safe_integer (z : Z) : Prop := (- 2 ^ 53 < z < 2 ^ 53)%Z.

(** A well-formed payload: the version is a safe integer and the strings are
    JavaScript strings without lone surrogates. *)
Definition well_formed (p : PaymentPayload.t) : Prop :=
  safe_integer (PaymentPayload.x402Version p) /\
  Utf8.valid (PaymentPayload.scheme p) = true /\
  Utf8.valid (PaymentPayload.network p) = true /\
  Utf8.valid (PaymentPayload.signedTransaction (PaymentPayload.payload p)) = true.

End Spec.

(** ** Concrete inputs *)

Module Samples.
Import Handler Protocol MonadUtils.

(** A payment for the requirements below. *)
Definition payload : PaymentPayload.t :=
  {| PaymentPayload.x402Version := 1;
     PaymentPayload.scheme := "evm-transfer";
     PaymentPayload.network := "monad-testnet";
     PaymentPayload.payload := {| PaymentPayload.signedTransaction := "0x02f86b" |} |}.

(** The X-PAYMENT header of [payload]. *)
Definition header : string :=
  "eyJ4NDAyVmVyc2lvbiI6MSwic2NoZW1lIjoiZXZtLXRyYW5zZmVyIiwibmV0d29yayI6Im1vbmFkLXRlc3RuZXQiLCJwYXlsb2FkIjp7InNpZ25lZFRyYW5zYWN0aW9uIjoiMHgwMmY4NmIifX0=".





Definition payee : string := "0x742d35Cc6634C0532925a3b844Bc9e7595f0bEb0".
Definition payer : string := "0x1111111111111111111111111111111111111111".
Definition stranger : string := "0x2222222222222222222222222222222222222222".

Definition requirements : PaymentRequirements :=
  {| scheme := MONAD_SCHEME;
     network := MONAD_TESTNET;
     maxAmountRequired := "1000";
     resource := "https://example.org/api/protected/weather";
     description := None;
     mimeType := None;
     outputSchema := None;
     payTo := "0x742d35cc6634c0532925a3b844bc9e7595f0beb0";
     maxTimeoutSeconds := None;
     extra := None |}.


Definition transaction (recipient : string) (amount : Z) : Transaction :=
  {| from := Some payer;
     to := Some recipient;
     value := amount;
     tx_chainId := MONAD_TESTNET_CHAIN_ID |}.

Definition submitted : TransactionResponse := {| hash := "0xabc123" |}.

Definition receipt : TransactionReceipt :=
  {| status := Some 1%Z; blockNumber := 42 |}.

(** A chain SDK with fixed answers. *)
Definition ethers (parsed : Transaction)
    (sent : JsError + TransactionResponse)
    (waited : JsError + option TransactionReceipt) : Ethers :=
  {| Transaction_from := fun _ => inr parsed;
     isAddress := fun a => Js.startsWith a "0x" && Nat.eqb (String.length a) 42;
     broadcastTransaction := fun _ _ => sent;
     provider_waitForTransaction := fun _ _ _ => waited |}.

Definition verify_request (h : string) : FacilitatorVerify.VerifyRequest :=
  {| FacilitatorVerify.x402Version := 1;
     FacilitatorVerify.paymentHeader := Some h;
     FacilitatorVerify.paymentRequirements := Some requirements |}.

Definition settle_request (h : string) : FacilitatorSettle.SettleRequest :=
  {| FacilitatorSettle.x402Version := 1;
     FacilitatorSettle.paymentHeader := Some h;
     FacilitatorSettle.paymentRequirements := Some requirements |}.



(** A route configured without a network, and a request to it without
    payment. *)
Definition routes_without_network : gmap string X402Middleware.RouteConfig :=
  {[ "/api/protected/weather" :=
       {| X402Middleware.price := "1000000000000000";
          X402Middleware.network := None;
          X402Middleware.config := None |} ]}.

Definition routes : gmap string X402Middleware.RouteConfig :=
  {[ "/api/protected/weather" :=
       {| X402Middleware.price := "1000000000000000";
          X402Middleware.network := Some "testnet";
          X402Middleware.config := None |} ]}.

Definition facilitator : X402Middleware.FacilitatorConfig :=
  {| X402Middleware.facilitator_url := "https://example.org/api/facilitator" |}.

Definition unpaid_request : NextRequest :=
  {| headers := {[ "user-agent" := "Mozilla/5.0" ]};
     url := "https://example.org/api/protected/weather";
     pathname := "/api/protected/weather" |}.

End Samples.

(** ** Values at run time *)

(** What the code leaves to the JavaScript engine and is not fixed by the
    language: the [SyntaxError] that [JSON.parse] throws on a text, the
    digits that [Number.prototype.toString] prints for the number
    [m * 10^e] when it is not a safe integer, and the text of a built-in
    function. *)
Record Runtime := {
  syntax_error : string -> Handler.JsError;
  number_toString : Z -> Z -> string;
  (** [String(Object.prototype[name])], the text of a built-in member of
      every object *)
  builtin_toString : string -> string;
}.

Module JsValue.
Import Handler JSON.

(** [JSON.parse(text)] *)
Definition JSON_parse (rt : Runtime) (text : string) : JsError + json :=
  match parse text with
  | Some v => inr v
  | None => inl (syntax_error rt text)
  end.

(** [o.k], where [None] is [undefined]: reading a property of [undefined]
    or [null] throws. *)
Definition property (o : option json) (k : string) : JsError + option json :=
  match o with
  | None =>
      inl (TypeError
        ("Cannot read properties of undefined (reading '" +:+ k +:+ "')"))
  | Some JNull =>
      inl (TypeError
        ("Cannot read properties of null (reading '" +:+ k +:+ "')"))
  | Some x => inr (get x k)
  end.

(** [a || b] *)
Definition or_else (a : option json) (b : json) : json :=
  match a with
  | Some x => if truthy_value a then x else b
  | None => b
  end.

(** The decimal [m * 10^e] rounds to 1 in binary64: it lies between
    [1 - 2^-54] and [1 + 2^-53]. *)
Definition float_is_one (m e : Z) : bool :=
  (if 0 <=? e then (m =? 1) && (e =? 0)
   else ((2 ^ 54 - 1) * 10 ^ (- e) <=? m * 2 ^ 54)
        && (m * 2 ^ 53 <=? (2 ^ 53 + 1) * 10 ^ (- e)))%Z.

(** [v === 1] *)
Definition is_one (v : option json) : bool :=
  match v with
  | Some (JNum z) => (z =? 1)%Z
  | Some (JFloat m e) => float_is_one m e
  | _ => false
  end.

(** [v === true] *)
Definition is_true (v : option json) : bool :=
  match v with
  | Some (JBool b) => b
  | _ => false
  end.

(** [String(v)], which is also what a template literal and a property key
    show for [v]. *)
Fixpoint ToString (rt : Runtime) (v : json) : string :=
  match v with
  | JNull => "null"
  | JBool true => "true"
  | JBool false => "false"
  | JNum z =>
      if ((- 2 ^ 53 <? z) && (z <? 2 ^ 53))%Z then Js.int_toString z
      else number_toString rt z 0
  | JFloat m e => number_toString rt m e
  | JStr s => s
  | JArr items =>
      (fix join (l : list json) : string :=
         match l with
         | [] => ""
         | x :: r =>
             match x with JNull => "" | _ => ToString rt x end +:+
             match r with [] => "" | _ => "," +:+ join r end
         end) items
  | JObj _ => "[object Object]"
  end.

Definition ToString_opt (rt : Runtime) (v : option json) : string :=
  match v with
  | Some x => ToString rt x
  | None => "undefined"
  end.

(** A property whose value may be [undefined]: [JSON.stringify] leaves it
    out. *)
Definition optional (k : string) (v : option json) : list (string * json) :=
  match v with
  | Some x => [(k, x)]
  | None => []
  end.

End JsValue.

(** ** Asynchronous functions and the calls they await *)

Module Http.
Import Handler.

(** [fetch(url, { method, headers, body })] *)
Record Request := {
  url : string;
  method : string;
  headers : gmap string string;
  body : option string;
}.

(** What the code reads of a [Response]: the status, the headers (names in
    lower case) and the results of [await response.json()],
    [response.text()], [response.blob()] and [response.arrayBuffer()]. *)
Record Response := {
  status : N;
  statusText : string;
  response_headers : gmap string string;
  body_json : JsError + JSON.json;
  body_text : JsError + string;
  body_blob : JsError + string;
  body_arrayBuffer : JsError + string;
}.

(** [response.ok] *)
Definition ok (r : Response) : bool :=
  ((200 <=? status r) && (status r <=? 299))%N.

(** [Headers.set(name, value)] and the [Headers] constructor convert the
    value to a byte string (a code point above 255 is refused), strip the
    leading and trailing white space, and refuse NUL, CR and LF. With the
    strings in UTF-8, the code points up to 255 are the ASCII bytes and the
    two-byte sequences led by C2 and C3. *)
Fixpoint byte_string (s : string) : bool :=
  match s with
  | EmptyString => true
  | String b r =>
      if Utf8.is_ascii b then byte_string r
      else if Js.in_range 194 195 b then
        match r with
        | String c r' => Utf8.continuation c && byte_string r'
        | EmptyString => false
        end
      else false
  end.

Definition http_whitespace (c : ascii) : bool :=
  let n := Js.code c in ((n =? 9) || (n =? 10) || (n =? 13) || (n =? 32))%N.

Fixpoint strip_leading (s : string) : string :=
  match s with
  | EmptyString => EmptyString
  | String c r => if http_whitespace c then strip_leading r else s
  end.

(** [s] without its trailing white space. *)
Fixpoint strip_trailing (s : string) : string :=
  match s with
  | EmptyString => EmptyString
  | String c r =>
      match strip_trailing r with
      | EmptyString => if http_whitespace c then EmptyString else String c ""
      | r' => String c r'
      end
  end.

Definition forbidden (c : ascii) : bool :=
  let n := Js.code c in ((n =? 0) || (n =? 10) || (n =? 13))%N.

(** The value that [Headers.set] stores, or the [TypeError]. *)
Definition header_value (s : string) : JsError + string :=
  if byte_string s then
    let v := strip_trailing (strip_leading s) in
    if Js.forall_chars (fun c => negb (forbidden c)) v then inr v
    else inl (TypeError "Invalid header value")
  else inl (TypeError "Cannot convert argument to a ByteString").

End Http.

(** ** Wallets and transaction requests (ethers) *)

Module Wallets.
Import Handler.

(** An [ethers.Wallet]: its address stands for the key it signs with. *)
Record Wallet := { address : string }.

Record FeeData := {
  maxFeePerGas : option Z;
  maxPriorityFeePerGas : option Z;
}.

(** A transaction request. The recipient and the value are the values
    that the caller passes, whatever their type. *)
Record TransactionRequest := {
  from : string;
  to : JSON.json;
  value : JSON.json;
  nonce : Z;
  gasLimit : Z;
  request_maxFeePerGas : option Z;
  request_maxPriorityFeePerGas : option Z;
  chainId : Z;
  type : Z;
}.

(** A transaction found on the chain ([provider.getTransaction]). *)
Record ChainTransaction := {
  chain_to : option string;
  chain_value : Z;
}.

(** The chain SDK, for the functions that build, sign and look up
    transactions. *)
Record Sdk := {
  (** [provider.getFeeData()] *)
  getFeeData : MonadUtils.MonadNetworkConfig -> JsError + FeeData;
  (** [provider.getTransactionCount(address, 'pending')] *)
  getTransactionCount : MonadUtils.MonadNetworkConfig -> string -> JsError + Z;
  (** [provider.getTransaction(txHash)] *)
  getTransaction :
    MonadUtils.MonadNetworkConfig -> string -> JsError + option ChainTransaction;
  (** [provider.getBalance(address)] *)
  getBalance : MonadUtils.MonadNetworkConfig -> string -> JsError + Z;
  (** [new Wallet(privateKey)], with or without a provider *)
  new_Wallet : string -> JsError + Wallet;
  (** [wallet.signTransaction(transaction)] *)
  wallet_signTransaction : Wallet -> TransactionRequest -> JsError + string;
}.

End Wallets.

(** A computation of an asynchronous function that returns [R]: as
    [Handler.M], with a log of the requests sent and of the transactions
    signed. *)
Module Async.
Import Handler.

Inductive Call :=
| Fetch (request : Http.Request)
| Sign (wallet : Wallets.Wallet) (transaction : Wallets.TransactionRequest).

(** The network: the result of a [fetch], which may depend on the calls
    made before it. *)
Definition Internet : Type :=
  list Call -> Http.Request -> JsError + Http.Response.

Definition M (R A : Type) : Type := list Call -> outcome R A * list Call.

Definition ret {R A} (a : A) : M R A := fun log => (Value a, log).
Definition return_ {R A} (r : R) : M R A := fun log => (Return r, log).
Definition throw {R A} (e : JsError) : M R A := fun log => (Throw e, log).

Definition bind {R A B} (m : M R A) (k : A -> M R B) : M R B :=
  fun log =>
    match m log with
    | (Value a, log') => k a log'
    | (Return r, log') => (Return r, log')
    | (Throw e, log') => (Throw e, log')
    end.

(** [try { m } catch (e) { h e }] *)
Definition try_catch {R A} (m : M R A) (h : JsError -> M R A) : M R A :=
  fun log =>
    match m log with
    | (Throw e, log') => h e log'
    | other => other
    end.

(** [if (c) return r;] *)
Definition return_if {R} (c : bool) (r : R) : M R unit :=
  if c then return_ r else ret tt.

Definition lift {R A} (r : JsError + A) : M R A :=
  match r with
  | inl e => throw e
  | inr a => ret a
  end.

(** [await fetch(...)] *)
Definition fetch {R} (net : Internet) (request : Http.Request)
  : M R Http.Response :=
  fun log =>
    match net log request with
    | inl e => (Throw e, log ++ [Fetch request])
    | inr response => (Value response, log ++ [Fetch request])
    end.

Definition run {R} (m : M R R) : completion R * list Call :=
  match m [] with
  | (Value r, log) => (Returned r, log)
  | (Return r, log) => (Returned r, log)
  | (Throw e, log) => (Uncaught e, log)
  end.

(** A computation that makes no call leaves the log as it is; a step is
    such a computation that does not return from the function. *)
Definition quiet {R A} (m : M R A) : Prop :=
  forall log o l, m log = (o, l) -> l = log.

Definition step {R A} (m : M R A) : Prop :=
  forall log o l, m log = (o, l) -> l = log /\ forall r, o <> Return r.

End Async.

Declare Scope async_scope.
Delimit Scope async_scope with async.
Notation "'let*' x ':=' m 'in' k" :=
  (Async.bind m (fun x => k))
  (at level 10, x binder, m at level 100, k at level 200) : async_scope.
Notation "'let*' ' p ':=' m 'in' k" :=
  (Async.bind m (fun x => match x with p => k end))
  (at level 10, p pattern, m at level 100, k at level 200) : async_scope.

(** ** Universal bot protection: the middleware *)

Module BotMiddleware.
Import Handler JSON JsValue Async BotProtection.
Local Open Scope async_scope.

Record BotProtectionConfig := {
  enabled : bool;
  price : string;
  recipientAddress : string;
  network : option MonadUtils.Network;
  facilitatorUrl : option string;
  allowedBots : option (list string);
  description : option string;
  strictMode : option bool;
}.

(** What the middleware answers: [NextResponse.next()] with the headers
    set on it, or [new NextResponse(body, { status, headers })]. *)
Inductive Reply :=
| Next (set : list (string * string))
| Body (status : N) (body : string) (headers : list (string * string)).

Definition DEFAULT_FACILITATOR : string :=
  "https://monad-x402.vercel.app/api/facilitator".

(** [s || d] *)
Definition string_or (s : option string) (d : string) : string :=
  match s with
  | Some v => if Js.truthy v then v else d
  | None => d
  end.

Definition network_id (n : option MonadUtils.Network) : string :=
  match n with
  | Some MonadUtils.mainnet => "monad-mainnet"
  | _ => "monad-testnet"
  end.

(** [config.network || 'testnet'] *)
Definition network_or_testnet (n : option MonadUtils.Network) : string :=
  match n with
  | Some n => MonadUtils.network_name n
  | None => "testnet"
  end.

(** The body of the 402 response. *)
Definition x402Response (config : BotProtectionConfig) (request : NextRequest)
    (botType : string) : json :=
  JObj
    [ ("x402Version", JNum 1);
      ("accepts",
       JArr
         [ JObj
             [ ("scheme", JStr "exact");
               ("network", JStr (network_id (network config)));
               ("maxAmountRequired", JStr (price config));
               ("payTo", JStr (recipientAddress config));
               ("description",
                JStr (string_or (description config)
                        ("Bot Access Fee - " +:+ botType)));
               ("resource", JStr (url request));
               ("botDetected", JStr botType);
               ("message",
                JStr "This website requires payment for bot access. Please pay to proceed.")
             ] ]) ].

(** The request sent to the facilitator. *)
Definition verify_call (config : BotProtectionConfig) (paymentHeader : string)
  : Http.Request :=
  {| Http.url :=
       string_or (facilitatorUrl config) DEFAULT_FACILITATOR +:+ "/verify";
     Http.method := "POST";
     Http.headers := {[ "Content-Type" := "application/json" ]};
     Http.body := Some (stringify
       (JObj [ ("payment", JStr paymentHeader);
               ("expectedAmount", JStr (price config));
               ("expectedRecipient", JStr (recipientAddress config));
               ("network", JStr (network_or_testnet (network config))) ])) |}.

(** [config.allowedBots.some(allowed =>
      userAgent.toLowerCase().includes(allowed.toLowerCase()))]; the names
    of a white list are taken to be ASCII, as its examples are. *)
Definition allowed (userAgent : string) (allowedBots : list string) : bool :=
  existsb
    (fun allowed =>
       Js.includes (Js.toLowerCase userAgent) (Js.toLowerCase allowed))
    allowedBots.

Section WithNetwork.
Context (rt : Runtime) (net : Internet).

Definition botProtectionMiddleware (config : BotProtectionConfig)
    (request : NextRequest) : M Reply Reply :=
  let userAgent := string_or (headers_get request "user-agent") "" in
  (* Skip if bot protection is disabled *)
  let* _ := return_if (negb (enabled config)) (Next []) in
  (* Check if this is a bot *)
  let isBotRequest :=
    match strictMode config with
    | Some true => isBot userAgent (Some request)
    | _ => isBot userAgent None
    end in
  let* _ := return_if (negb isBotRequest) (Next []) in
  let botType := getBotType userAgent in
  (* Check if this bot is whitelisted *)
  let* _ :=
    match allowedBots config with
    | Some allowedBots =>
        return_if ((0 <? length allowedBots)%nat && allowed userAgent allowedBots)
          (Next [])
    | None => ret tt
    end in
  (* Check for payment header *)
  match headers_get request "X-PAYMENT" with
  | Some paymentHeader =>
      if Js.truthy paymentHeader then
        (* Verify payment with facilitator *)
        try_catch
          (let* verifyResponse := fetch net (verify_call config paymentHeader) in
           let* _ := return_if (negb (Http.ok verifyResponse))
             (Body 402 "Payment verification failed" []) in
           let* verification := lift (Http.body_json verifyResponse) in
           let* valid := lift (property (Some verification) "valid") in
           let* _ := return_if (negb (truthy_value valid))
             (Body 402 "Invalid payment" []) in
           (* Payment verified - allow access *)
           let* transactionHash :=
             lift (property (Some verification) "transactionHash") in
           let* hash :=
             lift (Http.header_value (ToString rt (or_else transactionHash (JStr "")))) in
           return_ (Next [ ("X-Payment-Verified", "true");
                           ("X-Transaction-Hash", hash);
                           ("X-Bot-Paid", botType) ]))
          (fun error => return_ (Body 500 "Payment verification failed" []))
      else
        return_ (Body 402 (stringify (x402Response config request botType))
                   [ ("Content-Type", "application/json");
                     ("X-Bot-Detected", botType);
                     ("X-Payment-Required", "true") ])
  | None =>
      return_ (Body 402 (stringify (x402Response config request botType))
                 [ ("Content-Type", "application/json");
                   ("X-Bot-Detected", botType);
                   ("X-Payment-Required", "true") ])
  end.

(** Block all bots except whitelisted ones for SEO. *)
Definition blockAllBotsExceptSEO (recipientAddress : string)
    (price : option string) : NextRequest -> M Reply Reply :=
  botProtectionMiddleware
    {| enabled := true;
       price := default "1000000000000000" price;
       recipientAddress := recipientAddress;
       network := Some MonadUtils.testnet;
       facilitatorUrl := None;
       allowedBots := Some ["Googlebot"; "Bingbot"; "Yahoo"; "DuckDuckBot"];
       description := Some "Bot Access Fee - Humans browse free, bots pay";
       strictMode := None |}.

(** Block ALL bots including search engines. *)
Definition blockAllBots (recipientAddress : string) (price : option string)
    (strictMode : option bool) : NextRequest -> M Reply Reply :=
  botProtectionMiddleware
    {| enabled := true;
       price := default "1000000000000000" price;
       recipientAddress := recipientAddress;
       network := Some MonadUtils.testnet;
       facilitatorUrl := None;
       allowedBots := None;
       description :=
         Some "Universal Bot Protection - Payment required for all automated access";
       strictMode := Some (default false strictMode) |}.

End WithNetwork.

End BotMiddleware.

(** ** AI crawler monetization: the middleware *)

Module AIMiddleware.
Import Handler JSON JsValue Async AICrawler.
Import BotMiddleware(Reply, Next, Body, string_or, network_id,
                     network_or_testnet, allowed, DEFAULT_FACILITATOR).
Local Open Scope async_scope.

Record AICrawlerConfig := {
  enabled : bool;
  price : string;
  recipientAddress : string;
  network : option MonadUtils.Network;
  facilitatorUrl : option string;
  allowedCrawlers : option (list string);
  description : option string;
}.

(** [crawlerName || 'Unknown'] *)
Definition name_or_unknown (crawlerName : option string) : string :=
  string_or crawlerName "Unknown".

(** The body of the 402 response. *)
Definition x402Response (config : AICrawlerConfig) (request : NextRequest)
    (crawlerName : option string) : json :=
  JObj
    [ ("x402Version", JNum 1);
      ("accepts",
       JArr
         [ JObj
             [ ("scheme", JStr "exact");
               ("network", JStr (network_id (network config)));
               ("maxAmountRequired", JStr (price config));
               ("payTo", JStr (recipientAddress config));
               ("description",
                JStr (string_or (description config)
                        ("AI Crawler Access Fee - " +:+
                         default "null" crawlerName)));
               ("resource", JStr (url request));
               ("crawlerDetected",
                match crawlerName with Some n => JStr n | None => JNull end)
             ] ]) ].

(** The request sent to the facilitator. *)
Definition verify_call (config : AICrawlerConfig) (paymentHeader : string)
  : Http.Request :=
  {| Http.url :=
       string_or (facilitatorUrl config) DEFAULT_FACILITATOR +:+ "/verify";
     Http.method := "POST";
     Http.headers := {[ "Content-Type" := "application/json" ]};
     Http.body := Some (stringify
       (JObj [ ("payment", JStr paymentHeader);
               ("expectedAmount", JStr (price config));
               ("expectedRecipient", JStr (recipientAddress config));
               ("network", JStr (network_or_testnet (network config))) ])) |}.

Section WithNetwork.
Context (rt : Runtime) (net : Internet).

Definition aiCrawlerMiddleware (config : AICrawlerConfig)
    (request : NextRequest) : M Reply Reply :=
  let userAgent := string_or (headers_get request "user-agent") "" in
  (* Skip if AI crawler protection is disabled *)
  let* _ := return_if (negb (enabled config)) (Next []) in
  (* Check if this is an AI crawler *)
  let* _ := return_if (negb (isAICrawler userAgent)) (Next []) in
  let crawlerName := getAICrawlerName userAgent in
  (* Check if this crawler is whitelisted *)
  let* _ :=
    match allowedCrawlers config with
    | Some allowedCrawlers =>
        return_if
          ((0 <? length allowedCrawlers)%nat && allowed userAgent allowedCrawlers)
          (Next [])
    | None => ret tt
    end in
  (* Check for payment header *)
  match headers_get request "X-PAYMENT" with
  | Some paymentHeader =>
      if Js.truthy paymentHeader then
        (* Payment header exists - verify it with facilitator *)
        try_catch
          (let* verifyResponse := fetch net (verify_call config paymentHeader) in
           let* _ := return_if (negb (Http.ok verifyResponse))
             (Body 402 "Payment verification failed" []) in
           let* verification := lift (Http.body_json verifyResponse) in
           let* valid := lift (property (Some verification) "valid") in
           let* _ := return_if (negb (truthy_value valid))
             (Body 402 "Invalid payment" []) in
           (* Payment verified - allow access *)
           let* transactionHash :=
             lift (property (Some verification) "transactionHash") in
           let* hash :=
             lift (Http.header_value
                     (ToString rt (or_else transactionHash (JStr "")))) in
           return_ (Next [ ("X-Payment-Verified", "true");
                           ("X-Transaction-Hash", hash);
                           ("X-AI-Crawler-Paid", name_or_unknown crawlerName) ]))
          (fun error => return_ (Body 500 "Payment verification failed" []))
      else
        return_ (Body 402 (stringify (x402Response config request crawlerName))
                   [ ("Content-Type", "application/json");
                     ("X-AI-Crawler-Detected", name_or_unknown crawlerName);
                     ("X-Payment-Required", "true") ])
  | None =>
      return_ (Body 402 (stringify (x402Response config request crawlerName))
                 [ ("Content-Type", "application/json");
                   ("X-AI-Crawler-Detected", name_or_unknown crawlerName);
                   ("X-Payment-Required", "true") ])
  end.

(** Helper to block all AI crawlers without payment. *)
Definition blockAICrawlers (recipientAddress : string) (price : option string)
  : NextRequest -> M Reply Reply :=
  aiCrawlerMiddleware
    {| enabled := true;
       price := default "1000000000000000" price;
       recipientAddress := recipientAddress;
       network := Some MonadUtils.testnet;
       facilitatorUrl := None;
       allowedCrawlers := None;
       description := Some "AI Crawler Access Fee - Support content creators" |}.

(** Helper to allow specific crawlers while blocking others. *)
Definition allowSpecificCrawlers (recipientAddress : string)
    (allowedCrawlers : list string) (price : option string)
  : NextRequest -> M Reply Reply :=
  aiCrawlerMiddleware
    {| enabled := true;
       price := default "1000000000000000" price;
       recipientAddress := recipientAddress;
       network := Some MonadUtils.testnet;
       facilitatorUrl := None;
       allowedCrawlers := Some allowedCrawlers;
       description := Some "Restricted AI Crawler Access" |}.

End WithNetwork.

End AIMiddleware.

(** ** Payment middleware: the payment path *)

Module X402Payment.
Import Handler JSON JsValue Async Protocol X402Middleware.
Local Open Scope async_scope.

(** The payment requirements as the middleware builds them, serialized:
    the properties in the order of the object literal, those that are
    [undefined] left out, [extra] being [null]. *)
Definition requirements_json (r : PaymentRequirements) : json :=
  JObj
    ([ ("scheme", JStr (Protocol.scheme r));
       ("network", JStr (Protocol.network r));
       ("maxAmountRequired", JStr (maxAmountRequired r));
       ("resource", JStr (resource r)) ]
     ++ optional "description" (JStr <$> Protocol.description r)
     ++ optional "mimeType" (JStr <$> Protocol.mimeType r)
     ++ optional "outputSchema" (Protocol.outputSchema r)
     ++ [ ("payTo", JStr (payTo r)) ]
     ++ optional "maxTimeoutSeconds" (JNum <$> Protocol.maxTimeoutSeconds r)
     ++ [ ("extra", default JNull (extra r)) ]).

(** The [VerifyRequest] and the [SettleRequest]. *)
Definition facilitator_request (paymentHeader : string)
    (paymentRequirements : PaymentRequirements) : json :=
  JObj [ ("x402Version", JNum X402_VERSION);
         ("paymentHeader", JStr paymentHeader);
         ("paymentRequirements", requirements_json paymentRequirements) ].

(** [fetch(`${facilitatorUrl}/verify`, ...)] and
    [fetch(`${facilitatorUrl}/settle`, ...)] *)
Definition facilitator_call (facilitatorUrl endpoint paymentHeader : string)
    (paymentRequirements : PaymentRequirements) : Http.Request :=
  {| Http.url := facilitatorUrl +:+ endpoint;
     Http.method := "POST";
     Http.headers := {[ "Content-Type" := "application/json" ]};
     Http.body :=
       Some (stringify (facilitator_request paymentHeader paymentRequirements)) |}.

(** What the payment path answers: [NextResponse.json(body, { status })],
    or the response of the route with the headers set on it. *)
Inductive PaymentOutcome :=
| Refused (status : N) (body : json)
| Forwarded (headers : list (string * string)).

(** [if (time) responseHeaders.set(name, time)] *)
Definition timing (name : string) (time : option string)
  : list (string * string) :=
  match time with
  | Some t => if Js.truthy t then [(name, t)] else []
  | None => []
  end.

(** The value of the X-Payment-Response header. *)
Definition paymentResponseHeader (settlement : json) : string :=
  Base64.encode (stringify (JObj [("settlement", settlement)])).

Section WithNetwork.
Context (rt : Runtime) (net : Internet).

(** The statements after the 402 answer: the request has a payment
    header. *)
Definition processPayment (facilitatorConfig : FacilitatorConfig)
    (paymentHeader : string) (paymentRequirements : PaymentRequirements)
  : M PaymentOutcome PaymentOutcome :=
  let facilitatorUrl := facilitator_url facilitatorConfig in
  try_catch
    ((* Parse the X-PAYMENT header (base64 encoded PaymentPayload) *)
     let paymentPayloadJson := Utf8.toString (Base64.decode paymentHeader) in
     let* paymentPayload := lift (JSON_parse rt paymentPayloadJson) in
     let* x402Version := lift (property (Some paymentPayload) "x402Version") in
     (* Validate payment payload format *)
     let* _ := return_if (negb (is_one x402Version))
       (Refused 400
          (JObj [("error", JStr ("Unsupported x402 version: " +:+
                                 ToString_opt rt x402Version))])) in
     let* scheme := lift (property (Some paymentPayload) "scheme") in
     let* _ := return_if (negb (is_string scheme MONAD_SCHEME))
       (Refused 400
          (JObj [("error", JStr ("Unsupported payment scheme: " +:+
                                 ToString_opt rt scheme))])) in
     (* Step 1: Verify payment (fast, no blockchain submission) *)
     let* verifyResponse :=
       fetch net (facilitator_call facilitatorUrl "/verify"
                    paymentHeader paymentRequirements) in
     let* verification := lift (Http.body_json verifyResponse) in
     let verificationTime :=
       Http.response_headers verifyResponse !! "x-verification-time" in
     (* Check if payment is valid *)
     let* isValid := lift (property (Some verification) "isValid") in
     let* _ :=
       if negb (truthy_value isValid) then
         let* invalidReason :=
           lift (property (Some verification) "invalidReason") in
         return_ (Refused 403
           (JObj ([("error", JStr "Payment verification failed")]
                  ++ optional "message" invalidReason)))
       else ret tt in
     (* Step 2: Settle payment BEFORE providing resource *)
     let* settleResponse :=
       fetch net (facilitator_call facilitatorUrl "/settle"
                    paymentHeader paymentRequirements) in
     let* settlement := lift (Http.body_json settleResponse) in
     let settlementTime :=
       Http.response_headers settleResponse !! "x-settlement-time" in
     (* Step 3: Only continue if payment settled successfully *)
     let* success := lift (property (Some settlement) "success") in
     let* _ :=
       if negb (truthy_value success) then
         let* error := lift (property (Some settlement) "error") in
         return_ (Refused 402
           (JObj ([("error", JStr "Payment settlement failed")]
                  ++ optional "message" error)))
       else ret tt in
     (* Step 4: Payment settled! Now execute the route handler *)
     (* Step 5: Add X-PAYMENT-RESPONSE header per x402 spec *)
     return_ (Forwarded
       ([("X-Payment-Response", paymentResponseHeader settlement)]
        ++ timing "X-Verification-Time" verificationTime
        ++ timing "X-Settlement-Time" settlementTime)))
    (fun error =>
       return_ (Refused 500
         (JObj [ ("error", JStr "Payment processing failed");
                 ("message", JStr (message error)) ]))).

(** The middleware with its payment path. *)
Definition paymentMiddleware (recipientAddress : string)
    (routes : gmap string RouteConfig) (facilitatorConfig : FacilitatorConfig)
    (request : NextRequest)
  : completion (Answer + PaymentOutcome) * list Call :=
  match X402Middleware.paymentMiddleware recipientAddress routes
          facilitatorConfig request with
  | Returned (Process paymentHeader paymentRequirements) =>
      match run (processPayment facilitatorConfig paymentHeader
                   paymentRequirements) with
      | (Returned outcome, log) => (Returned (inr outcome), log)
      | (Uncaught e, log) => (Uncaught e, log)
      end
  | Returned answer => (Returned (inl answer), [])
  | Uncaught e => (Uncaught e, [])
  end.

End WithNetwork.

End X402Payment.

(** ** Facilitator client *)

Module FacilitatorClient.
Import Handler JSON JsValue Async.
Local Open Scope async_scope.

(** [`HTTP ${response.status}`] *)
Definition http_status (status : N) : string :=
  "HTTP " +:+ Js.int_toString (Z.of_N status).

Definition post (facilitatorUrl : string) (body : json) : Http.Request :=
  {| Http.url := facilitatorUrl;
     Http.method := "POST";
     Http.headers := {[ "Content-Type" := "application/json" ]};
     Http.body := Some (stringify body) |}.

Section WithNetwork.
Context (net : Internet).

(** Verify a payment through the facilitator (does NOT submit to
    blockchain). *)
Definition verifyPayment (facilitatorUrl signedTransaction expectedRecipient
    expectedAmount : string) (expectedNetwork : option string) : M json json :=
  try_catch
    (let* response :=
       fetch net (post facilitatorUrl
         (JObj [ ("signedTransaction", JStr signedTransaction);
                 ("expectedRecipient", JStr expectedRecipient);
                 ("expectedAmount", JStr expectedAmount);
                 ("expectedNetwork",
                  JStr (default "testnet" expectedNetwork)) ])) in
     let* data := lift (Http.body_json response) in
     if negb (Http.ok response) then
       let* error := lift (property (Some data) "error") in
       let* message := lift (property (Some data) "message") in
       return_ (JObj
         [ ("valid", JBool false);
           ("error", or_else error (JStr "Verification failed"));
           ("message",
            or_else message (JStr (http_status (Http.status response)))) ])
     else return_ data)
    (fun error =>
       return_ (JObj [ ("valid", JBool false);
                       ("error", JStr "Network error");
                       ("message", JStr (Handler.message error)) ])).

(** Settle a payment through the facilitator (submits to blockchain). *)
Definition settlePayment (facilitatorUrl signedTransaction : string)
    (expectedNetwork : option string) : M json json :=
  try_catch
    (let* response :=
       fetch net (post facilitatorUrl
         (JObj [ ("signedTransaction", JStr signedTransaction);
                 ("expectedNetwork",
                  JStr (default "testnet" expectedNetwork)) ])) in
     let* data := lift (Http.body_json response) in
     if negb (Http.ok response) then
       let* error := lift (property (Some data) "error") in
       let* message := lift (property (Some data) "message") in
       return_ (JObj
         [ ("settled", JBool false);
           ("error", or_else error (JStr "Settlement failed"));
           ("message",
            or_else message (JStr (http_status (Http.status response)))) ])
     else return_ data)
    (fun error =>
       return_ (JObj [ ("settled", JBool false);
                       ("error", JStr "Network error");
                       ("message", JStr (Handler.message error)) ])).

(** Facilitator URL MUST be provided - no defaults. *)
Definition verifyPaymentSimple (facilitatorUrl signedTransaction
    expectedRecipient expectedAmount : string) (expectedNetwork : option string)
  : M json json :=
  if negb (Js.truthy facilitatorUrl)
  then throw (Error "Facilitator URL is required - no default available")
  else verifyPayment (facilitatorUrl +:+ "/verify") signedTransaction
         expectedRecipient expectedAmount
         (Some (default "testnet" expectedNetwork)).

Definition settlePaymentSimple (facilitatorUrl signedTransaction : string)
    (expectedNetwork : option string) : M json json :=
  if negb (Js.truthy facilitatorUrl)
  then throw (Error "Facilitator URL is required - no default available")
  else settlePayment (facilitatorUrl +:+ "/settle") signedTransaction
         (Some (default "testnet" expectedNetwork)).

End WithNetwork.

End FacilitatorClient.

(** ** JSON texts *)

Module JsonText.
Import JSON.

(** The text of the elements of an array and of the properties of an
    object, as [stringify] writes them. *)
Fixpoint elements (l : list json) : string :=
  match l with
  | [] => ""
  | x :: r =>
      stringify x +:+ match r with [] => "" | _ => "," +:+ elements r end
  end.

Fixpoint properties (l : list (string * json)) : string :=
  match l with
  | [] => ""
  | kv :: r =>
      quote (fst kv) +:+ ":" +:+ stringify (snd kv) +:+
      match r with [] => "" | _ => "," +:+ properties r end
  end.

Fixpoint distinct (l : list string) : bool :=
  match l with
  | [] => true
  | k :: r => negb (existsb (String.eqb k) r) && distinct r
  end.

(** A key made of digits: an object lists its integer keys first,
    whatever the order in which they were defined. *)
Definition index_like (k : string) : bool :=
  negb (String.eqb k "") && Js.forall_chars is_digit k.

Definition safe_integer (z : Z) : bool := ((- 2 ^ 53 <? z) && (z <? 2 ^ 53))%Z.

(** The values on which the model of [JSON] is exact: the numbers are
    safe integers, and the keys of an object are distinct and none is made
    of digits. *)
Fixpoint plain (v : json) : bool :=
  match v with
  | JNull | JBool _ | JStr _ => true
  | JNum z => safe_integer z
  | JFloat _ _ => false
  | JArr items =>
      (fix all (l : list json) : bool :=
         match l with
         | [] => true
         | x :: r => plain x && all r
         end) items
  | JObj members =>
      distinct (map fst members) &&
      (fix all (l : list (string * json)) : bool :=
         match l with
         | [] => true
         | kv :: r => negb (index_like (fst kv)) && plain (snd kv) && all r
         end) members
  end.

(** What may follow a value in a text: nothing, a comma, or the end of the
    enclosing array or object. *)
Definition delimited (rest : string) : bool :=
  match rest with
  | EmptyString => true
  | String c _ => Ascii.eqb c "," || Ascii.eqb c "]" || Ascii.eqb c "}"
  end.

(** The parser reads the text of [v] back as [v], whatever follows it. *)
Definition read_back (v : json) : Prop :=
  forall (rest : string) (fuel : nat),
    delimited rest = true ->
    String.length (stringify v) <= fuel ->
    parse_value fuel (stringify v +:+ rest) = Some (v, rest).

(** The strings of a value are well-formed UTF-8. *)
Fixpoint text (v : json) : bool :=
  match v with
  | JStr s => Utf8.valid s
  | JArr items =>
      (fix all (l : list json) : bool :=
         match l with
         | [] => true
         | x :: r => text x && all r
         end) items
  | JObj members =>
      (fix all (l : list (string * json)) : bool :=
         match l with
         | [] => true
         | kv :: r => Utf8.valid (fst kv) && text (snd kv) && all r
         end) members
  | _ => true
  end.

End JsonText.

(** ** Chain utilities (monad-utils): wallets and transactions *)

Module MonadChain.
Import Handler MonadUtils Wallets Async.
Local Open Scope async_scope.

(** The result of [verifyTransaction]. *)
Record Verdict := {
  valid : bool;
  reason : option string;
  transaction : option ChainTransaction;
}.

(** Ensure private key has 0x prefix. *)
Definition formattedKey (privateKey : string) : string :=
  if Js.startsWith privateKey "0x" then privateKey else "0x" +:+ privateKey.

(** [x || undefined] on a [bigint | null] *)
Definition nonzero (x : option Z) : option Z :=
  match x with
  | Some z => if (z =? 0)%Z then None else Some z
  | None => None
  end.

Section WithSdk.
Context {R : Type} (sdk : Sdk).

(** [getMonadNetwork], called from an asynchronous function. *)
Definition getMonadNetwork (network : Network) : M R MonadNetworkConfig :=
  match MONAD_NETWORKS !! network_name network with
  | Some config => ret config
  | None =>
      throw (Error ("Unsupported Monad network: " +:+ network_name network))
  end.

(** The provider is determined by the configuration it is built from. *)
Definition createMonadProvider (network : Network) : M R MonadNetworkConfig :=
  getMonadNetwork network.

Definition createMonadWallet (privateKey : string) (network : Network)
  : M R Wallet :=
  let* provider := createMonadProvider network in
  lift (new_Wallet sdk (formattedKey privateKey)).

Definition buildTransferTransaction (from : string) (to amount : JSON.json)
    (network : Network) : M R TransactionRequest :=
  let* provider := createMonadProvider network in
  (* Get current gas price and nonce *)
  let* feeData := lift (getFeeData sdk provider) in
  let* nonce := lift (getTransactionCount sdk provider from) in
  let* config := getMonadNetwork network in
  ret {| Wallets.from := from;
         Wallets.to := to;
         Wallets.value := amount;
         Wallets.nonce := nonce;
         gasLimit := 21000;
         request_maxFeePerGas := nonzero (maxFeePerGas feeData);
         request_maxPriorityFeePerGas := nonzero (maxPriorityFeePerGas feeData);
         Wallets.chainId := MonadUtils.chainId config;
         type := 2 |}.

Definition signTransaction (wallet : Wallet) (transaction : TransactionRequest)
  : M R string :=
  fun log =>
    match wallet_signTransaction sdk wallet transaction with
    | inl e => (Throw e, log ++ [Sign wallet transaction])
    | inr signedTx => (Value signedTx, log ++ [Sign wallet transaction])
    end.

Definition getBalance (address : string) (network : Network) : M R Z :=
  let* provider := createMonadProvider network in
  lift (Wallets.getBalance sdk provider address).

Definition getExplorerUrl (txHash : string) (network : Network) : M R string :=
  let* config := getMonadNetwork network in
  ret (explorer config +:+ "/tx/" +:+ txHash).

Definition getAddressExplorerUrl (address : string) (network : Network)
  : M R string :=
  let* config := getMonadNetwork network in
  ret (explorer config +:+ "/address/" +:+ address).

(** Validate private key format. *)
Definition isValidPrivateKey (privateKey : string) : bool :=
  match new_Wallet sdk (formattedKey privateKey) with
  | inr _ => true
  | inl _ => false
  end.

End WithSdk.

(** Verify a transaction on-chain. *)
Definition verifyTransaction (sdk : Sdk) (txHash expectedRecipient
    expectedAmount : string) (network : Network) : M Verdict Verdict :=
  try_catch
    (let* provider := createMonadProvider network in
     let* tx := lift (getTransaction sdk provider txHash) in
     match tx with
     | None =>
         return_ {| valid := false;
                    reason := Some "Transaction not found";
                    transaction := None |}
     | Some tx =>
         (* Verify recipient *)
         let* _ := return_if
           (FacilitatorVerify.recipient_differs (chain_to tx) expectedRecipient)
           {| valid := false;
              reason := Some (FacilitatorVerify.recipient_mismatch
                                expectedRecipient (chain_to tx));
              transaction := None |} in
         (* Verify amount *)
         let* _ := return_if
           (negb (String.eqb (Js.int_toString (chain_value tx)) expectedAmount))
           {| valid := false;
              reason := Some (FacilitatorVerify.amount_mismatch
                                expectedAmount (chain_value tx));
              transaction := None |} in
         return_ {| valid := true; reason := None; transaction := Some tx |}
     end)
    (fun error =>
       return_ {| valid := false;
                  reason := Some (message error);
                  transaction := None |}).

End MonadChain.

(** ** The buyer's client (x402-axios) *)

Module X402Axios.
Import Handler JSON JsValue Wallets Async.
Local Open Scope async_scope.

Inductive Method := GET | POST | PUT | PATCH | DELETE | HEAD | OPTIONS.

Definition method_name (m : Method) : string :=
  match m with
  | GET => "GET" | POST => "POST" | PUT => "PUT" | PATCH => "PATCH"
  | DELETE => "DELETE" | HEAD => "HEAD" | OPTIONS => "OPTIONS"
  end.

Inductive ResponseType := json | text | blob | arraybuffer | document | stream.

(** The data of a response: a value, or the bytes of a [Blob] or of an
    [ArrayBuffer]. *)
Inductive Data :=
| Plain (v : JSON.json)
| Blob (bytes : string)
| ArrayBuffer (bytes : string).

(** The request configuration. The fields that the function hands to
    [fetch] unread are left out, and so are request bodies that are a
    [FormData] or a [Blob]. *)
Record AxiosRequestConfig := {
  url : option string;
  method : option Method;
  baseURL : option string;
  headers : option (gmap string string);
  data : option JSON.json;
  params : option (list (string * option JSON.json));
  timeout : option Z;
  responseType : option ResponseType;
  transformRequest :
    option (list (JSON.json -> option (gmap string string) -> JsError + JSON.json));
  transformResponse : option (list (Data -> JsError + Data));
  privateKey : option string;
  wallet : option Wallet;
}.

Record PaymentInfo := {
  transactionHash : JSON.json;
  amount : JSON.json;
  recipient : JSON.json;
  settled : bool;
}.

Record AxiosResponse := {
  response_data : Data;
  status : N;
  statusText : string;
  response_headers : gmap string string;
  config : AxiosRequestConfig;
  paymentInfo : option PaymentInfo;
}.

(** Decode X-Payment-Response header; [JNull] is [null]. *)
Definition decodeXPaymentResponse (header : option string) : JSON.json :=
  match header with
  | Some h =>
      if Js.truthy h then
        match parse (Utf8.toString (Base64.decode h)) with
        | Some v => v
        | None => JNull
        end
      else JNull
  | None => JNull
  end.

(** [s.replace(/\/$/, '')] *)
Fixpoint strip_trailing_slash (s : string) : string :=
  match s with
  | EmptyString => EmptyString
  | String c r =>
      match r with
      | EmptyString => if Ascii.eqb c "/" then EmptyString else s
      | _ => String c (strip_trailing_slash r)
      end
  end.

(** [s.replace(/^\//, '')] *)
Definition strip_leading_slash (s : string) : string :=
  match s with
  | String c r => if Ascii.eqb c "/" then r else s
  | EmptyString => EmptyString
  end.

Definition upper_hex (n : N) : ascii :=
  match String.get (N.to_nat n) "0123456789ABCDEF" with
  | Some c => c
  | None => "0"%char
  end.

(** The bytes that the serializer of [URLSearchParams] leaves as they
    are. *)
Definition form_safe (c : ascii) : bool :=
  Js.in_range 48 57 c || Js.in_range 65 90 c || Js.in_range 97 122 c
  || Ascii.eqb c "*" || Ascii.eqb c "-" || Ascii.eqb c "." || Ascii.eqb c "_".

Definition form_byte (c : ascii) : string :=
  if form_safe c then String c ""
  else if Ascii.eqb c " " then "+"
  else String "%" (String (upper_hex (Js.code c / 16))
                     (String (upper_hex (Js.code c mod 16)) "")).

Fixpoint form_urlencode (s : string) : string :=
  match s with
  | EmptyString => EmptyString
  | String c r => form_byte c +:+ form_urlencode r
  end.

(** [searchParams.toString()] after the entries whose value is neither
    [null] nor [undefined] have been appended. *)
Fixpoint query_string (rt : Runtime) (params : list (string * option JSON.json))
  : string :=
  match params with
  | [] => ""
  | (key, value) :: r =>
      match value with
      | None | Some JNull => query_string rt r
      | Some v =>
          let pair := form_urlencode key +:+ "=" +:+
                      form_urlencode (ToString rt v) in
          let more := query_string rt r in
          if Js.truthy more then pair +:+ "&" +:+ more else pair
      end
  end.

(** Build URL with baseURL and params. *)
Definition buildURL (rt : Runtime) (config : AxiosRequestConfig) : string :=
  let url := BotMiddleware.string_or (url config) "" in
  let url :=
    match baseURL config with
    | Some b =>
        if Js.truthy b
        then strip_trailing_slash b +:+ "/" +:+ strip_leading_slash url
        else url
    | None => url
    end in
  match params config with
  | Some params =>
      let queryString := query_string rt params in
      if Js.truthy queryString
      then url +:+ (if Js.includes url "?" then "&" else "?") +:+ queryString
      else url
  | None => url
  end.

(** [typeof data === 'object'] *)
Definition is_object (v : JSON.json) : bool :=
  match v with
  | JNull | JArr _ | JObj _ => true
  | _ => false
  end.

(** Transform request data based on config. *)
Definition transformRequestData (data : JSON.json) (config : AxiosRequestConfig)
  : JsError + JSON.json :=
  if negb (truthy_value (Some data)) then inr data
  else
    match transformRequest config with
    | Some (t :: ts) =>
        fold_left
          (fun acc transformer =>
             match acc with
             | inr v => transformer v (headers config)
             | inl e => inl e
             end)
          (t :: ts) (inr data)
    | _ =>
        (* Default transformation *)
        if is_object data then inr (JStr (stringify data)) else inr data
    end.

(** Transform response data based on config. *)
Definition transformResponseData (data : Data) (config : AxiosRequestConfig)
  : JsError + Data :=
  match transformResponse config with
  | Some (t :: ts) =>
      fold_left
        (fun acc transformer =>
           match acc with
           | inr v => transformer v
           | inl e => inl e
           end)
        (t :: ts) (inr data)
  | _ => inr data
  end.

(** The body that [fetch] sends for [init.body]: nothing for [null], the
    string of the value otherwise. *)
Definition request_body (rt : Runtime) (body : option JSON.json) : option string :=
  match body with
  | None | Some JNull => None
  | Some v => Some (ToString rt v)
  end.

(** [d.k] on the data of a response. *)
Definition data_property (d : Data) (k : string) : JsError + option JSON.json :=
  match d with
  | Plain v => property (Some v) k
  | _ => inr None
  end.

(** The first character of a string. *)
Definition first_character (s : string) : string :=
  match s with
  | EmptyString => EmptyString
  | String b r =>
      let n :=
        if Utf8.is_ascii b then 0
        else if Js.in_range 194 223 b then 1
        else if Js.in_range 224 239 b then 2
        else 3 in
      String b (String.substring 0 n r)
  end.

(** [v[0]]; for a string it is its first code unit, given here by its
    first character. *)
Definition index0 (v : JSON.json) : option JSON.json :=
  match v with
  | JArr (x :: _) => Some x
  | JObj members => lookup "0" members
  | JStr (String b r) => Some (JStr (first_character (String b r)))
  | _ => None
  end.

(** [a || b], where [b] may be [undefined]. *)
Definition or_undefined (a b : option JSON.json) : option JSON.json :=
  if truthy_value a then a else b.

(** The members that every object inherits. *)
Definition object_prototype : list string :=
  [ "constructor"; "__defineGetter__"; "__defineSetter__"; "hasOwnProperty";
    "__lookupGetter__"; "__lookupSetter__"; "isPrototypeOf";
    "propertyIsEnumerable"; "toString"; "valueOf"; "__proto__";
    "toLocaleString" ].

(** [networkMap[networkId] || 'testnet']: a network, or the text of the
    inherited member that the key names. *)
Definition mapped_network (rt : Runtime) (networkId : JSON.json)
  : MonadUtils.Network + string :=
  let key := ToString rt networkId in
  if String.eqb key "monad-testnet" then inl MonadUtils.testnet
  else if String.eqb key "monad-mainnet" then inl MonadUtils.mainnet
  else if String.eqb key "__proto__" then inr "[object Object]"
  else if existsb (String.eqb key) object_prototype
  then inr (builtin_toString rt key)
  else inl MonadUtils.testnet.

(** Handle response based on responseType. *)
Definition read_response (responseType : ResponseType)
    (response : Http.Response) : JsError + Data :=
  match responseType with
  | json => sum_map id Plain (Http.body_json response)
  | blob => sum_map id Blob (Http.body_blob response)
  | arraybuffer => sum_map id ArrayBuffer (Http.body_arrayBuffer response)
  | _ => sum_map id (fun s => Plain (JStr s)) (Http.body_text response)
  end.

(** [responseData.accepts?.[0] || responseData] *)
Definition paymentReqs (responseData : Data) : JsError + Data :=
  match data_property responseData "accepts" with
  | inl e => inl e
  | inr accepts =>
      let first :=
        match accepts with
        | None | Some JNull => None
        | Some a => index0 a
        end in
      inr match first with
          | Some x => if truthy_value first then Plain x else responseData
          | None => responseData
          end
  end.

(** The x402 PaymentPayload of a signed transaction. *)
Definition paymentPayload (scheme networkId : JSON.json) (signedTx : string)
  : JSON.json :=
  JObj [ ("x402Version", JNum 1);
         ("scheme", scheme);
         ("network", networkId);
         ("payload", JObj [("signedTransaction", JStr signedTx)]) ].

Section WithNetwork.
Context (rt : Runtime) (net : Internet) (sdk : Sdk).

(** [createMonadProvider(network)] on what [mapped_network] gives. *)
Definition provider_of {R} (network : MonadUtils.Network + string)
  : M R (MonadUtils.Network) :=
  match network with
  | inl n => let* _ := MonadChain.createMonadProvider n in ret n
  | inr shown => throw (Error ("Unsupported Monad network: " +:+ shown))
  end.

(** Main x402-axios function. *)
Definition x402axiosMain (finalConfig : AxiosRequestConfig)
  : M AxiosResponse AxiosResponse :=
  let method := default GET (X402Axios.method finalConfig) in
  let headers := default ∅ (X402Axios.headers finalConfig) in
  let responseType := default json (X402Axios.responseType finalConfig) in
  let url := buildURL rt finalConfig in
  (* Step 1: Make initial request (no payment) *)
  let init_headers : gmap string string :=
    headers ∪ {[ "Content-Type" := "application/json" ]} in
  (* Add body for methods that support it *)
  let* body :=
    match data finalConfig with
    | Some data =>
        if truthy_value (Some data) &&
           match method with POST | PUT | PATCH => true | _ => false end
        then
          let* b := lift (transformRequestData data finalConfig) in
          ret (Some b)
        else ret None
    | None => ret None
    end in
  let init := {| Http.url := url;
                 Http.method := method_name method;
                 Http.headers := init_headers;
                 Http.body := request_body rt body |} in
  (* Add timeout if specified: the signal only makes [fetch] fail, which
     is one of the answers of the network *)
  let* response := fetch net init in
  let* responseData := lift (read_response responseType response) in
  (* If not 402, return immediately (no payment required) *)
  let* _ :=
    if negb (Http.status response =? 402)%N then
      let* transformedData := lift (transformResponseData responseData finalConfig) in
      return_ {| response_data := transformedData;
                 status := Http.status response;
                 statusText := Http.statusText response;
                 response_headers := Http.response_headers response;
                 config := finalConfig;
                 paymentInfo := None |}
    else ret tt in
  (* Step 2: Extract payment requirements from 402 response *)
  let* paymentReqs := lift (paymentReqs responseData) in
  let* payTo := lift (data_property paymentReqs "payTo") in
  let* paymentAddress := lift (data_property paymentReqs "paymentAddress") in
  let recipient := or_undefined payTo paymentAddress in
  let* maxAmountRequired := lift (data_property paymentReqs "maxAmountRequired") in
  let* price := lift (data_property paymentReqs "price") in
  let amount := or_undefined maxAmountRequired price in
  let* networkId := lift (data_property paymentReqs "network") in
  match networkId with
  | None => throw (Error "Network not specified in 402 payment requirements")
  | Some networkId =>
  if negb (truthy_value (Some networkId))
  then throw (Error "Network not specified in 402 payment requirements")
  else
  let* scheme := lift (data_property paymentReqs "scheme") in
  let scheme := or_else scheme (JStr "exact") in
  match recipient, amount with
  | Some recipient, Some amount =>
  if negb (truthy_value (Some recipient)) || negb (truthy_value (Some amount))
  then throw (Error "Invalid 402 response: missing payment requirements")
  else
  (* the requirements are logged: recipient.slice(0, 10) *)
  let* _ :=
    match recipient with
    | JStr _ | JArr _ => ret tt
    | _ => throw (TypeError "recipient.slice is not a function")
    end in
  (* Step 3: Determine network from 402 response *)
  let network := mapped_network rt networkId in
  (* Step 4: Create wallet from private key or use provided wallet *)
  let* monadWallet :=
    match wallet finalConfig with
    | Some wallet => ret wallet
    | None =>
        match privateKey finalConfig with
        | Some privateKey =>
            if Js.truthy privateKey then
              let* n := provider_of network in
              MonadChain.createMonadWallet sdk privateKey n
            else throw (Error "Either privateKey or wallet must be provided")
        | None => throw (Error "Either privateKey or wallet must be provided")
        end
    end in
  (* Step 5: Build transaction based on scheme *)
  let* _ :=
    if negb (is_string (Some scheme) "evm-transfer")
    then throw (Error ("Unsupported payment scheme: " +:+ ToString rt scheme))
    else ret tt in
  let* n := provider_of network in
  let* transaction :=
    MonadChain.buildTransferTransaction sdk (address monadWallet)
      recipient amount n in
  (* Step 6: Sign transaction *)
  let* signedTx := MonadChain.signTransaction sdk monadWallet transaction in
  (* Step 7: Create x402 PaymentPayload *)
  let paymentPayload := paymentPayload scheme networkId signedTx in
  (* Step 8: Encode as base64 for X-PAYMENT header *)
  let paymentHeader := Base64.encode (stringify paymentPayload) in
  (* Step 9: Retry request with X-PAYMENT header *)
  let paidInit := {| Http.url := url;
                     Http.method := method_name method;
                     Http.headers := <[ "X-PAYMENT" := paymentHeader ]> init_headers;
                     Http.body := request_body rt body |} in
  let* response := fetch net paidInit in
  let* responseData := lift (read_response responseType response) in
  (* Step 10: Extract payment info from X-Payment-Response header *)
  let paymentResponseHeader :=
    Http.response_headers response !! "x-payment-response" in
  let* paymentInfo :=
    if Js.truthy_opt paymentResponseHeader then
      let decoded := decodeXPaymentResponse paymentResponseHeader in
      let settlement :=
        match decoded with
        | JNull => None
        | _ => get decoded "settlement"
        end in
      let txHash :=
        match settlement with
        | None | Some JNull => None
        | Some s => get s "txHash"
        end in
      match txHash with
      | Some hash =>
          if truthy_value txHash then
            let* success := lift (property settlement "success") in
            ret (Some {| transactionHash := hash;
                         amount := amount;
                         recipient := recipient;
                         settled := is_true success |})
          else ret None
      | None => ret None
      end
    else ret None in
  let* transformedData := lift (transformResponseData responseData finalConfig) in
  return_ {| response_data := transformedData;
             status := Http.status response;
             statusText := Http.statusText response;
             response_headers := Http.response_headers response;
             config := finalConfig;
             paymentInfo := paymentInfo |}
  | _, _ => throw (Error "Invalid 402 response: missing payment requirements")
  end
  end.

(** The calls [x402axios(url, config)], [x402axios.get(url, config)] and
    the like: the configuration with the URL, the method and the data
    set. *)
Definition with_url (config : option AxiosRequestConfig) (url : string)
    (method : option Method) (data : option (option JSON.json))
  : AxiosRequestConfig :=
  let c := default
    {| X402Axios.url := None; X402Axios.method := None; baseURL := None;
       X402Axios.headers := None; X402Axios.data := None; params := None;
       timeout := None; X402Axios.responseType := None;
       transformRequest := None; transformResponse := None;
       privateKey := None; wallet := None |} config in
  {| X402Axios.url := Some url;
     X402Axios.method :=
       match method with Some m => Some m | None => X402Axios.method c end;
     baseURL := baseURL c;
     X402Axios.headers := X402Axios.headers c;
     X402Axios.data :=
       match data with Some d => d | None => X402Axios.data c end;
     params := params c;
     timeout := timeout c;
     X402Axios.responseType := X402Axios.responseType c;
     transformRequest := transformRequest c;
     transformResponse := transformResponse c;
     privateKey := privateKey c;
     wallet := wallet c |}.

Definition x402axios_get (url : string) (config : option AxiosRequestConfig)
  : M AxiosResponse AxiosResponse :=
  x402axiosMain (with_url config url (Some GET) None).

Definition x402axios_post (url : string) (data : option JSON.json)
    (config : option AxiosRequestConfig) : M AxiosResponse AxiosResponse :=
  x402axiosMain (with_url config url (Some POST) (Some data)).

Definition x402axios_put (url : string) (data : option JSON.json)
    (config : option AxiosRequestConfig) : M AxiosResponse AxiosResponse :=
  x402axiosMain (with_url config url (Some PUT) (Some data)).

Definition x402axios_patch (url : string) (data : option JSON.json)
    (config : option AxiosRequestConfig) : M AxiosResponse AxiosResponse :=
  x402axiosMain (with_url config url (Some PATCH) (Some data)).

Definition x402axios_delete (url : string) (config : option AxiosRequestConfig)
  : M AxiosResponse AxiosResponse :=
  x402axiosMain (with_url config url (Some DELETE) None).

Definition x402axios_head (url : string) (config : option AxiosRequestConfig)
  : M AxiosResponse AxiosResponse :=
  x402axiosMain (with_url config url (Some HEAD) None).

Definition x402axios_options (url : string) (config : option AxiosRequestConfig)
  : M AxiosResponse AxiosResponse :=
  x402axiosMain (with_url config url (Some OPTIONS) None).

End WithNetwork.

End X402Axios.

(** ** The middleware in front of the facilitator of the repository *)

Module Deployment.
Import Handler JSON Protocol Async.

(** The body of the response of verify. *)
Definition verify_response_json (r : VerifyResponse) : json :=
  JObj [ ("isValid", JBool (isValid r));
         ("invalidReason",
          match invalidReason r with Some s => JStr s | None => JNull end) ].

(** The body of the response of settle. *)
Definition settle_response_json (r : SettleResponse) : json :=
  let nullable (s : option string) :=
    match s with Some s => JStr s | None => JNull end in
  JObj [ ("success", JBool (success r));
         ("error", nullable (error r));
         ("txHash", nullable (txHash r));
         ("networkId", nullable (networkId r)) ].

(** The Monad network identifier that the middleware gives to the network
    of a route. *)
Definition network_identifier (routeNetwork : string) : string :=
  if String.eqb routeNetwork "mainnet" then MONAD_MAINNET
  else if String.eqb routeNetwork "testnet" then MONAD_TESTNET
  else if Js.startsWith routeNetwork "monad-" then routeNetwork
  else "monad-" +:+ routeNetwork.

(** The payment requirements that the middleware builds for a request to
    a route. *)
Definition requirements_of (recipientAddress : string)
    (routeConfig : X402Middleware.RouteConfig) (routeNetwork : string)
    (request : NextRequest) : PaymentRequirements :=
  {| scheme := MONAD_SCHEME;
     network := network_identifier routeNetwork;
     maxAmountRequired := X402Middleware.price routeConfig;
     resource := url request;
     description :=
       X402Middleware.config routeConfig ≫= X402Middleware.description;
     mimeType := X402Middleware.config routeConfig ≫= X402Middleware.mimeType;
     outputSchema :=
       X402Middleware.config routeConfig ≫= X402Middleware.outputSchema;
     payTo := recipientAddress;
     maxTimeoutSeconds :=
       X402Middleware.config routeConfig ≫= X402Middleware.maxTimeoutSeconds;
     extra := None |}.

(** The facilitator behind [facilitatorUrl] is the pair of handlers of the
    repository, on the chain SDK [ethers]: a response to the request that
    the middleware sends for the header [h] and the requirements [reqs]
    carries what the handler answers to the body with these fields. *)
Definition served_by_handlers (net : Internet) (ethers : MonadUtils.Ethers)
    (facilitatorUrl h : string) (reqs : PaymentRequirements) : Prop :=
  (forall log response,
     net log (X402Payment.facilitator_call facilitatorUrl "/verify" h reqs)
     = inr response ->
     exists resp,
       fst (FacilitatorVerify.POST ethers
              {| FacilitatorVerify.x402Version := X402_VERSION;
                 FacilitatorVerify.paymentHeader := Some h;
                 FacilitatorVerify.paymentRequirements := Some reqs |})
       = Returned resp /\
       Http.body_json response = inr (verify_response_json (Protocol.body resp))) /\
  (forall log response,
     net log (X402Payment.facilitator_call facilitatorUrl "/settle" h reqs)
     = inr response ->
     exists resp,
       fst (FacilitatorSettle.POST ethers
              {| FacilitatorSettle.x402Version := X402_VERSION;
                 FacilitatorSettle.paymentHeader := Some h;
                 FacilitatorSettle.paymentRequirements := Some reqs |})
       = Returned resp /\
       Http.body_json response = inr (settle_response_json (Protocol.body resp))).

End Deployment.

(** ** Concrete inputs for the middlewares and the client *)

Module Scenarios.
Import Handler JSON Async.

Definition runtime : Runtime :=
  {| syntax_error :=
       fun _ => {| name := "SyntaxError"; message := "Unexpected token" |};
     number_toString := fun m e => Js.int_toString m +:+ "e" +:+ Js.int_toString e;
     builtin_toString := fun k => "function " +:+ k +:+ "() { [native code] }" |}.

(** A response with a JSON body. *)
Definition json_response (status : N) (headers : gmap string string)
    (v : json) : Http.Response :=
  {| Http.status := status;
     Http.statusText := "";
     Http.response_headers := headers;
     Http.body_json := inr v;
     Http.body_text := inr (stringify v);
     Http.body_blob := inr (stringify v);
     Http.body_arrayBuffer := inr (stringify v) |}.

(** A request to the protected route that carries a payment. *)
Definition paid_request : NextRequest :=
  {| headers := {[ "x-payment" := Samples.header ]};
     url := "https://example.org/api/protected/weather";
     pathname := "/api/protected/weather" |}.

(** The transaction of the payment: the price of the route to the
    payee. *)
Definition payment : MonadUtils.Transaction :=
  Samples.transaction Samples.payee 1000000000000000.

Definition chain : MonadUtils.Ethers :=
  Samples.ethers payment (inr Samples.submitted) (inr (Some Samples.receipt)).

(** The network in front of the facilitator of the repository: a request
    whose URL ends in [/verify] gets the answer of the verify handler to
    the body with the fields [h] and [reqs], any other one the answer of
    the settle handler. *)
Definition facilitator_network (ethers : MonadUtils.Ethers) (h : string)
    (reqs : Protocol.PaymentRequirements) : Internet :=
  fun _ request =>
    if Js.includes (Http.url request) "/verify" then
      match fst (FacilitatorVerify.POST ethers
                   {| FacilitatorVerify.x402Version := Protocol.X402_VERSION;
                      FacilitatorVerify.paymentHeader := Some h;
                      FacilitatorVerify.paymentRequirements := Some reqs |}) with
      | Returned resp =>
          inr (json_response (Protocol.status resp) ∅
                 (Deployment.verify_response_json (Protocol.body resp)))
      | Uncaught e => inl e
      end
    else
      match fst (FacilitatorSettle.POST ethers
                   {| FacilitatorSettle.x402Version := Protocol.X402_VERSION;
                      FacilitatorSettle.paymentHeader := Some h;
                      FacilitatorSettle.paymentRequirements := Some reqs |}) with
      | Returned resp =>
          inr (json_response (Protocol.status resp) ∅
                 (Deployment.settle_response_json (Protocol.body resp)))
      | Uncaught e => inl e
      end.

(** The requirements of the protected route. *)
Definition route_requirements : Protocol.PaymentRequirements :=
  Deployment.requirements_of Samples.payee
    {| X402Middleware.price := "1000000000000000";
       X402Middleware.network := Some "testnet";
       X402Middleware.config := None |}
    "testnet" paid_request.


(** A chain on which the wait for the receipt fails with the fault of a
    transaction already submitted. *)
Definition replaying_chain : MonadUtils.Ethers :=
  Samples.ethers payment (inr Samples.submitted)
    (inl (Error "Transaction already submitted")).

(** The wallet of the client and a chain SDK with fixed answers. *)
Definition wallet : Wallets.Wallet := {| Wallets.address := Samples.payer |}.

Definition sdk : Wallets.Sdk :=
  {| Wallets.getFeeData := fun _ =>
       inr {| Wallets.maxFeePerGas := Some 2000000000%Z;
              Wallets.maxPriorityFeePerGas := Some 0%Z |};
     Wallets.getTransactionCount := fun _ _ => inr 7%Z;
     Wallets.getTransaction := fun _ _ =>
       inr (Some {| Wallets.chain_to := Some Samples.payee;
                    Wallets.chain_value := 1000000000000000 |});
     Wallets.getBalance := fun _ _ => inr 0%Z;
     Wallets.new_Wallet := fun _ => inr wallet;
     Wallets.wallet_signTransaction := fun _ _ => inr "0x02f86b" |}.

(** The body of the 402 response of the payment middleware. *)
Definition challenge : json :=
  JObj [ ("x402Version", JNum 1);
         ("accepts", JArr [X402Payment.requirements_json route_requirements]) ].

(** A server that asks for payment once, and a server that fails. *)
Definition paywall : Internet :=
  fun log _ =>
    match log with
    | [] => inr (json_response 402 ∅ challenge)
    | _ => inr (json_response 200 ∅ (JObj [("weather", JStr "sunny")]))
    end.

Definition broken_server : Internet :=
  fun _ _ => inr (json_response 500 ∅ (JObj [("error", JStr "unavailable")])).

(** A site behind [blockAllBots]. *)
Definition bot_paywall : Internet :=
  fun _ _ =>
    inr (json_response 402 ∅
           (BotMiddleware.x402Response
              {| BotMiddleware.enabled := true;
                 BotMiddleware.price := "1000000000000000";
                 BotMiddleware.recipientAddress := Samples.payee;
                 BotMiddleware.network := Some MonadUtils.testnet;
                 BotMiddleware.facilitatorUrl := None;
                 BotMiddleware.allowedBots := None;
                 BotMiddleware.description := None;
                 BotMiddleware.strictMode := None |}
              Samples.unpaid_request "Bot")).

Definition client_config : X402Axios.AxiosRequestConfig :=
  {| X402Axios.url := Some "https://example.org/api/protected/weather";
     X402Axios.method := None;
     X402Axios.baseURL := None;
     X402Axios.headers := None;
     X402Axios.data := None;
     X402Axios.params := None;
     X402Axios.timeout := None;
     X402Axios.responseType := None;
     X402Axios.transformRequest := None;
     X402Axios.transformResponse := None;
     X402Axios.privateKey := None;
     X402Axios.wallet := Some wallet |}.

End Scenarios.

(* ===================================================================== *)
(** * Part II: properties *)
(* ===================================================================== *)

#[local] Arguments String.append !_ _ / : simpl nomatch.

(** ** Characters and strings *)

Module JsFacts.
Import Js.

Lemma in_all_chars (c : ascii) : In c all_chars.
Proof.
  unfold all_chars. rewrite <- (ascii_nat_embedding c).
  apply in_map, in_seq. pose proof (nat_ascii_bounded c). lia.
Qed.

(** A property of characters that holds on the 256 of them. *)
Lemma ascii_forall (P : ascii -> bool) :
  forallb P all_chars = true -> forall c, P c = true.
Proof.
  intros H c. rewrite forallb_forall in H. apply H, in_all_chars.
Qed.

Lemma ascii_forall2 (P : ascii -> ascii -> bool) :
  forallb (fun a => forallb (P a) all_chars) all_chars = true ->
  forall a b, P a b = true.
Proof.
  intros H a b.
  apply (ascii_forall (P a)).
  apply (ascii_forall (fun a => forallb (P a) all_chars) H).
Qed.

(** Two characters with the same lower case have the same upper case. *)
Lemma lower_char_upper_char (a b : ascii) :
  lower_char a = lower_char b -> upper_char a = upper_char b.
Proof.
  intros H.
  pose proof (ascii_forall2
    (fun a b => implb (Ascii.eqb (lower_char a) (lower_char b))
                      (Ascii.eqb (upper_char a) (upper_char b)))) as E.
  specialize (E ltac:(vm_compute; reflexivity) a b). cbv beta in E.
  rewrite H, Ascii.eqb_refl in E. simpl in E.
  now apply Ascii.eqb_eq.
Qed.

Lemma match_here_same_case (pat mid post : string) :
  toLowerCase mid = toLowerCase pat ->
  match_here true pat (mid +:+ post) = true.
Proof.
  revert mid. induction pat as [|p pat IH]; intros mid H; [reflexivity|].
  destruct mid as [|c mid]; [discriminate|].
  simpl in H. injection H as Hc Hrest.
  simpl. rewrite (lower_char_upper_char _ _ Hc), Ascii.eqb_refl. simpl.
  now apply IH.
Qed.

Lemma search_here (i : bool) (pat s : string) :
  match_here i pat s = true -> search i pat s = true.
Proof. intros H. destruct s; simpl; rewrite H; reflexivity. Qed.

Lemma search_skip (i : bool) (pat pre s : string) :
  search i pat s = true -> search i pat (pre +:+ s) = true.
Proof.
  intros H. induction pre as [|c pre IH]; [exact H|].
  simpl. rewrite IH. apply orb_true_r.
Qed.

(** A case-insensitive literal matches every string that contains it in
    some letter case. *)
Lemma test_contains (word ua : string) :
  toLowerCase word = word ->
  Spec.contains_ignoring_case word ua ->
  test (re_i word) ua = true.
Proof.
  intros Hw (pre & mid & post & -> & Hmid).
  unfold test, re_i. simpl.
  apply search_skip, search_here, match_here_same_case.
  now rewrite Hw.
Qed.

Lemma contains_truthy (word ua : string) :
  word <> "" -> Spec.contains_ignoring_case word ua -> truthy ua = true.
Proof.
  intros Hw (pre & mid & post & -> & Hmid).
  destruct pre; [|reflexivity].
  destruct mid; [|reflexivity].
  simpl in Hmid. congruence.
Qed.

End JsFacts.

(** ** The bot classifiers *)

Module BotFacts.
Import Js JsFacts BotProtection AICrawler.

(** A user agent matched by one of the patterns is a bot, with or without
    the request. *)
Lemma isBot_of_pattern (ua : string) (request : option NextRequest) (re : RegExp) :
  In re BOT_PATTERNS -> test re ua = true -> isBot ua request = true.
Proof.
  intros Hin Ht. unfold isBot.
  destruct (negb (truthy ua)); [reflexivity|].
  assert (existsb (fun pattern => test pattern ua) BOT_PATTERNS = true) as ->.
  { apply existsb_exists. now exists re. }
  reflexivity.
Qed.

(** C8. Every User-Agent string that contains "bot", "crawler" or "spider"
    in any letter case is classified as a bot by [isBot], whether or not the
    request is supplied. *)
Theorem isBot_generic_tokens (ua : string) (request : option NextRequest) :
  Spec.contains_ignoring_case "bot" ua \/
  Spec.contains_ignoring_case "crawler" ua \/
  Spec.contains_ignoring_case "spider" ua ->
  isBot ua request = true.
Proof.
  intros [H | [H | H]].
  - apply (isBot_of_pattern ua request (re_i "bot")).
    + simpl; auto.
    + now apply test_contains.
  - apply (isBot_of_pattern ua request (re_i "crawler")).
    + simpl; auto.
    + now apply test_contains.
  - apply (isBot_of_pattern ua request (re_i "spider")).
    + simpl; auto 6.
    + now apply test_contains.
Qed.

Lemma isBot_generic_tokens_witness :
  Spec.contains_ignoring_case "bot" "Mozilla/5.0 (compatible; GoogleBOT/2.1)" /\
  isBot "Mozilla/5.0 (compatible; GoogleBOT/2.1)" None = true.
Proof.
  assert (Spec.contains_ignoring_case "bot"
            "Mozilla/5.0 (compatible; GoogleBOT/2.1)") as H.
  { exists "Mozilla/5.0 (compatible; Google", "BOT", "/2.1)".
    split; reflexivity. }
  split; [exact H|].
  apply (isBot_generic_tokens _ None). left. exact H.
Defined.

(** C9. On the empty User-Agent string [isBot] answers true (with or
    without the request) and [isAICrawler] answers false. *)
Theorem empty_user_agent (request : option NextRequest) :
  isBot "" request = true /\ isAICrawler "" = false.
Proof. split; reflexivity. Qed.

(** C10. Supplying the request to [isBot] is monotone: a user agent that is
    a bot without the request is a bot with any request. *)
Theorem isBot_request_monotone (ua : string) (r : NextRequest) :
  isBot ua None = true -> isBot ua (Some r) = true.
Proof.
  unfold isBot.
  destruct (negb (truthy ua)); [reflexivity|].
  destruct (existsb _ BOT_PATTERNS); [reflexivity|discriminate].
Qed.

Lemma isBot_request_monotone_witness :
  isBot "curl/7.68.0" None = true /\
  isBot "curl/7.68.0"
    (Some {| headers := {[ "accept" := "text/html" ]};
             url := "https://example.org/";
             pathname := "/" |}) = true.
Proof.
  split; [reflexivity|].
  apply isBot_request_monotone. reflexivity.
Defined.

End BotFacts.

(** ** Base64 *)

Module Base64Facts.
Import Base64.

(** Strings are handled three bytes at a time. *)
Lemma string_ind3 (P : string -> Prop) :
  P "" ->
  (forall a, P (String a "")) ->
  (forall a b, P (String a (String b ""))) ->
  (forall a b c r, P r -> P (String a (String b (String c r)))) ->
  forall s, P s.
Proof.
  intros H0 H1 H2 H3.
  fix IH 1. intros [|a [|b [|c r]]].
  - exact H0.
  - apply H1.
  - apply H2.
  - apply H3, IH.
Qed.

(** The character of a digit is read back as that digit. *)
Lemma digits_digit_char (b0 b1 b2 b3 b4 b5 : bool) (s : string) :
  digits (String (digit_char (Ascii b0 b1 b2 b3 b4 b5 false false)) s)
  = Ascii b0 b1 b2 b3 b4 b5 false false :: digits s.
Proof.
  destruct b0, b1, b2, b3, b4, b5; reflexivity.
Qed.

Lemma digits_pad (s : string) : digits (String pad s) = [].
Proof. reflexivity. Qed.

Lemma bytes_of_4_digits_of_3 (a b c : ascii) :
  let '(d1, d2, d3, d4) := digits_of_3 a b c in
  bytes_of_4 d1 d2 d3 d4 = (a, b, c).
Proof. destruct a, b, c. reflexivity. Qed.

(** Decoding inverts encoding, on every byte string. *)
Lemma decode_encode (s : string) : decode (encode s) = s.
Proof.
  unfold decode. induction s as [|a|a b|a b c r IH] using string_ind3.
  - reflexivity.
  - destruct a. cbn [encode digits_of_3 zero].
    rewrite !digits_digit_char, digits_pad. reflexivity.
  - destruct a, b. cbn [encode digits_of_3 zero].
    rewrite !digits_digit_char, digits_pad. reflexivity.
  - destruct a, b, c. cbn [encode digits_of_3].
    rewrite !digits_digit_char.
    cbn [bytes_of_digits bytes_of_4]. now rewrite IH.
Qed.

End Base64Facts.

(** ** UTF-8 *)

Module Utf8Facts.
Import Js Utf8.

Lemma append_assoc (a b c : string) : (a +:+ b) +:+ c = a +:+ (b +:+ c).
Proof. induction a as [|x a IH]; cbn [append]; [reflexivity | now f_equal]. Qed.

(** Induction along the sequences of a well-formed string. *)
Lemma valid_ind (P : string -> Prop) :
  P "" ->
  (forall b r, is_ascii b = true -> valid r = true -> P r -> P (String b r)) ->
  (forall b c1 r,
      is_ascii b = false -> in_range 194 223 b = true ->
      continuation c1 = true -> valid r = true -> P r ->
      P (String b (String c1 r))) ->
  (forall b c1 c2 r,
      is_ascii b = false -> in_range 194 223 b = false ->
      in_range 224 239 b = true ->
      second b c1 = true -> continuation c2 = true -> valid r = true -> P r ->
      P (String b (String c1 (String c2 r)))) ->
  (forall b c1 c2 c3 r,
      is_ascii b = false -> in_range 194 223 b = false ->
      in_range 224 239 b = false -> in_range 240 244 b = true ->
      second b c1 = true -> continuation c2 = true -> continuation c3 = true ->
      valid r = true -> P r ->
      P (String b (String c1 (String c2 (String c3 r))))) ->
  forall s, valid s = true -> P s.
Proof.
  intros H0 H1 H2 H3 H4.
  fix IH 1. intros [|b r]; [intros _; exact H0|].
  cbn [valid].
  destruct (is_ascii b) eqn:Ea.
  { intros Hv. apply H1; auto. }
  destruct (in_range 194 223 b) eqn:E2.
  { destruct r as [|c1 r1]; [discriminate|].
    intros [Hc Hv]%andb_prop. apply H2; auto. }
  destruct (in_range 224 239 b) eqn:E3.
  { destruct r as [|c1 [|c2 r2]]; try discriminate.
    intros [[Hs Hc]%andb_prop Hv]%andb_prop. apply H3; auto. }
  destruct (in_range 240 244 b) eqn:E4; [|discriminate].
  destruct r as [|c1 [|c2 [|c3 r3]]]; try discriminate.
  intros [[[Hs Hc2]%andb_prop Hc3]%andb_prop Hv]%andb_prop. apply H4; auto.
Qed.

(** Decoding keeps a well-formed string as it is. *)
Lemma toString_valid (s : string) : valid s = true -> toString s = s.
Proof.
  revert s. apply (valid_ind (fun s => toString s = s)).
  - reflexivity.
  - intros b r H _ IH. cbn [toString]. rewrite H. now f_equal.
  - intros b c1 r H H0 H1 _ IH. cbn [toString].
    rewrite H, H0, H1. now do 2 f_equal.
  - intros b c1 c2 r H H0 H1 H2 H3 _ IH. cbn [toString].
    rewrite H, H0, H1, H2, H3. now do 3 f_equal.
  - intros b c1 c2 c3 r H H0 H1 H2 H3 H4 H5 _ IH. cbn [toString].
    rewrite H, H0, H1, H2, H3, H4, H5. now do 4 f_equal.
Qed.

(** A well-formed string followed by a well-formed string. *)
Lemma valid_app (s t : string) :
  valid s = true -> valid t = true -> valid (s +:+ t) = true.
Proof.
  intros Hv Ht. revert s Hv.
  apply (valid_ind (fun s => valid (s +:+ t) = true)).
  - exact Ht.
  - intros b r H _ IH. cbn [append valid]. now rewrite H.
  - intros b c1 r H H0 H1 _ IH. cbn [append valid]. now rewrite H, H0, H1.
  - intros b c1 c2 r H H0 H1 H2 H3 _ IH. cbn [append valid].
    now rewrite H, H0, H1, H2, H3.
  - intros b c1 c2 c3 r H H0 H1 H2 H3 H4 H5 _ IH. cbn [append valid].
    now rewrite H, H0, H1, H2, H3, H4, H5.
Qed.

End Utf8Facts.

(** ** JSON *)

Module JSONFacts.
Import Js JsFacts Utf8 Utf8Facts JSON.
Import DecimalFacts DecimalPos.
Ltac char_cases c :=
  destruct c as [[] [] [] [] [] [] [] []]; try discriminate; try reflexivity.

(** *** String literals *)

Lemma lex_quote_char (c : ascii) :
  exists i : item,
    (forall tail, lex_string (quote_char c +:+ tail) = push i (lex_string tail)) /\
    (forall l, string_of_items (i :: l) = String c (string_of_items l)).
Proof.
  destruct c as [[] [] [] [] [] [] [] []];
  (eexists; split; [intros tail; reflexivity | intros [|[] l]; reflexivity]).
Qed.

Lemma lex_quote_body (s rest : string) :
  exists l : list item,
    lex_string (quote_body s +:+ String dquote rest) = Some (l, rest) /\
    string_of_items l = s.
Proof.
  induction s as [|c s (l & Hl & Hs)].
  - exists []. split; reflexivity.
  - destruct (lex_quote_char c) as (i & Hlex & Hstr).
    exists (i :: l). split.
    + cbn [quote_body]. rewrite append_assoc, Hlex, Hl. reflexivity.
    + now rewrite Hstr, Hs.
Qed.

Lemma parse_string_quote (s rest : string) :
  parse_string (quote_body s +:+ String dquote rest) = Some (s, rest).
Proof.
  unfold parse_string.
  destruct (lex_quote_body s rest) as (l & -> & ->). reflexivity.
Qed.

(** *** Numbers *)
Lemma span_digits_uint (d : uint) (rest : string) :
  match rest with String c _ => is_digit c = false | EmptyString => True end ->
  span_digits (NilEmpty.string_of_uint d +:+ rest) = (NilEmpty.string_of_uint d, rest).
Proof.
  intros Hrest. induction d; cbn [NilEmpty.string_of_uint append span_digits];
    try (rewrite IHd; reflexivity).
  destruct rest as [|c r]; [reflexivity|]. cbn [span_digits]. now rewrite Hrest.
Qed.

Lemma nat_of_digits_uint (d : uint) :
  nat_of_digits (NilEmpty.string_of_uint d) = Z.of_N (N.of_uint d).
Proof. unfold nat_of_digits. now rewrite NilEmpty.usu. Qed.

Lemma to_uint_head (p : positive) :
  exists c more, NilEmpty.string_of_uint (Pos.to_uint p) = String c more
                 /\ is_digit c = true /\ Ascii.eqb c "0" = false.
Proof.
  assert (unorm (Pos.to_uint p) = Pos.to_uint p) as Hn.
  { rewrite <- (DecimalPos.Unsigned.to_of (Pos.to_uint p)).
    now rewrite DecimalPos.Unsigned.of_to. }
  pose proof (DecimalPos.Unsigned.to_uint_nonzero p) as Hz.
  pose proof (DecimalPos.Unsigned.to_uint_nonnil p) as Hnil.
  destruct (Pos.to_uint p) as [|d|d|d|d|d|d|d|d|d|d] eqn:E;
    try (eexists _, _; repeat split; reflexivity).
  - congruence.
  - exfalso. unfold unorm in Hn. rewrite nzhead_D0 in Hn.
    destruct (nzhead d) eqn:En.
    + injection Hn as <-. now apply Hz.
    + apply (nzhead_nonzero d d). congruence.
    + congruence. + congruence. + congruence. + congruence. + congruence.
    + congruence. + congruence. + congruence. + congruence.
Qed.



(** An integer literal followed by a comma or a closing brace. *)
Lemma parse_number_digits (neg : bool) (s : string) (d : uint)
    (x c : ascii) (more r : string) :
  lex_sign s = (neg, NilEmpty.string_of_uint d +:+ String c r) ->
  c = ","%char \/ c = "}"%char ->
  NilEmpty.string_of_uint d = String x more ->
  Ascii.eqb x "0" && negb (String.eqb more "") = false ->
  parse_number s = Some (JNum (signed neg (Z.of_N (N.of_uint d))), String c r).
Proof.
  intros Hsign Hc Hd Hz. unfold parse_number. rewrite Hsign.
  rewrite span_digits_uint by (destruct Hc as [-> | ->]; reflexivity).
  rewrite Hd, Hz, <- Hd, nat_of_digits_uint.
  destruct Hc as [-> | ->]; reflexivity.
Qed.

Lemma lex_sign_digit (x : ascii) (s : string) :
  is_digit x = true -> lex_sign (String x s) = (false, String x s).
Proof. char_cases x. Qed.

Lemma parse_number_int (z : Z) (c : ascii) (r : string) :
  c = ","%char \/ c = "}"%char ->
  parse_number (int_toString z +:+ String c r) = Some (JNum z, String c r).
Proof.
  intros Hc. unfold int_toString.
  destruct z as [|p|p]; cbn [Z.to_int NilEmpty.string_of_int].
  - destruct Hc as [-> | ->]; reflexivity.
  - destruct (to_uint_head p) as (x & more & Hd & Hx & Hz).
    rewrite (parse_number_digits false _ (Pos.to_uint p) x c more r);
      [ now rewrite DecimalPos.Unsigned.of_to
      | rewrite Hd; cbn [append]; apply lex_sign_digit, Hx
      | exact Hc | exact Hd | now rewrite Hz ].
  - destruct (to_uint_head p) as (x & more & Hd & Hx & Hz).
    cbn [append].
    rewrite (parse_number_digits true _ (Pos.to_uint p) x c more r);
      [ now rewrite DecimalPos.Unsigned.of_to
      | reflexivity | exact Hc | exact Hd | now rewrite Hz ].
Qed.

Lemma int_toString_head (z : Z) :
  exists x more, int_toString z = String x more /\
                 (is_digit x = true \/ x = "-"%char).
Proof.
  unfold int_toString. destruct z as [|p|p]; cbn [Z.to_int NilEmpty.string_of_int].
  - exists "0"%char, "". split; [reflexivity | now left].
  - destruct (to_uint_head p) as (x & more & -> & Hd & _). eauto.
  - exists "-"%char, (NilEmpty.string_of_uint (Pos.to_uint p)). split; [reflexivity | now right].
Qed.

(** A value that starts like a number is read as a number. *)
Lemma parse_value_number (fuel : nat) (x : ascii) (s : string) :
  is_digit x = true \/ x = "-"%char ->
  parse_value (S fuel) (String x s) = parse_number (String x s).
Proof.
  intros [H | ->]; [|reflexivity].
  revert H. char_cases x.
Qed.

Lemma parse_value_int (fuel : nat) (z : Z) (c : ascii) (r : string) :
  c = ","%char \/ c = "}"%char ->
  parse_value (S fuel) (int_toString z +:+ String c r) = Some (JNum z, String c r).
Proof.
  intros Hc. rewrite <- (parse_number_int z c r Hc).
  destruct (int_toString_head z) as (x & more & -> & Hx).
  now apply parse_value_number.
Qed.

Lemma parse_value_string (fuel : nat) (s rest : string) :
  parse_value (S fuel) (quote s +:+ rest) = Some (JStr s, rest).
Proof.
  unfold quote. cbn [append]. rewrite append_assoc. cbn [append].
  change (parse_value (S fuel) (String dquote (quote_body s +:+ String dquote rest)))
    with (match parse_string (quote_body s +:+ String dquote rest) with
          | Some (str, r') => Some (JStr str, r')
          | None => None
          end).
  now rewrite parse_string_quote.
Qed.

Lemma parse_members_unfold (fuel : nat) (acc : list (string * json)) (body : string) :
  parse_members (S fuel) acc (String dquote body)
  = match parse_string body with
    | Some (k, r1) =>
        match skip_ws r1 with
        | String c1 r2 =>
            if Ascii.eqb c1 ":" then
              match parse_value fuel r2 with
              | Some (v, r3) =>
                  match skip_ws r3 with
                  | String c3 r4 =>
                      if Ascii.eqb c3 ","
                      then parse_members fuel (obj_set k v acc) r4
                      else if Ascii.eqb c3 "}"
                      then Some (JObj (obj_set k v acc), r4)
                      else None
                  | EmptyString => None
                  end
              | None => None
              end
            else None
        | EmptyString => None
        end
    | None => None
    end.
Proof. reflexivity. Qed.

Lemma parse_members_more (fuel : nat) acc (k r2 r4 : string) (v : json) :
  parse_value fuel r2 = Some (v, String "," r4) ->
  parse_members (S fuel) acc (quote k +:+ String ":" r2)
  = parse_members fuel (obj_set k v acc) r4.
Proof.
  intros Hv. unfold quote. cbn [append]. rewrite append_assoc. cbn [append].
  rewrite parse_members_unfold, parse_string_quote.
  change (skip_ws (String ":" r2)) with (String ":" r2).
  change (Ascii.eqb ":" ":") with true. cbv iota.
  rewrite Hv. reflexivity.
Qed.

Lemma parse_members_last (fuel : nat) acc (k r2 r4 : string) (v : json) :
  parse_value fuel r2 = Some (v, String "}" r4) ->
  parse_members (S fuel) acc (quote k +:+ String ":" r2)
  = Some (JObj (obj_set k v acc), r4).
Proof.
  intros Hv. unfold quote. cbn [append]. rewrite append_assoc. cbn [append].
  rewrite parse_members_unfold, parse_string_quote.
  change (skip_ws (String ":" r2)) with (String ":" r2).
  change (Ascii.eqb ":" ":") with true. cbv iota.
  rewrite Hv. reflexivity.
Qed.

Lemma parse_value_object (fuel : nat) (k rest : string) :
  parse_value (S fuel) (String "{" (quote k +:+ rest))
  = parse_members fuel [] (quote k +:+ rest).
Proof. reflexivity. Qed.


(** The text of a payload. *)
Lemma stringify_payload (p : PaymentPayload.t) :
  stringify (PaymentPayload.to_json p)
  = String "{"
      (quote "x402Version" +:+ String ":"
        (int_toString (PaymentPayload.x402Version p) +:+ String ","
          (quote "scheme" +:+ String ":"
            (quote (PaymentPayload.scheme p) +:+ String ","
              (quote "network" +:+ String ":"
                (quote (PaymentPayload.network p) +:+ String ","
                  (quote "payload" +:+ String ":"
                    (String "{"
                      (quote "signedTransaction" +:+ String ":"
                        (quote (PaymentPayload.signedTransaction
                                  (PaymentPayload.payload p)) +:+ "}}")))))))))).
Proof.
  unfold PaymentPayload.to_json. cbn [stringify fst snd].
  rewrite !append_assoc. reflexivity.
Qed.

(** Parsing the text of a payload gives the payload back. *)
Lemma parse_value_payload (p : PaymentPayload.t) (fuel : nat) :
  8 <= fuel ->
  parse_value fuel (stringify (PaymentPayload.to_json p))
  = Some (PaymentPayload.to_json p, "").
Proof.
  intros Hfuel. do 8 (destruct fuel as [|fuel]; [lia|]). clear Hfuel.
  rewrite stringify_payload, parse_value_object.
  erewrite parse_members_more by (apply parse_value_int; auto).
  erewrite parse_members_more by apply parse_value_string.
  erewrite parse_members_more by apply parse_value_string.
  erewrite parse_members_last; [reflexivity|].
  rewrite parse_value_object.
  erewrite parse_members_last by apply parse_value_string.
  reflexivity.
Qed.

Lemma length_append (a b : string) :
  String.length (a +:+ b) = String.length a + String.length b.
Proof. induction a as [|c a IH]; cbn [append String.length]; [reflexivity | now rewrite IH]. Qed.

Lemma length_payload (p : PaymentPayload.t) :
  8 <= S (String.length (stringify (PaymentPayload.to_json p))).
Proof.
  rewrite stringify_payload. unfold quote.
  repeat (rewrite ?length_append; cbn [append String.length]). lia.
Qed.

Lemma parse_payload (p : PaymentPayload.t) :
  parse (stringify (PaymentPayload.to_json p)) = Some (PaymentPayload.to_json p).
Proof.
  unfold parse. rewrite parse_value_payload by apply length_payload. reflexivity.
Qed.

(** The text of a payload is well-formed UTF-8. *)
Lemma valid_ascii_app (a r : string) :
  forall_chars is_ascii a = true -> valid r = true -> valid (a +:+ r) = true.
Proof.
  intros Ha Hr. induction a as [|c a IH]; [exact Hr|].
  cbn [forall_chars] in Ha. apply andb_prop in Ha as [Hc Ha].
  cbn [append valid]. rewrite Hc. auto.
Qed.

Lemma quote_char_ascii (c : ascii) :
  is_ascii c = true -> forall_chars is_ascii (quote_char c) = true.
Proof. char_cases c. Qed.

Lemma quote_char_other (c : ascii) :
  is_ascii c = false -> quote_char c = String c "".
Proof. char_cases c. Qed.

Lemma continuation_not_ascii (c : ascii) :
  continuation c = true -> is_ascii c = false.
Proof. char_cases c. Qed.

Lemma second_not_ascii (b c : ascii) :
  second b c = true -> is_ascii c = false.
Proof.
  unfold second, in_range, is_ascii. intros [H _]%andb_prop.
  apply N.leb_le in H. apply N.ltb_ge.
  assert (128 <= second_lo b)%N by (unfold second_lo; repeat case_match; lia).
  lia.
Qed.

Lemma valid_quote_body (s r : string) :
  valid s = true -> valid r = true -> valid (quote_body s +:+ r) = true.
Proof.
  intros Hs Hr. revert s Hs.
  apply (valid_ind (fun s => valid (quote_body s +:+ r) = true)).
  - exact Hr.
  - intros b s Hb _ IH. cbn [quote_body]. rewrite append_assoc.
    apply valid_ascii_app; [now apply quote_char_ascii | exact IH].
  - intros b c1 s Hb H2 Hc1 _ IH. cbn [quote_body].
    rewrite (quote_char_other b Hb),
            (quote_char_other c1 (continuation_not_ascii c1 Hc1)).
    cbn [append valid]. now rewrite Hb, H2, Hc1.
  - intros b c1 c2 s Hb H2 H3 Hc1 Hc2 _ IH. cbn [quote_body].
    rewrite (quote_char_other b Hb),
            (quote_char_other c1 (second_not_ascii b c1 Hc1)),
            (quote_char_other c2 (continuation_not_ascii c2 Hc2)).
    cbn [append valid]. now rewrite Hb, H2, H3, Hc1, Hc2.
  - intros b c1 c2 c3 s Hb H2 H3 H4 Hc1 Hc2 Hc3 _ IH. cbn [quote_body].
    rewrite (quote_char_other b Hb),
            (quote_char_other c1 (second_not_ascii b c1 Hc1)),
            (quote_char_other c2 (continuation_not_ascii c2 Hc2)),
            (quote_char_other c3 (continuation_not_ascii c3 Hc3)).
    cbn [append valid]. now rewrite Hb, H2, H3, H4, Hc1, Hc2, Hc3.
Qed.

Lemma valid_quote (s r : string) :
  valid s = true -> valid r = true -> valid (quote s +:+ r) = true.
Proof.
  intros Hs Hr. unfold quote. cbn [append]. rewrite append_assoc.
  change (valid (String dquote (quote_body s +:+ String dquote "" +:+ r)))
    with (valid (quote_body s +:+ String dquote r)).
  now apply valid_quote_body.
Qed.

Lemma uint_ascii (d : uint) :
  forall_chars is_ascii (NilEmpty.string_of_uint d) = true.
Proof. induction d; cbn [NilEmpty.string_of_uint forall_chars]; auto. Qed.

Lemma int_toString_ascii (z : Z) : forall_chars is_ascii (int_toString z) = true.
Proof.
  unfold int_toString. destruct z as [|q|q].
  - reflexivity.
  - apply uint_ascii.
  - apply (uint_ascii (D0 (Pos.to_uint q))).
Qed.

Lemma valid_payload (p : PaymentPayload.t) :
  Spec.well_formed p -> valid (stringify (PaymentPayload.to_json p)) = true.
Proof.
  intros (_ & Hs & Hn & Ht). rewrite stringify_payload.
  change true with (valid "}}").
  repeat first
    [ apply valid_quote; [first [assumption | reflexivity]|]
    | apply valid_ascii_app; [apply int_toString_ascii|]
    | apply (valid_ascii_app (String _ "")); [reflexivity|] ].
  all: reflexivity.
Qed.

(** *** Fuel *)

Lemma skip_ws_length (s : string) : String.length (skip_ws s) <= String.length s.
Proof.
  induction s as [|c s IH]; [reflexivity|].
  cbn [skip_ws]. destruct (is_ws c); cbn [String.length]; lia.
Qed.

Lemma strip_prefix_length (p s rest : string) :
  strip_prefix p s = Some rest ->
  String.length s = String.length p + String.length rest.
Proof.
  revert s. induction p as [|a p IH]; intros s H.
  - injection H as <-. reflexivity.
  - destruct s as [|b s]; [discriminate|]. cbn [strip_prefix] in H.
    destruct (Ascii.eqb a b); [|discriminate].
    apply IH in H. cbn [String.length]. lia.
Qed.

Lemma push_some (i : item) (r : option (list item * string)) l rest :
  push i r = Some (l, rest) -> exists l', r = Some (l', rest).
Proof. destruct r as [[l' rest']|]; [|discriminate]. intros [= <- <-]. eauto. Qed.

Lemma lex_string_length (s : string) (l : list item) (rest : string) :
  lex_string s = Some (l, rest) -> String.length rest < String.length s.
Proof.
  remember (String.length s) as n eqn:Hn.
  assert (String.length s <= n) as Hle by lia. clear Hn.
  revert s l Hle. induction n as [|n IH]; intros s l Hle H.
  { destruct s; [discriminate | cbn [String.length] in Hle; lia]. }
  destruct s as [|c r]; [discriminate|].
  cbn [lex_string] in H. cbn [String.length] in Hle.
  destruct (Ascii.eqb c dquote).
  { injection H as <- <-. lia. }
  destruct (Ascii.eqb c backslash).
  { destruct r as [|e r1]; [discriminate|].
    destruct (Ascii.eqb e "u").
    - destruct r1 as [|h1 [|h2 [|h3 [|h4 r2]]]]; try discriminate.
      destruct (hex4 h1 h2 h3 h4); [|discriminate].
      apply push_some in H as [l' H]. cbn [String.length] in *.
      apply IH in H; lia.
    - destruct (simple_escape e); [|discriminate].
      apply push_some in H as [l' H]. cbn [String.length] in *.
      apply IH in H; lia. }
  destruct (Js.code c <? 32)%N; [discriminate|].
  apply push_some in H as [l' H]. apply IH in H; lia.
Qed.

Lemma parse_string_length (s x rest : string) :
  parse_string s = Some (x, rest) -> String.length rest < String.length s.
Proof.
  unfold parse_string. destruct (lex_string s) as [[l r]|] eqn:E; [|discriminate].
  intros [= _ <-]. now apply lex_string_length in E.
Qed.

Lemma span_digits_length (s d rest : string) :
  span_digits s = (d, rest) ->
  String.length s = String.length d + String.length rest.
Proof.
  revert d rest. induction s as [|c s IH]; intros d rest H.
  - injection H as <- <-. reflexivity.
  - cbn [span_digits] in H. destruct (is_digit c).
    + destruct (span_digits s) as [d' rest'] eqn:E. injection H as <- <-.
      cbn [String.length]. now rewrite (IH _ _ eq_refl).
    + injection H as <- <-. reflexivity.
Qed.

Lemma lex_sign_length (s s1 : string) (neg : bool) :
  lex_sign s = (neg, s1) -> String.length s1 <= String.length s.
Proof.
  destruct s as [|c r]; cbn [lex_sign].
  - intros [= _ <-]. lia.
  - destruct (Ascii.eqb c "-"); intros [= _ <-]; cbn [String.length]; lia.
Qed.

Lemma lex_fraction_length (s f r : string) :
  lex_fraction s = Some (f, r) -> String.length r <= String.length s.
Proof.
  destruct s as [|c s]; [discriminate|]. cbn [lex_fraction].
  destruct (Ascii.eqb c "."); [|discriminate].
  intros [= H]. apply span_digits_length in H. cbn [String.length]. lia.
Qed.

Lemma lex_exponent_length (s ds r : string) (neg : bool) :
  lex_exponent s = Some (neg, ds, r) -> String.length r <= String.length s.
Proof.
  destruct s as [|c s]; [discriminate|]. cbn [lex_exponent].
  destruct (Ascii.eqb c "e" || Ascii.eqb c "E"); [|discriminate].
  destruct s as [|sg s'].
  - intros [= _ _ <-]. cbn [String.length]. lia.
  - destruct (Ascii.eqb sg "-"); [|destruct (Ascii.eqb sg "+")].
    + destruct (span_digits s') as [d' r'] eqn:E. intros [= _ _ <-].
      apply span_digits_length in E. cbn [String.length]. lia.
    + destruct (span_digits s') as [d' r'] eqn:E. intros [= _ _ <-].
      apply span_digits_length in E. cbn [String.length]. lia.
    + destruct (span_digits (String sg s')) as [d' r'] eqn:E. intros [= _ _ <-].
      apply span_digits_length in E. cbn [String.length] in *. lia.
Qed.

Lemma parse_number_length (s : string) (v : json) (rest : string) :
  parse_number s = Some (v, rest) -> String.length rest < String.length s.
Proof.
  unfold parse_number.
  destruct (lex_sign s) as [neg s1] eqn:Es. apply lex_sign_length in Es.
  destruct (span_digits s1) as [int_part s2] eqn:E1.
  apply span_digits_length in E1.
  destruct int_part as [|d more]; [discriminate|].
  destruct (Ascii.eqb d "0" && negb (String.eqb more "")); [discriminate|].
  cbn [String.length] in E1.
  destruct (lex_fraction s2) as [[f s3]|] eqn:Ef.
  - apply lex_fraction_length in Ef.
    destruct (lex_exponent s3) as [[[eneg ds] s4]|] eqn:Ee.
    + apply lex_exponent_length in Ee.
      destruct f; [discriminate|]. destruct ds; [discriminate|].
      intros [= _ <-]. lia.
    + destruct f; [discriminate|]. intros [= _ <-]. lia.
  - destruct (lex_exponent s2) as [[[eneg ds] s4]|] eqn:Ee.
    + apply lex_exponent_length in Ee.
      destruct ds; [discriminate|]. intros [= _ <-]. lia.
    + intros [= _ <-]. lia.
Qed.

(** Unfolding of the parsers, one level. *)
Lemma parse_value_S (fuel : nat) (s : string) :
  parse_value (S fuel) s =
  match skip_ws s with
  | EmptyString => None
  | String c r as s' =>
      if Ascii.eqb c "{" then
        match skip_ws r with
        | String c' r' =>
            if Ascii.eqb c' "}" then Some (JObj [], r')
            else parse_members fuel [] r
        | EmptyString => None
        end
      else if Ascii.eqb c "[" then
        match skip_ws r with
        | String c' r' =>
            if Ascii.eqb c' "]" then Some (JArr [], r')
            else parse_elements fuel [] r
        | EmptyString => None
        end
      else if Ascii.eqb c dquote then
        match parse_string r with
        | Some (str, r') => Some (JStr str, r')
        | None => None
        end
      else
        match strip_prefix "true" s' with
        | Some r' => Some (JBool true, r')
        | None =>
        match strip_prefix "false" s' with
        | Some r' => Some (JBool false, r')
        | None =>
        match strip_prefix "null" s' with
        | Some r' => Some (JNull, r')
        | None => parse_number s'
        end end end
  end.
Proof. reflexivity. Qed.

Lemma parse_members_S (fuel : nat) (acc : list (string * json)) (s : string) :
  parse_members (S fuel) acc s =
  match skip_ws s with
  | String c r =>
      if Ascii.eqb c dquote then
        match parse_string r with
        | Some (k, r1) =>
            match skip_ws r1 with
            | String c1 r2 =>
                if Ascii.eqb c1 ":" then
                  match parse_value fuel r2 with
                  | Some (v, r3) =>
                      match skip_ws r3 with
                      | String c3 r4 =>
                          if Ascii.eqb c3 ","
                          then parse_members fuel (obj_set k v acc) r4
                          else if Ascii.eqb c3 "}"
                          then Some (JObj (obj_set k v acc), r4)
                          else None
                      | EmptyString => None
                      end
                  | None => None
                  end
                else None
            | EmptyString => None
            end
        | None => None
        end
      else None
  | EmptyString => None
  end.
Proof. reflexivity. Qed.

Lemma parse_elements_S (fuel : nat) (acc : list json) (s : string) :
  parse_elements (S fuel) acc s =
  match parse_value fuel s with
  | Some (v, r1) =>
      match skip_ws r1 with
      | String c r2 =>
          if Ascii.eqb c "," then parse_elements fuel (acc ++ [v]) r2
          else if Ascii.eqb c "]" then Some (JArr (acc ++ [v]), r2)
          else None
      | EmptyString => None
      end
  | None => None
  end.
Proof. reflexivity. Qed.

Lemma fuel_adequate (f : nat) :
  adequate (fun f (_ : unit) => parse_value f) f /\
  adequate parse_members f /\
  adequate parse_elements f.
Proof.
  induction f as [|f (IHv & IHm & IHe)].
  { repeat split; discriminate. }
  split; [|split].
  - (* values *)
    intros [] s v rest. cbv beta. rewrite parse_value_S.
    pose proof (skip_ws_length s) as Hws.
    destruct (skip_ws s) as [|c r] eqn:Es; [discriminate|].
    cbn [String.length] in Hws. cbv zeta.
    destruct (Ascii.eqb c "{") eqn:E1.
    { pose proof (skip_ws_length r) as Hws2.
      destruct (skip_ws r) as [|c' r'] eqn:Er; [discriminate|].
      cbn [String.length] in Hws2.
      destruct (Ascii.eqb c' "}") eqn:E2.
      - intros [= <- <-]. split; [lia|]. intros [|f'] Hf'; [lia|].
        rewrite parse_value_S, Es. cbv zeta. now rewrite E1, Er, E2.
      - intros H. destruct (IHm _ _ _ _ H) as [Hlen Hf]. split; [lia|].
        intros [|f'] Hf'; [lia|].
        rewrite parse_value_S, Es. cbv zeta. rewrite E1, Er, E2.
        apply Hf. lia. }
    destruct (Ascii.eqb c "[") eqn:E2.
    { pose proof (skip_ws_length r) as Hws2.
      destruct (skip_ws r) as [|c' r'] eqn:Er; [discriminate|].
      cbn [String.length] in Hws2.
      destruct (Ascii.eqb c' "]") eqn:E3.
      - intros [= <- <-]. split; [lia|]. intros [|f'] Hf'; [lia|].
        rewrite parse_value_S, Es. cbv zeta. now rewrite E1, E2, Er, E3.
      - intros H. destruct (IHe _ _ _ _ H) as [Hlen Hf]. split; [lia|].
        intros [|f'] Hf'; [lia|].
        rewrite parse_value_S, Es. cbv zeta. rewrite E1, E2, Er, E3.
        apply Hf. lia. }
    destruct (Ascii.eqb c dquote) eqn:E3.
    { destruct (parse_string r) as [[str r']|] eqn:Ep; [|discriminate].
      intros [= <- <-]. apply parse_string_length in Ep as Hl.
      split; [lia|]. intros [|f'] Hf'; [lia|].
      rewrite parse_value_S, Es. cbv zeta. now rewrite E1, E2, E3, Ep. }
    destruct (strip_prefix "true" (String c r)) as [r'|] eqn:Et.
    { intros [= <- <-]. apply strip_prefix_length in Et as Hl.
      cbn [String.length] in Hl.
      split; [lia|]. intros [|f'] Hf'; [lia|].
      rewrite parse_value_S, Es. cbv zeta. now rewrite E1, E2, E3, Et. }
    destruct (strip_prefix "false" (String c r)) as [r'|] eqn:Ef.
    { intros [= <- <-]. apply strip_prefix_length in Ef as Hl.
      cbn [String.length] in Hl.
      split; [lia|]. intros [|f'] Hf'; [lia|].
      rewrite parse_value_S, Es. cbv zeta. now rewrite E1, E2, E3, Et, Ef. }
    destruct (strip_prefix "null" (String c r)) as [r'|] eqn:En.
    { intros [= <- <-]. apply strip_prefix_length in En as Hl.
      cbn [String.length] in Hl.
      split; [lia|]. intros [|f'] Hf'; [lia|].
      rewrite parse_value_S, Es. cbv zeta. now rewrite E1, E2, E3, Et, Ef, En. }
    intros H. apply parse_number_length in H as Hl. cbn [String.length] in Hl.
    split; [lia|]. intros [|f'] Hf'; [lia|].
    rewrite parse_value_S, Es. cbv zeta. now rewrite E1, E2, E3, Et, Ef, En.
  - (* members *)
    intros acc s v rest. rewrite parse_members_S.
    pose proof (skip_ws_length s) as Hws.
    destruct (skip_ws s) as [|c r] eqn:Es; [discriminate|].
    cbn [String.length] in Hws.
    destruct (Ascii.eqb c dquote) eqn:E1; [|discriminate].
    destruct (parse_string r) as [[k r1]|] eqn:Ek; [|discriminate].
    apply parse_string_length in Ek as Hk.
    pose proof (skip_ws_length r1) as Hws1.
    destruct (skip_ws r1) as [|c1 r2] eqn:Er1; [discriminate|].
    cbn [String.length] in Hws1.
    destruct (Ascii.eqb c1 ":") eqn:E2; [|discriminate].
    destruct (parse_value f r2) as [[x r3]|] eqn:Ev; [|discriminate].
    destruct (IHv tt _ _ _ Ev) as [Hx Hfx].
    pose proof (skip_ws_length r3) as Hws3.
    destruct (skip_ws r3) as [|c3 r4] eqn:Er3; [discriminate|].
    cbn [String.length] in Hws3.
    destruct (Ascii.eqb c3 ",") eqn:E3.
    + intros H. destruct (IHm _ _ _ _ H) as [Hlen Hf]. split; [lia|].
      intros [|f'] Hf'; [lia|].
      rewrite parse_members_S, Es, E1, Ek, Er1, E2.
      rewrite (Hfx f') by lia. rewrite Er3, E3. apply Hf. lia.
    + destruct (Ascii.eqb c3 "}") eqn:E4; [|discriminate].
      intros [= <- <-]. split; [lia|].
      intros [|f'] Hf'; [lia|].
      rewrite parse_members_S, Es, E1, Ek, Er1, E2.
      rewrite (Hfx f') by lia. now rewrite Er3, E3, E4.
  - (* elements *)
    intros acc s v rest. rewrite parse_elements_S.
    destruct (parse_value f s) as [[x r1]|] eqn:Ev; [|discriminate].
    destruct (IHv tt _ _ _ Ev) as [Hx Hfx].
    pose proof (skip_ws_length r1) as Hws1.
    destruct (skip_ws r1) as [|c r2] eqn:Er1; [discriminate|].
    cbn [String.length] in Hws1.
    destruct (Ascii.eqb c ",") eqn:E1.
    + intros H. destruct (IHe _ _ _ _ H) as [Hlen Hf]. split; [lia|].
      intros [|f'] Hf'; [lia|].
      rewrite parse_elements_S. rewrite (Hfx f') by lia.
      rewrite Er1, E1. apply Hf. lia.
    + destruct (Ascii.eqb c "]") eqn:E2; [|discriminate].
      intros [= <- <-]. split; [lia|].
      intros [|f'] Hf'; [lia|].
      rewrite parse_elements_S. rewrite (Hfx f') by lia. now rewrite Er1, E1, E2.
Qed.

(** The fuel of [parse] is never the cause of a failure: a text that is
    parsed with some fuel is parsed by [parse], with the same result. *)
Lemma parse_fuel (fuel : nat) (text : string) (v : json) (rest : string) :
  parse_value fuel text = Some (v, rest) ->
  parse_value (S (String.length text)) text = Some (v, rest).
Proof.
  intros H. destruct (fuel_adequate fuel) as [Hv _].
  destruct (Hv tt _ _ _ H) as [_ Hf]. apply Hf. lia.
Qed.

End JSONFacts.

(** ** The X-PAYMENT header codec *)

Module CodecFacts.
Import PaymentPayload.

(** C7. Decoding the header produced by encoding a well-formed payload
    (JSON-serialize, base64-encode, then base64-decode, UTF-8 decode and
    JSON-parse) yields the payload. *)
Theorem header_round_trip (p : PaymentPayload.t) :
  Spec.well_formed p ->
  decodeHeader (encodeHeader p) = Some (to_json p).
Proof.
  intros Hp. unfold decodeHeader, encodeHeader.
  rewrite Base64Facts.decode_encode.
  rewrite Utf8Facts.toString_valid by now apply JSONFacts.valid_payload.
  apply JSONFacts.parse_payload.
Qed.

Lemma header_round_trip_witness :
  Spec.well_formed Samples.payload /\
  decodeHeader (encodeHeader Samples.payload) = Some (to_json Samples.payload).
Proof.
  assert (Spec.well_formed Samples.payload) as H.
  { repeat split; reflexivity. }
  split; [exact H | exact (header_round_trip Samples.payload H)].
Defined.

End CodecFacts.

(** ** Handlers *)

Module HandlerFacts.
Import Handler Protocol MonadUtils.

Lemma truthy_nonempty (s : string) : s <> "" -> Js.truthy s = true.
Proof. destruct s; [congruence | reflexivity]. Qed.

Lemma truthy_true (s : string) : Js.truthy s = true -> s <> "".
Proof. destruct s; [discriminate | congruence]. Qed.

Lemma startsWith_nonempty (s p : string) :
  p <> "" -> Js.startsWith s p = true -> s <> "".
Proof. destruct p, s; try congruence; discriminate. Qed.

Section Laws.
Context {R A B : Type}.
Implicit Types (m : M R A) (k : A -> M R B) (log : list Effect).

Lemma bind_value m k log a log' :
  m log = (Value a, log') -> bind m k log = k a log'.
Proof. unfold bind. now intros ->. Qed.

Lemma bind_return m k log r log' :
  m log = (Return r, log') -> bind m k log = (Return r, log').
Proof. unfold bind. now intros ->. Qed.

Lemma bind_throw m k log e log' :
  m log = (Throw e, log') -> bind m k log = (Throw e, log').
Proof. unfold bind. now intros ->. Qed.

Lemma bind_ret (a : A) k log : bind (ret a) k log = k a log.
Proof. reflexivity. Qed.

Lemma try_catch_value m (h : JsError -> M R A) log a log' :
  m log = (Value a, log') -> try_catch m h log = (Value a, log').
Proof. unfold try_catch. now intros ->. Qed.

Lemma try_catch_return m (h : JsError -> M R A) log r log' :
  m log = (Return r, log') -> try_catch m h log = (Return r, log').
Proof. unfold try_catch. now intros ->. Qed.

Lemma try_catch_throw m (h : JsError -> M R A) log e log' :
  m log = (Throw e, log') -> try_catch m h log = h e log'.
Proof. unfold try_catch. now intros ->. Qed.

End Laws.

Lemma bind_return_if_false {R B} (r : R) (k : unit -> M R B) log :
  bind (return_if false r) k log = k tt log.
Proof. reflexivity. Qed.

Lemma bind_return_if_true {R B} (r : R) (k : unit -> M R B) log :
  bind (return_if true r) k log = (Return r, log).
Proof. reflexivity. Qed.

(** Reading a property of a JSON object. *)
Lemma member_get {R} (v x : JSON.json) (k : string) (log : list Effect) :
  JSON.get v k = Some x ->
  member (R := R) (Some v) k log = (Value (Some x), log).
Proof. destruct v; try discriminate. intros H. unfold member, ret. now rewrite H. Qed.

Lemma member_object {R} (v x : JSON.json) (k k' : string) (log : list Effect) :
  JSON.get v k' = Some x ->
  member (R := R) (Some v) k log = (Value (JSON.get v k), log).
Proof. destruct v; try discriminate. reflexivity. Qed.

Lemma is_string_get (v : JSON.json) (k s : string) :
  JSON.get v k = Some (JSON.JStr s) -> JSON.is_string (JSON.get v k) s = true.
Proof. intros ->. cbn. apply String.eqb_refl. Qed.

End HandlerFacts.

(** ** Facilitator: verify *)

Module VerifyFacts.
Import Handler Protocol MonadUtils HandlerFacts FacilitatorVerify.

Lemma verify_request_reads (body : VerifyRequest) (reqs : PaymentRequirements)
    (signedTx : string) (log : list Effect) :
  Spec.verify_reads body reqs signedTx ->
  read_verify_request body log = (Value (reqs, signedTx), log).
Proof.
  intros (Hv & Hr & Hs & Hn & h & v & Hh & Hne & (Hd & Htx & pl & Hpl & Hst) & Hps & Hpn).
  assert (Js.truthy (network reqs) = true) as Hnt.
  { apply truthy_nonempty, (startsWith_nonempty _ "monad-"); [discriminate | exact Hn]. }
  unfold PaymentPayload.decodeHeader in Hd.
  unfold read_verify_request. rewrite Hr, Hh, Hv. cbn [deref].
  rewrite bind_ret. change (negb (X402_VERSION =? X402_VERSION)%Z) with false.
  rewrite bind_return_if_false.
  rewrite (truthy_nonempty h Hne). cbn [negb]. rewrite bind_return_if_false.
  rewrite Hs at 1. rewrite String.eqb_refl. cbn [negb]. rewrite bind_return_if_false.
  rewrite Hn, Hnt. cbn [negb orb]. rewrite bind_return_if_false.
  rewrite Hd.
  erewrite bind_value by (eapply member_object, Hpl).
  erewrite bind_value by (eapply member_object, Hpl).
  rewrite (is_string_get _ _ _ Hps). cbn [negb]. rewrite bind_return_if_false.
  erewrite bind_value by (eapply member_object, Hpl).
  rewrite (is_string_get _ _ _ Hpn). cbn [negb]. rewrite bind_return_if_false.
  erewrite bind_value by (eapply member_get, Hpl).
  erewrite bind_value by (eapply member_get, Hst).
  cbn [JSON.truthy_value]. rewrite (truthy_nonempty _ Htx). cbn [negb].
  rewrite bind_return_if_false. reflexivity.
Qed.


(** The verdict on a request that passes steps 1 to 7 and whose signed
    transaction parses: the first failing check gives the reason. *)
Lemma POST_parsed (ethers : Ethers) (body : VerifyRequest)
    (reqs : PaymentRequirements) (signedTx : string) (t : Transaction) :
  Spec.verify_reads body reqs signedTx ->
  Transaction_from ethers signedTx = inr t ->
  POST ethers body =
  (Returned
     (if recipient_differs (to t) (payTo reqs)
      then NextResponse_json (invalid (recipient_mismatch (payTo reqs) (to t)))
      else if negb (String.eqb (Js.int_toString (value t)) (maxAmountRequired reqs))
      then NextResponse_json (invalid (amount_mismatch (maxAmountRequired reqs) (value t)))
      else if match from t with
              | Some sender => negb (Js.truthy sender)
                               || negb (isValidAddress ethers sender)
              | None => true
              end
      then NextResponse_json (invalid "Invalid sender address")
      else NextResponse_json valid_response), []).
Proof.
  intros Hreads Hparse. unfold POST, run, verify_handler.
  unfold try_catch at 1.
  rewrite (bind_value _ _ _ _ _ (verify_request_reads _ _ _ [] Hreads)).
  unfold check_transaction, parseSignedTransaction. rewrite Hparse. cbn [lift].
  cbv beta iota delta [bind ret try_catch].
  destruct (recipient_differs (to t) (payTo reqs)); [reflexivity|].
  destruct (negb (String.eqb _ _)); [reflexivity|].
  destruct (match from t with Some _ => _ | None => _ end); reflexivity.
Qed.

Lemma recipient_differs_false (to : option string) (payTo : string) :
  recipient_differs to payTo = false <-> Spec.same_address to payTo.
Proof.
  unfold recipient_differs, Spec.same_address. split.
  - destruct to as [a|]; [|discriminate].
    intros H. exists a. split; [reflexivity|].
    apply negb_false_iff in H. now apply String.eqb_eq.
  - intros (a & -> & H). rewrite H, String.eqb_refl. reflexivity.
Qed.

Lemma int_toString_inj (a b : Z) : Js.int_toString a = Js.int_toString b -> a = b.
Proof.
  unfold Js.int_toString. intros H.
  apply DecimalZ.to_int_inj.
  assert (Some (Z.to_int a) = Some (Z.to_int b)) as E; [|now injection E].
  rewrite <- !DecimalString.NilEmpty.isi. now rewrite H.
Qed.

(** C4. For a verify request that reaches the transaction checks and whose
    signed transaction parses, the recipient is compared with [payTo]
    ignoring the case of letters. The answer is valid only if the two are
    equal after case folding; whenever they are not, the answer is invalid
    with the recipient-mismatch reason; and when they are, in whatever
    case their letters are written, the recipient check passes: the answer
    is the one of the checks that follow, valid when the amount is the
    required one and the sender is a valid address. *)
Theorem verify_recipient_check (ethers : Ethers) (body : VerifyRequest)
    (reqs : PaymentRequirements) (signedTx : string) (t : Transaction) :
  Spec.verify_reads body reqs signedTx ->
  Transaction_from ethers signedTx = inr t ->
  (forall resp, fst (POST ethers body) = Returned resp ->
                isValid (Protocol.body resp) = true ->
                Spec.same_address (to t) (payTo reqs)) /\
  (~ Spec.same_address (to t) (payTo reqs) ->
   fst (POST ethers body) =
   Returned (NextResponse_json (invalid (recipient_mismatch (payTo reqs) (to t))))) /\
  (Spec.same_address (to t) (payTo reqs) ->
   fst (POST ethers body) =
   Returned
     (if negb (String.eqb (Js.int_toString (value t)) (maxAmountRequired reqs))
      then NextResponse_json
             (invalid (amount_mismatch (maxAmountRequired reqs) (value t)))
      else if match from t with
              | Some sender => negb (Js.truthy sender)
                               || negb (isValidAddress ethers sender)
              | None => true
              end
      then NextResponse_json (invalid "Invalid sender address")
      else NextResponse_json valid_response)).
Proof.
  intros Hreads Hparse. rewrite (POST_parsed _ _ _ _ _ Hreads Hparse). cbn [fst].
  destruct (recipient_differs (to t) (payTo reqs)) eqn:E.
  - assert (~ Spec.same_address (to t) (payTo reqs)) as Hdiff.
    { intros H. apply recipient_differs_false in H. congruence. }
    split; [|split].
    + intros resp [= <-]. discriminate.
    + reflexivity.
    + intros H. now destruct Hdiff.
  - apply recipient_differs_false in E. split; [|split].
    + intros; exact E.
    + intros H. now destruct H.
    + reflexivity.
Qed.

(** C3 (amended). For a verify request that reaches the transaction checks
    and whose signed transaction parses, the decimal string of the value is
    compared with the string [maxAmountRequired] for exact equality. When
    the two strings differ the answer is invalid: with the amount-mismatch
    reason when the recipient is the required one, with the
    recipient-mismatch reason otherwise (the recipient is checked first).
    The strings differ whenever [maxAmountRequired] is the decimal string of
    a number other than the value, were it by one atomic unit, and also
    when it writes the same number in another way. *)
Theorem verify_amount_check (ethers : Ethers) (body : VerifyRequest)
    (reqs : PaymentRequirements) (signedTx : string) (t : Transaction) :
  Spec.verify_reads body reqs signedTx ->
  Transaction_from ethers signedTx = inr t ->
  (Js.int_toString (value t) <> maxAmountRequired reqs ->
   (exists resp, fst (POST ethers body) = Returned resp /\
                 isValid (Protocol.body resp) = false) /\
   (Spec.same_address (to t) (payTo reqs) ->
    fst (POST ethers body) =
    Returned (NextResponse_json
                (invalid (amount_mismatch (maxAmountRequired reqs) (value t))))) /\
   (~ Spec.same_address (to t) (payTo reqs) ->
    fst (POST ethers body) =
    Returned (NextResponse_json
                (invalid (recipient_mismatch (payTo reqs) (to t)))))) /\
  (forall required : Z,
     maxAmountRequired reqs = Js.int_toString required ->
     value t <> required ->
     Js.int_toString (value t) <> maxAmountRequired reqs) /\
  (maxAmountRequired reqs = "0" +:+ Js.int_toString (value t) ->
   Js.int_toString (value t) <> maxAmountRequired reqs).
Proof.
  intros Hreads Hparse. split; [|split].
  - intros Hne. rewrite (POST_parsed _ _ _ _ _ Hreads Hparse). cbn [fst].
    apply String.eqb_neq in Hne. rewrite Hne. cbn [negb].
    destruct (recipient_differs (to t) (payTo reqs)) eqn:E.
    + split; [eexists; split; reflexivity|]. split.
      * intros H. apply recipient_differs_false in H. congruence.
      * reflexivity.
    + split; [eexists; split; reflexivity|]. split.
      * reflexivity.
      * intros H. destruct H. now apply recipient_differs_false.
  - intros required Hreq Hne H. rewrite Hreq in H. now apply Hne, int_toString_inj.
  - intros Hreq H. rewrite Hreq in H.
    apply (f_equal String.length) in H. cbn [String.append String.length] in H. lia.
Qed.

Lemma verify_sample_reads :
  Spec.verify_reads (Samples.verify_request Samples.header)
    Samples.requirements "0x02f86b".
Proof.
  do 4 (split; [reflexivity|]).
  exists Samples.header, (PaymentPayload.to_json Samples.payload).
  split; [reflexivity|]. split; [discriminate|]. split.
  - split; [vm_compute; reflexivity|]. split; [discriminate|].
    eexists. split; reflexivity.
  - split; reflexivity.
Defined.

(** The recipient of the sample transaction is written in mixed case, the
    required one in lower case: the two differ as strings, and the answer
    is valid. *)
Lemma verify_recipient_check_witness :
  Spec.verify_reads (Samples.verify_request Samples.header)
    Samples.requirements "0x02f86b" /\
  Transaction_from
    (Samples.ethers (Samples.transaction Samples.payee 1000)
                    (inr Samples.submitted) (inr None))
    "0x02f86b" = inr (Samples.transaction Samples.payee 1000) /\
  Samples.payee <> payTo Samples.requirements /\
  Spec.same_address (to (Samples.transaction Samples.payee 1000))
                    (payTo Samples.requirements) /\
  fst (POST (Samples.ethers (Samples.transaction Samples.payee 1000)
                            (inr Samples.submitted) (inr None))
            (Samples.verify_request Samples.header)) =
  Returned (NextResponse_json valid_response).
Proof.
  assert (Spec.same_address (to (Samples.transaction Samples.payee 1000))
                            (payTo Samples.requirements)) as Hsame.
  { exists Samples.payee. split; reflexivity. }
  split; [exact verify_sample_reads|]. split; [reflexivity|].
  split; [discriminate|]. split; [exact Hsame|].
  exact (proj2 (proj2 (verify_recipient_check
                         (Samples.ethers (Samples.transaction Samples.payee 1000)
                                         (inr Samples.submitted) (inr None))
                         _ _ "0x02f86b" _ verify_sample_reads eq_refl)) Hsame).
Defined.

Lemma verify_amount_check_witness :
  Spec.verify_reads (Samples.verify_request Samples.header)
    Samples.requirements "0x02f86b" /\
  Transaction_from
    (Samples.ethers (Samples.transaction Samples.payee 1001)
                    (inr Samples.submitted) (inr None))
    "0x02f86b" = inr (Samples.transaction Samples.payee 1001) /\
  value (Samples.transaction Samples.payee 1001) = (1000 + 1)%Z /\
  Js.int_toString (value (Samples.transaction Samples.payee 1001))
  <> maxAmountRequired Samples.requirements /\
  fst (POST (Samples.ethers (Samples.transaction Samples.payee 1001)
                            (inr Samples.submitted) (inr None))
            (Samples.verify_request Samples.header)) =
  Returned (NextResponse_json (invalid "Amount mismatch: expected 1000, got 1001")).
Proof.
  assert (Spec.same_address (to (Samples.transaction Samples.payee 1001))
                            (payTo Samples.requirements)) as Hsame.
  { exists Samples.payee. split; reflexivity. }
  assert (Js.int_toString (value (Samples.transaction Samples.payee 1001))
          <> maxAmountRequired Samples.requirements) as Hne by discriminate.
  split; [exact verify_sample_reads|]. split; [reflexivity|].
  split; [reflexivity|]. split; [exact Hne|].
  exact (proj1 (proj2 (proj1 (verify_amount_check
                         (Samples.ethers (Samples.transaction Samples.payee 1001)
                                         (inr Samples.submitted) (inr None))
                         _ _ "0x02f86b" _ verify_sample_reads eq_refl) Hne)) Hsame).
Defined.

(** C3, as stated, fails: a transaction that parses, pays 1001 where 1000
    is required and goes to another recipient is rejected with the
    recipient-mismatch reason, not the amount-mismatch reason. *)
Lemma verify_amount_reason_counterexample :
  Spec.verify_reads (Samples.verify_request Samples.header)
    Samples.requirements "0x02f86b" /\
  Transaction_from
    (Samples.ethers (Samples.transaction Samples.stranger 1001)
                    (inr Samples.submitted) (inr None))
    "0x02f86b" = inr (Samples.transaction Samples.stranger 1001) /\
  maxAmountRequired Samples.requirements = Js.int_toString 1000 /\
  value (Samples.transaction Samples.stranger 1001) = (1000 + 1)%Z /\
  POST (Samples.ethers (Samples.transaction Samples.stranger 1001)
                       (inr Samples.submitted) (inr None))
       (Samples.verify_request Samples.header) =
  (Returned (NextResponse_json (invalid
     "Recipient mismatch: expected 0x742d35cc6634c0532925a3b844bc9e7595f0beb0, got 0x2222222222222222222222222222222222222222")),
   []) /\
  recipient_mismatch (payTo Samples.requirements) (Some Samples.stranger)
  <> amount_mismatch (maxAmountRequired Samples.requirements) 1001.
Proof.
  split; [exact verify_sample_reads|].
  repeat split; try reflexivity. discriminate.
Qed.

End VerifyFacts.

(** ** Facilitator: settle *)

Module SettleFacts.
Import Handler Protocol MonadUtils HandlerFacts FacilitatorSettle.

Lemma settle_request_reads (body : SettleRequest) (reqs : PaymentRequirements)
    (signedTx : string) (log : list Effect) :
  Spec.settle_reads body reqs signedTx ->
  read_settle_request body log =
  (Value (network reqs, network_type (network reqs), signedTx), log).
Proof.
  intros (Hv & Hr & Hs & Hn & h & v & Hh & Hne & (Hd & Htx & pl & Hpl & Hst)).
  unfold PaymentPayload.decodeHeader in Hd.
  unfold read_settle_request. rewrite Hr, Hh, Hv. cbn [deref].
  rewrite bind_ret. change (negb (X402_VERSION =? X402_VERSION)%Z) with false.
  rewrite bind_return_if_false.
  rewrite (truthy_nonempty h Hne). cbn [negb]. rewrite bind_return_if_false.
  rewrite Hs at 1. rewrite String.eqb_refl. cbn [negb]. rewrite bind_return_if_false.
  rewrite (truthy_nonempty _ Hn). cbn [negb]. rewrite bind_return_if_false.
  rewrite Hd.
  erewrite bind_value by (eapply member_object, Hpl).
  erewrite bind_value by (eapply member_get, Hpl).
  assert (pl <> JSON.JNull) as Hnull by (destruct pl; discriminate).
  destruct pl; try congruence;
  (rewrite bind_ret;
   erewrite bind_value by (eapply member_get, Hst);
   cbn [JSON.truthy_value]; rewrite (truthy_nonempty _ Htx); cbn [negb];
   rewrite bind_return_if_false; reflexivity).
Qed.

(** What [read_settle_request] can end with: it never touches the chain; it yields
    a signed transaction exactly for the requests that pass the checks, and
    every response it returns is a failure. *)
Lemma settle_request_inv (body : SettleRequest) (log log' : list Effect)
    (o : outcome SettleResp (string * Network * string)) :
  read_settle_request body log = (o, log') ->
  log' = log /\
  match o with
  | Value (network, networkType, signedTx) =>
      exists reqs, Spec.settle_reads body reqs signedTx /\
                   network = Protocol.network reqs /\
                   networkType = network_type network
  | Return r => success (Protocol.body r) = false
  | Throw _ => True
  end.
Proof.
  unfold read_settle_request, bind, return_if, deref, member, ret, return_, throw.
  intros H.
  repeat (case_match; simplify_eq;
          try (split; [reflexivity | first [exact I | reflexivity]])).
  split; [reflexivity|].
  match goal with
  | Hr : paymentRequirements body = Some ?a |- _ => exists a
  end.
  repeat match goal with
         | H : negb _ = false |- _ => apply negb_false_iff in H
         end.
  split; [|split; reflexivity].
  repeat split.
  - now apply Z.eqb_eq.
  - assumption.
  - now apply String.eqb_eq.
  - now apply truthy_true.
  - eexists _, _. split; [eassumption|]. split; [now apply truthy_true|].
    split; [eassumption|]. split; [now apply truthy_true|].
    eexists. split; eassumption.
Qed.

Lemma submit_and_wait_mainnet (ethers : Ethers) (network signedTx : string)
    (log : list Effect) :
  submit_and_wait ethers network mainnet signedTx log =
  (Return (NextResponse_json_status (failure "Unsupported Monad network: mainnet") 500), log).
Proof. reflexivity. Qed.

Lemma submit_and_wait_testnet (ethers : Ethers) (network signedTx : string)
    (log : list Effect) :
  submit_and_wait ethers network testnet signedTx log =
  match broadcastTransaction ethers testnet_config signedTx with
  | inl submitError =>
      (Return (NextResponse_json_status (failure (message_or_string submitError)) 500),
       log ++ [Broadcast signedTx])
  | inr txResponse =>
      let log' := (log ++ [Broadcast signedTx]) ++ [AwaitReceipt (hash txResponse) 1] in
      match provider_waitForTransaction ethers testnet_config (hash txResponse) 1 with
      | inl e => (Throw e, log')
      | inr None =>
          (Return (NextResponse_json {| success := false;
                           error := Some "Transaction receipt not found";
                           txHash := Some (hash txResponse);
                           networkId := Some network |}), log')
      | inr (Some receipt) =>
          (Return
             (if match status receipt with Some 1%Z => true | _ => false end
              then NextResponse_json {| success := true;
                           error := None;
                           txHash := Some (hash txResponse);
                           networkId := Some network |}
              else NextResponse_json {| success := false;
                           error := Some "Transaction failed on blockchain";
                           txHash := Some (hash txResponse);
                           networkId := Some network |}), log')
      end
  end.
Proof.
  unfold submit_and_wait, submitTransaction, waitForTransaction,
    createMonadProvider, getMonadNetwork.
  change (MONAD_NETWORKS !! network_name testnet) with (Some testnet_config).
  cbv beta iota delta [bind ret try_catch tell lift throw return_ return_if].
  destruct (broadcastTransaction ethers testnet_config signedTx) as [e|txr];
    [reflexivity|].
  destruct (provider_waitForTransaction ethers testnet_config (hash txr) 1)
    as [e|[rc|]]; try reflexivity.
  destruct (status rc) as [[|[]|]|]; reflexivity.
Qed.

Lemma settle_handler_reads (ethers : Ethers) (body : SettleRequest)
    (reqs : PaymentRequirements) (signedTx : string) :
  Spec.settle_reads body reqs signedTx ->
  settle_handler ethers body [] =
  try_catch
    (submit_and_wait ethers (network reqs) (network_type (network reqs)) signedTx)
    (fun error =>
       bind (return_if (is_duplicate error)
               (NextResponse_json_status (failure "Transaction already used") 409))
            (fun _ => return_ (NextResponse_json_status (failure (message_or_string error)) 500)))
    [].
Proof.
  intros Hreads. unfold settle_handler, try_catch.
  now rewrite (bind_value _ _ _ _ _ (settle_request_reads _ _ _ [] Hreads)).
Qed.


(** A fault of the submission is answered by the inner [catch]: status 500
    and the message of the fault, whatever the message says. *)
Lemma POST_submit_fault (ethers : Ethers) (body : SettleRequest)
    (reqs : PaymentRequirements) (signedTx : string) (submitError : JsError) :
  Spec.settle_reads body reqs signedTx ->
  network reqs <> MONAD_MAINNET ->
  broadcastTransaction ethers testnet_config signedTx = inl submitError ->
  POST ethers body =
  (Returned (NextResponse_json_status (failure (message_or_string submitError)) 500),
   [Broadcast signedTx]).
Proof.
  intros Hreads Hnet Hsub. unfold POST, run.
  rewrite (settle_handler_reads _ _ _ _ Hreads). unfold try_catch, network_type.
  apply String.eqb_neq in Hnet. rewrite Hnet.
  rewrite submit_and_wait_testnet, Hsub. reflexivity.
Qed.

(** A fault of the receipt wait reaches the outer [catch], which answers
    409 when the message has a duplicate marker. *)
Lemma POST_wait_fault (ethers : Ethers) (body : SettleRequest)
    (reqs : PaymentRequirements) (signedTx : string)
    (txResponse : TransactionResponse) (error : JsError) :
  Spec.settle_reads body reqs signedTx ->
  network reqs <> MONAD_MAINNET ->
  broadcastTransaction ethers testnet_config signedTx = inr txResponse ->
  provider_waitForTransaction ethers testnet_config (hash txResponse) 1 = inl error ->
  fst (POST ethers body) =
  Returned (if is_duplicate error
            then NextResponse_json_status (failure "Transaction already used") 409
            else NextResponse_json_status (failure (message_or_string error)) 500).
Proof.
  intros Hreads Hnet Hsub Hwait. unfold POST, run.
  rewrite (settle_handler_reads _ _ _ _ Hreads). unfold try_catch, network_type.
  apply String.eqb_neq in Hnet. rewrite Hnet.
  rewrite submit_and_wait_testnet, Hsub, Hwait. cbv zeta.
  unfold bind, return_if. destruct (is_duplicate error); reflexivity.
Qed.

(** The handler from the request: a body that is read is handled as
    above, and the fault of a body that cannot be read is answered by the
    outer [catch], with nothing asked of the chain. *)
Lemma POST_request_body (ethers : Ethers) (body : SettleRequest) :
  POST_request ethers (inr body) = POST ethers body.
Proof. reflexivity. Qed.

Lemma POST_request_fault (ethers : Ethers) (e : JsError) :
  POST_request ethers (inl e) =
  (Returned (if is_duplicate e
             then NextResponse_json_status (failure "Transaction already used") 409
             else NextResponse_json_status (failure (message_or_string e)) 500),
   []).
Proof.
  unfold POST_request, run, try_catch, bind, lift, throw, return_if, return_, ret.
  destruct (is_duplicate e); reflexivity.
Qed.




(** C2, on the code: a replayed transaction is refused by the chain when it
    is submitted; the fault carries a marker of the duplicate check, and
    settle answers 500 with the message of the fault, not 409 with
    "Transaction already used". *)
Theorem settle_replay_is_generic_failure :
  is_duplicate (Error "Transaction already submitted") = true /\
  POST (Samples.ethers (Samples.transaction Samples.payee 1000)
                       (inl (Error "Transaction already submitted"))
                       (inr (Some Samples.receipt)))
       (Samples.settle_request Samples.header)
  = (Returned (NextResponse_json_status (failure "Transaction already submitted") 500),
     [Broadcast "0x02f86b"]).
Proof. split; vm_compute; reflexivity. Qed.

(** C6. When settle has broadcast a transaction with success and the wait
    for its receipt returns no receipt, the result is a failure whose
    txHash is the hash of the submitted transaction. *)
Theorem settle_missing_receipt (ethers : Ethers) (body : SettleRequest)
    (signedTx : string) (txResponse : TransactionResponse) :
  In (Broadcast signedTx) (snd (POST ethers body)) ->
  broadcastTransaction ethers testnet_config signedTx = inr txResponse ->
  provider_waitForTransaction ethers testnet_config (hash txResponse) 1 = inr None ->
  exists resp,
    fst (POST ethers body) = Returned resp /\
    success (Protocol.body resp) = false /\
    error (Protocol.body resp) = Some "Transaction receipt not found" /\
    txHash (Protocol.body resp) = Some (hash txResponse).
Proof.
  intros Hin Hsub Hwait. revert Hin.
  unfold POST, run, settle_handler, try_catch, bind.
  destruct (read_settle_request body []) as [o log'] eqn:E.
  destruct (settle_request_inv _ _ _ _ E) as [-> Ho].
  destruct o as [[[n nt] tx]|r|e].
  - destruct Ho as (reqs & _ & -> & ->).
    unfold network_type. destruct (String.eqb (network reqs) MONAD_MAINNET).
    + rewrite submit_and_wait_mainnet. intros [].
    + rewrite submit_and_wait_testnet.
      destruct (broadcastTransaction ethers testnet_config tx) as [e|txr] eqn:Etx.
      * cbn [snd app In]. intros [[= <-]|[]]. congruence.
      * assert (tx = signedTx -> txr = txResponse) as Hsame by (intros ->; congruence).
        cbv zeta.
        destruct (provider_waitForTransaction ethers testnet_config (hash txr) 1)
          as [e|[rc|]] eqn:Ew.
        -- unfold return_if. destruct (is_duplicate e); cbn [snd app In];
             (intros [[= ->]|[[=]|[]]]; rewrite (Hsame eq_refl) in Ew; congruence).
        -- cbn [snd app In]. intros [[= ->]|[[=]|[]]].
           rewrite (Hsame eq_refl) in Ew. congruence.
        -- cbn [snd app In fst]. intros [[= ->]|[[=]|[]]].
           rewrite (Hsame eq_refl). eexists. repeat split.
  - intros [].
  - unfold return_if. destruct (is_duplicate e); intros [].
Qed.

Lemma settle_missing_receipt_witness :
  In (Broadcast "0x02f86b")
     (snd (POST (Samples.ethers (Samples.transaction Samples.payee 1000)
                                (inr Samples.submitted) (inr None))
                (Samples.settle_request Samples.header))) /\
  broadcastTransaction
    (Samples.ethers (Samples.transaction Samples.payee 1000)
                    (inr Samples.submitted) (inr None))
    testnet_config "0x02f86b" = inr Samples.submitted /\
  provider_waitForTransaction
    (Samples.ethers (Samples.transaction Samples.payee 1000)
                    (inr Samples.submitted) (inr None))
    testnet_config (hash Samples.submitted) 1 = inr None /\
  exists resp,
    fst (POST (Samples.ethers (Samples.transaction Samples.payee 1000)
                              (inr Samples.submitted) (inr None))
              (Samples.settle_request Samples.header)) = Returned resp /\
    success (Protocol.body resp) = false /\
    error (Protocol.body resp) = Some "Transaction receipt not found" /\
    txHash (Protocol.body resp) = Some (hash Samples.submitted).
Proof.
  assert (In (Broadcast "0x02f86b")
     (snd (POST (Samples.ethers (Samples.transaction Samples.payee 1000)
                                (inr Samples.submitted) (inr None))
                (Samples.settle_request Samples.header)))) as H.
  { vm_compute. left. reflexivity. }
  split; [exact H|]. split; [reflexivity|]. split; [reflexivity|].
  exact (settle_missing_receipt _ _ _ _ H eq_refl eq_refl).
Defined.

End SettleFacts.

(** ** Payment middleware *)

Module MiddlewareFacts.
Import Handler Protocol X402Middleware.

(** A configured route that names a network, asked without payment, is
    answered 402 with the configured price as [maxAmountRequired]. *)
Lemma middleware_challenge (recipientAddress : string)
    (routes : gmap string RouteConfig) (facilitatorConfig : FacilitatorConfig)
    (request : NextRequest) (routeConfig : RouteConfig) (routeNetwork : string) :
  routes !! pathname request = Some routeConfig ->
  network routeConfig = Some routeNetwork ->
  recipientAddress <> "" ->
  Js.truthy_opt (headers_get request "X-PAYMENT") = false ->
  exists response402 first,
    paymentMiddleware recipientAddress routes facilitatorConfig request
    = Returned (PaymentRequired 402 response402) /\
    accepts response402 !! 0%nat = Some first /\
    maxAmountRequired first = price routeConfig.
Proof.
  intros Hroute Hnet Hrec Hpay.
  unfold paymentMiddleware, run, middleware. rewrite Hroute, Hnet.
  rewrite HandlerFacts.bind_ret, (HandlerFacts.truthy_nonempty _ Hrec).
  cbn [negb]. rewrite HandlerFacts.bind_return_if_false.
  destruct (headers_get request "X-PAYMENT") as [h|].
  - cbn [Js.truthy_opt] in Hpay. rewrite Hpay.
    eexists _, _. split; [reflexivity|]. split; reflexivity.
  - eexists _, _. split; [reflexivity|]. split; reflexivity.
Qed.

(** C5, on the code: the route below is present in the configuration, the
    recipient is configured and the request has no X-PAYMENT header, but the
    route names no network: the middleware throws before it builds the
    payment requirements, and no 402 is sent. *)
Theorem middleware_route_without_network :
  Samples.routes_without_network !! pathname Samples.unpaid_request
  = Some {| price := "1000000000000000"; network := None; config := None |} /\
  headers_get Samples.unpaid_request "X-PAYMENT" = None /\
  Samples.payee <> "" /\
  paymentMiddleware Samples.payee Samples.routes_without_network
    Samples.facilitator Samples.unpaid_request
  = Uncaught
      (TypeError "Cannot read properties of undefined (reading 'startsWith')").
Proof.
  split; [reflexivity|]. split; [reflexivity|]. split; [discriminate|].
  reflexivity.
Qed.

End MiddlewareFacts.

Module VerifyAnswers.
Import Handler Protocol MonadUtils HandlerFacts FacilitatorVerify VerifyFacts.

Lemma is_string_true (v : option JSON.json) (s : string) :
  JSON.is_string v s = true -> v = Some (JSON.JStr s).
Proof.
  destruct v as [[]|]; try discriminate. cbn.
  intros H. apply String.eqb_eq in H. now subst.
Qed.

Lemma verify_request_inv (body : VerifyRequest) (log log' : list Effect)
    (o : outcome VerifyResp (PaymentRequirements * string)) :
  read_verify_request body log = (o, log') ->
  log' = log /\
  match o with
  | Value (reqs, signedTx) => Spec.verify_reads body reqs signedTx
  | Return r =>
      isValid (Protocol.body r) = false /\
      (Protocol.status r = 200%N \/ Protocol.status r = 400%N)
  | Throw e => True
  end.
Proof.
  unfold read_verify_request, bind, return_if, deref, member, ret, return_, throw.
  intros H.
  repeat (case_match; simplify_eq;
          try (split; [reflexivity | first [exact I | split; [reflexivity | auto]]])).
  all: split; [reflexivity|].
  all: repeat match goal with
         | H : negb _ = false |- _ => apply negb_false_iff in H
         | H : _ || _ = false |- _ => apply orb_false_iff in H; destruct H
         | H : JSON.is_string _ _ = true |- _ => apply is_string_true in H
         end.
  all: repeat split.
  all: try (now apply Z.eqb_eq).
  all: try assumption.
  all: try (now apply String.eqb_eq).
  match goal with
  | Hp : JSON.parse _ = Some ?v |- _ => eexists _, v
  end.
  split; [eassumption|]. split; [now apply truthy_true|].
  split; [|split; assumption].
  split; [assumption|]. split; [now apply truthy_true|].
  eexists. split; eassumption.
Qed.


(** The transaction checks, by cases on the parsed transaction. *)
Lemma check_transaction_cases (ethers : Ethers) (reqs : PaymentRequirements)
    (signedTx : string) (log : list Effect) :
  check_transaction ethers reqs signedTx log =
  match Transaction_from ethers signedTx with
  | inl parseError =>
      (Return (NextResponse_json
         (invalid ("Failed to parse transaction: " +:+ message parseError))), log)
  | inr t =>
      if recipient_differs (to t) (payTo reqs)
      then (Return (NextResponse_json
              (invalid (recipient_mismatch (payTo reqs) (to t)))), log)
      else if negb (String.eqb (Js.int_toString (value t)) (maxAmountRequired reqs))
      then (Return (NextResponse_json
              (invalid (amount_mismatch (maxAmountRequired reqs) (value t)))), log)
      else if match from t with
              | Some sender => negb (Js.truthy sender)
                               || negb (isValidAddress ethers sender)
              | None => true
              end
      then (Return (NextResponse_json (invalid "Invalid sender address")), log)
      else (Value tt, log)
  end.
Proof.
  unfold check_transaction, parseSignedTransaction.
  destruct (Transaction_from ethers signedTx) as [e|t]; [reflexivity|].
  cbv beta iota delta [lift bind ret try_catch return_if return_].
  destruct (recipient_differs (to t) (payTo reqs)); [reflexivity|].
  destruct (negb (String.eqb _ _)); [reflexivity|].
  destruct (match from t with Some _ => _ | None => _ end); reflexivity.
Qed.

(** X1. Verify always answers: it never throws, it asks nothing of the
    chain, the status of its response is 200, 400 or 500, and a valid
    verdict has status 200. *)
Theorem verify_always_answers (ethers : Ethers) (body : VerifyRequest) :
  exists resp,
    POST ethers body = (Returned resp, []) /\
    (Protocol.status resp = 200%N \/ Protocol.status resp = 400%N
     \/ Protocol.status resp = 500%N) /\
    (isValid (Protocol.body resp) = true -> Protocol.status resp = 200%N).
Proof.
  unfold POST, run, verify_handler, try_catch, bind.
  destruct (read_verify_request body []) as [o log'] eqn:E.
  destruct (verify_request_inv _ _ _ _ E) as [-> Ho].
  destruct o as [[reqs tx]|r|e].
  - rewrite check_transaction_cases.
    destruct (Transaction_from ethers tx) as [e|t].
    { eexists. split; [reflexivity|]. split; [now left | reflexivity]. }
    destruct (recipient_differs _ _).
    { eexists. split; [reflexivity|]. split; [now left | reflexivity]. }
    destruct (negb (String.eqb _ _)).
    { eexists. split; [reflexivity|]. split; [now left | reflexivity]. }
    destruct (match from t with Some _ => _ | None => _ end);
      eexists; (split; [reflexivity|]); (split; [now left | reflexivity]).
  - destruct Ho as [Hv Hs]. exists r. split; [reflexivity|].
    split; [tauto | congruence].
  - eexists. split; [reflexivity|]. split; [now (right; right) | discriminate].
Qed.

(** A valid verdict has passed every check. *)
Lemma verify_valid_sound (ethers : Ethers) (body : VerifyRequest)
    (resp : VerifyResp) :
  fst (POST ethers body) = Returned resp ->
  isValid (Protocol.body resp) = true ->
  exists reqs signedTx t sender,
    Spec.verify_reads body reqs signedTx /\
    Transaction_from ethers signedTx = inr t /\
    Spec.same_address (to t) (payTo reqs) /\
    Js.int_toString (value t) = maxAmountRequired reqs /\
    from t = Some sender /\ sender <> "" /\
    isValidAddress ethers sender = true.
Proof.
  intros Hresp Hvalid. revert Hresp.
  unfold POST, run, verify_handler, try_catch, bind.
  destruct (read_verify_request body []) as [o log'] eqn:E.
  destruct (verify_request_inv _ _ _ _ E) as [-> Ho].
  destruct o as [[reqs tx]|r|e]; cbn [fst].
  - rewrite check_transaction_cases.
    destruct (Transaction_from ethers tx) as [e|t] eqn:Et.
    { intros [= <-]. discriminate. }
    destruct (recipient_differs _ _) eqn:Er.
    { intros [= <-]. discriminate. }
    destruct (negb (String.eqb _ _)) eqn:Ea.
    { intros [= <-]. discriminate. }
    destruct (from t) as [sender|] eqn:Ef; [|intros [= <-]; discriminate].
    destruct (negb (Js.truthy sender) || negb (isValidAddress ethers sender))
      eqn:Es.
    { intros [= <-]. discriminate. }
    intros _. apply orb_false_iff in Es. destruct Es as [Es1 Es2].
    apply negb_false_iff in Es1, Es2, Ea.
    exists reqs, tx, t, sender.
    split; [exact Ho|]. split; [exact Et|].
    split; [now apply recipient_differs_false|].
    split; [now apply String.eqb_eq|].
    split; [exact Ef|]. split; [now apply truthy_true | exact Es2].
  - intros [= <-]. destruct Ho. congruence.
  - intros [= <-]. discriminate.
Qed.

(** X2. Verify answers valid exactly for the requests that pass steps 1 to 7
    and carry a signed transaction that parses, pays the required recipient
    (up to letter case) exactly the required amount, and has a sender that
    is a valid address. *)
Theorem verify_valid_iff (ethers : Ethers) (body : VerifyRequest) :
  (exists resp, fst (POST ethers body) = Returned resp /\
                isValid (Protocol.body resp) = true) <->
  (exists reqs signedTx t sender,
     Spec.verify_reads body reqs signedTx /\
     Transaction_from ethers signedTx = inr t /\
     Spec.same_address (to t) (payTo reqs) /\
     Js.int_toString (value t) = maxAmountRequired reqs /\
     from t = Some sender /\ sender <> "" /\
     isValidAddress ethers sender = true).
Proof.
  split.
  - intros (resp & Hresp & Hvalid). now apply (verify_valid_sound ethers body resp).
  - intros (reqs & tx & t & sender & Hreads & Et & Hto & Hamount & Hfrom & Hne & Hs).
    rewrite (POST_parsed _ _ _ _ _ Hreads Et). cbn [fst].
    apply recipient_differs_false in Hto. rewrite Hto, Hamount, String.eqb_refl, Hfrom.
    rewrite (truthy_nonempty _ Hne), Hs. cbn.
    eexists. split; reflexivity.
Qed.

End VerifyAnswers.

Module SettleAnswers.
Import Handler Protocol MonadUtils HandlerFacts FacilitatorSettle SettleFacts.

(** The faults of [read_settle_request] are failed property reads; their
    messages carry no duplicate marker. *)
Lemma settle_request_throw (body : SettleRequest) (log log' : list Effect)
    (e : JsError) :
  read_settle_request body log = (Throw e, log') -> is_duplicate e = false.
Proof.
  unfold read_settle_request, bind, return_if, deref, member, ret, return_, throw.
  intros H.
  repeat (case_match; simplify_eq; try reflexivity).
Qed.

(** The handler after the request has been read. *)
Lemma POST_cases (ethers : Ethers) (body : SettleRequest) :
  POST ethers body =
  match read_settle_request body [] with
  | (Value (network, networkType, signedTx), _) =>
      match networkType with
      | mainnet =>
          (Returned (NextResponse_json_status
                       (failure "Unsupported Monad network: mainnet") 500), [])
      | testnet =>
          match broadcastTransaction ethers testnet_config signedTx with
          | inl submitError =>
              (Returned (NextResponse_json_status
                           (failure (message_or_string submitError)) 500),
               [Broadcast signedTx])
          | inr txResponse =>
              let log := [Broadcast signedTx; AwaitReceipt (hash txResponse) 1] in
              match provider_waitForTransaction ethers testnet_config
                      (hash txResponse) 1 with
              | inl e =>
                  (Returned
                     (if is_duplicate e
                      then NextResponse_json_status
                             (failure "Transaction already used") 409
                      else NextResponse_json_status
                             (failure (message_or_string e)) 500), log)
              | inr None =>
                  (Returned (NextResponse_json
                     {| success := false;
                        error := Some "Transaction receipt not found";
                        txHash := Some (hash txResponse);
                        networkId := Some network |}), log)
              | inr (Some receipt) =>
                  (Returned
                     (if match status receipt with Some 1%Z => true | _ => false end
                      then NextResponse_json
                             {| success := true;
                                error := None;
                                txHash := Some (hash txResponse);
                                networkId := Some network |}
                      else NextResponse_json
                             {| success := false;
                                error := Some "Transaction failed on blockchain";
                                txHash := Some (hash txResponse);
                                networkId := Some network |}), log)
              end
          end
      end
  | (Return r, _) => (Returned r, [])
  | (Throw e, _) =>
      (Returned (NextResponse_json_status (failure (message_or_string e)) 500), [])
  end.
Proof.
  unfold POST, run, settle_handler, try_catch, bind.
  destruct (read_settle_request body []) as [o log'] eqn:E.
  destruct (settle_request_inv _ _ _ _ E) as [-> Ho].
  destruct o as [[[n nt] tx]|r|e].
  - destruct nt.
    + rewrite submit_and_wait_testnet.
      destruct (broadcastTransaction ethers testnet_config tx) as [e|txr];
        [reflexivity|].
      cbv zeta.
      destruct (provider_waitForTransaction ethers testnet_config (hash txr) 1)
        as [e|[rc|]]; try reflexivity.
      unfold return_if, return_. destruct (is_duplicate e); reflexivity.
    + rewrite submit_and_wait_mainnet. reflexivity.
  - reflexivity.
  - rewrite (settle_request_throw _ _ _ _ E). reflexivity.
Qed.

(** X3. Settle always answers, and it asks the chain for at most one
    broadcast followed by at most one wait, the wait being for the hash
    that the broadcast returned. *)
Theorem settle_always_answers (ethers : Ethers) (body : SettleRequest) :
  exists resp,
    fst (POST ethers body) = Returned resp /\
    (snd (POST ethers body) = [] \/
     (exists signedTx,
        snd (POST ethers body) = [Broadcast signedTx] /\
        Protocol.status resp = 500%N /\ success (Protocol.body resp) = false) \/
     (exists signedTx txResponse,
        broadcastTransaction ethers testnet_config signedTx = inr txResponse /\
        snd (POST ethers body)
        = [Broadcast signedTx; AwaitReceipt (hash txResponse) 1])).
Proof.
  rewrite POST_cases.
  destruct (read_settle_request body []) as [[[[n nt] tx]|r|e] log'].
  - destruct nt; [|eexists; split; [reflexivity | now left]].
    destruct (broadcastTransaction ethers testnet_config tx) as [e|txr] eqn:Eb.
    + eexists. split; [reflexivity|]. right; left. exists tx. repeat split.
    + cbv zeta.
      destruct (provider_waitForTransaction ethers testnet_config (hash txr) 1)
        as [e|[rc|]];
        (eexists; split; [reflexivity|]; right; right; exists tx, txr; now split).
  - eexists. split; [reflexivity | now left].
  - eexists. split; [reflexivity | now left].
Qed.

(** A reported success has been through the chain. *)
Lemma settle_success_sound (ethers : Ethers) (body : SettleRequest)
    (resp : SettleResp) :
  fst (POST ethers body) = Returned resp ->
  success (Protocol.body resp) = true ->
  exists reqs signedTx txResponse receipt,
    Spec.settle_reads body reqs signedTx /\
    network reqs <> MONAD_MAINNET /\
    broadcastTransaction ethers testnet_config signedTx = inr txResponse /\
    provider_waitForTransaction ethers testnet_config (hash txResponse) 1
    = inr (Some receipt) /\
    status receipt = Some 1%Z /\
    resp = NextResponse_json {| success := true;
                                error := None;
                                txHash := Some (hash txResponse);
                                networkId := Some (network reqs) |}.
Proof.
  rewrite POST_cases.
  destruct (read_settle_request body []) as [o log'] eqn:E.
  destruct (settle_request_inv _ _ _ _ E) as [-> Ho].
  destruct o as [[[n nt] tx]|r|e]; cbn [fst].
  - destruct Ho as (reqs & Hreads & -> & ->).
    unfold network_type.
    destruct (String.eqb (network reqs) MONAD_MAINNET) eqn:En.
    { intros [= <-] H. discriminate. }
    destruct (broadcastTransaction ethers testnet_config tx) as [e|txr] eqn:Eb.
    { intros [= <-] H. discriminate. }
    cbv zeta.
    destruct (provider_waitForTransaction ethers testnet_config (hash txr) 1)
      as [e|[rc|]] eqn:Ew; cbn [fst].
    + intros [= <-] H. destruct (is_duplicate e); discriminate.
    + destruct (status rc) as [[|[]|]|] eqn:Es;
        intros [= <-] H; try discriminate.
      exists reqs, tx, txr, rc. apply String.eqb_neq in En.
      split; [exact Hreads|]. split; [exact En|]. now repeat split.
    + intros [= <-] H. discriminate.
  - intros [= <-] H. congruence.
  - intros [= <-] H. discriminate.
Qed.




(** X6. When settle answers 409. The body of the request is read inside the
    outer [try], so there are two ways to the conflict, and the answer is
    the same failure "Transaction already used" on both. Either the body
    cannot be read and the fault of reading it carries a duplicate marker:
    then nothing has been asked of the chain. Or the body passes the
    checks, the transaction has been broadcast with success, and the wait
    for the receipt has failed with a fault that carries a duplicate
    marker. A body that cannot be read is answered 409 or 500 according to
    the markers in its fault. *)
Theorem settle_conflict_cases (ethers : Ethers) :
  (forall e : JsError,
     POST_request ethers (inl e) =
     (Returned (if is_duplicate e
                then NextResponse_json_status (failure "Transaction already used") 409
                else NextResponse_json_status (failure (message_or_string e)) 500),
      [])) /\
  (forall (request : JsError + SettleRequest) (resp : SettleResp),
     fst (POST_request ethers request) = Returned resp ->
     Protocol.status resp = 409%N ->
     resp = NextResponse_json_status (failure "Transaction already used") 409 /\
     ((exists e,
         request = inl e /\ is_duplicate e = true /\
         snd (POST_request ethers request) = []) \/
      (exists body reqs signedTx txResponse e,
         request = inr body /\
         Spec.settle_reads body reqs signedTx /\
         network reqs <> MONAD_MAINNET /\
         snd (POST_request ethers request)
         = [Broadcast signedTx; AwaitReceipt (hash txResponse) 1] /\
         broadcastTransaction ethers testnet_config signedTx = inr txResponse /\
         provider_waitForTransaction ethers testnet_config (hash txResponse) 1
         = inl e /\
         is_duplicate e = true))).
Proof.
  split; [apply POST_request_fault|].
  intros [e0|body] resp.
  { rewrite POST_request_fault. cbn [fst snd].
    destruct (is_duplicate e0) eqn:Ed; intros [= <-]; [|discriminate].
    intros _. split; [reflexivity|]. left. now exists e0. }
  rewrite POST_request_body, POST_cases.
  destruct (read_settle_request body []) as [o log'] eqn:E.
  destruct (settle_request_inv _ _ _ _ E) as [-> Ho].
  destruct o as [[[n nt] tx]|r|e]; cbn [fst].
  - destruct Ho as (reqs & Hreads & -> & ->).
    unfold network_type.
    destruct (String.eqb (network reqs) MONAD_MAINNET) eqn:Enet;
      [intros [= <-]; discriminate|].
    apply String.eqb_neq in Enet.
    destruct (broadcastTransaction ethers testnet_config tx) as [e|txr] eqn:Eb.
    { intros [= <-]. discriminate. }
    cbv zeta.
    destruct (provider_waitForTransaction ethers testnet_config (hash txr) 1)
      as [e|[rc|]] eqn:Ew; cbn [fst snd].
    + destruct (is_duplicate e) eqn:Ed; intros [= <-]; [|discriminate].
      intros _. split; [reflexivity|]. right.
      exists body, reqs, tx, txr, e.
      split; [reflexivity|]. split; [exact Hreads|]. split; [exact Enet|].
      repeat split; auto.
    + destruct (match status rc with Some 1%Z => true | _ => false end);
        intros [= <-]; discriminate.
    + intros [= <-]. discriminate.
  - intros [= <-] Hst. exfalso. revert E Hst. clear.
    unfold read_settle_request, bind, return_if, deref, member, ret, return_, throw.
    intros H.
    repeat (case_match; simplify_eq; try discriminate).
  - intros [= <-]. discriminate.
Qed.

(** A body that is not JSON and whose fault quotes the words "already
    submitted" is answered 409 with nothing broadcast; a payment whose
    receipt wait fails with these words is answered 409 after the
    broadcast. *)
Lemma settle_conflict_cases_witness :
  POST_request Scenarios.chain
    (inl {| name := "SyntaxError";
            message := "Unexpected token in JSON: already submitted" |})
  = (Returned (NextResponse_json_status (failure "Transaction already used") 409),
     []) /\
  exists signedTx txResponse e,
    snd (POST_request Scenarios.replaying_chain
           (inr (Samples.settle_request Samples.header)))
    = [Broadcast signedTx; AwaitReceipt (hash txResponse) 1] /\
    broadcastTransaction Scenarios.replaying_chain testnet_config signedTx
    = inr txResponse /\
    provider_waitForTransaction Scenarios.replaying_chain testnet_config
      (hash txResponse) 1 = inl e /\
    is_duplicate e = true.
Proof.
  split.
  - exact (proj1 (settle_conflict_cases Scenarios.chain)
             {| name := "SyntaxError";
                message := "Unexpected token in JSON: already submitted" |}).
  - assert (fst (POST_request Scenarios.replaying_chain
                   (inr (Samples.settle_request Samples.header)))
            = Returned (NextResponse_json_status
                          (failure "Transaction already used") 409)) as Hresp
      by (vm_compute; reflexivity).
    destruct (proj2 (settle_conflict_cases Scenarios.replaying_chain)
                _ _ Hresp eq_refl)
      as (_ & [(e & [=] & _) | (body & reqs & signedTx & txResponse & e
                                & _ & _ & _ & H1 & H2 & H3 & H4)]).
    now exists signedTx, txResponse, e.
Defined.

End SettleAnswers.

Module FacilitatorFacts.
Import Handler Protocol MonadUtils.

(** X7. A request body without payment requirements is answered 500 by
    both endpoints, with the message of the failed property read: the
    handlers read the scheme of the requirements, to log it, before they
    check that the requirements are present. *)
Theorem facilitator_without_requirements (ethers : Ethers)
    (verify_body : FacilitatorVerify.VerifyRequest)
    (settle_body : FacilitatorSettle.SettleRequest) :
  FacilitatorVerify.paymentRequirements verify_body = None ->
  FacilitatorSettle.paymentRequirements settle_body = None ->
  FacilitatorVerify.POST ethers verify_body
  = (Returned (NextResponse_json_status
       (FacilitatorVerify.invalid
          "Cannot read properties of undefined (reading 'scheme')") 500), []) /\
  FacilitatorSettle.POST ethers settle_body
  = (Returned (NextResponse_json_status
       (FacilitatorSettle.failure
          "Cannot read properties of undefined (reading 'scheme')") 500), []).
Proof.
  intros Hv Hs. split.
  - unfold FacilitatorVerify.POST, run, FacilitatorVerify.verify_handler,
      FacilitatorVerify.read_verify_request, try_catch, bind.
    rewrite Hv. reflexivity.
  - unfold FacilitatorSettle.POST, run, FacilitatorSettle.settle_handler,
      FacilitatorSettle.read_settle_request, try_catch, bind.
    rewrite Hs. reflexivity.
Qed.

Lemma facilitator_without_requirements_witness :
  FacilitatorVerify.POST
    (Samples.ethers (Samples.transaction Samples.payee 1000)
                    (inr Samples.submitted) (inr None))
    {| FacilitatorVerify.x402Version := 1;
       FacilitatorVerify.paymentHeader := Some Samples.header;
       FacilitatorVerify.paymentRequirements := None |}
  = (Returned (NextResponse_json_status
       (FacilitatorVerify.invalid
          "Cannot read properties of undefined (reading 'scheme')") 500), []) /\
  FacilitatorSettle.POST
    (Samples.ethers (Samples.transaction Samples.payee 1000)
                    (inr Samples.submitted) (inr None))
    {| FacilitatorSettle.x402Version := 1;
       FacilitatorSettle.paymentHeader := Some Samples.header;
       FacilitatorSettle.paymentRequirements := None |}
  = (Returned (NextResponse_json_status
       (FacilitatorSettle.failure
          "Cannot read properties of undefined (reading 'scheme')") 500), []).
Proof.
  apply facilitator_without_requirements; reflexivity.
Defined.

End FacilitatorFacts.

Module ClassifierFacts.
Import Js JsFacts BotProtection AICrawler.

(** Two characters with the same upper case have the same lower case. *)
Lemma upper_char_lower_char (a b : ascii) :
  upper_char a = upper_char b -> lower_char a = lower_char b.
Proof.
  intros H.
  pose proof (ascii_forall2
    (fun a b => implb (Ascii.eqb (upper_char a) (upper_char b))
                      (Ascii.eqb (lower_char a) (lower_char b)))) as E.
  specialize (E ltac:(vm_compute; reflexivity) a b). cbv beta in E.
  rewrite H, Ascii.eqb_refl in E. simpl in E.
  now apply Ascii.eqb_eq.
Qed.

Lemma match_here_fold (pat a b : string) :
  toLowerCase a = toLowerCase b ->
  match_here true pat a = match_here true pat b.
Proof.
  revert a b. induction pat as [|p pat IH]; intros a b H; [reflexivity|].
  destruct a as [|x a], b as [|y b]; try discriminate; [reflexivity|].
  simpl in H. injection H as Hc Hrest.
  simpl. rewrite (lower_char_upper_char _ _ Hc). f_equal. now apply IH.
Qed.

Lemma search_fold (pat a b : string) :
  toLowerCase a = toLowerCase b -> search true pat a = search true pat b.
Proof.
  revert b. induction a as [|x a IH]; intros [|y b] H; try discriminate.
  - reflexivity.
  - simpl in H. injection H as Hc Hrest.
    cbn [search]. rewrite (IH b Hrest). f_equal.
    apply match_here_fold. simpl. now rewrite Hc, Hrest.
Qed.

Lemma test_fold (src a b : string) :
  toLowerCase a = toLowerCase b -> test (re_i src) a = test (re_i src) b.
Proof. apply search_fold. Qed.

Lemma truthy_fold (a b : string) :
  toLowerCase a = toLowerCase b -> truthy a = truthy b.
Proof. destruct a, b; try discriminate; reflexivity. Qed.

Lemma existsb_test_fold (names : list string) (a b : string) :
  toLowerCase a = toLowerCase b ->
  existsb (fun pattern => test pattern a) (map re_i names)
  = existsb (fun pattern => test pattern b) (map re_i names).
Proof.
  intros H. induction names as [|n names IH]; [reflexivity|].
  cbn [map existsb]. now rewrite IH, (test_fold n a b H).
Qed.

(** X8. The classifiers ignore the case of ASCII letters: two User-Agent
    strings that are equal after case folding get the same answer from
    [isBot] (with the same request or none), [getBotType], [isAICrawler]
    and [getAICrawlerName]. *)
Theorem classifiers_ignore_case (ua ua' : string) (request : option NextRequest) :
  toLowerCase ua = toLowerCase ua' ->
  isBot ua request = isBot ua' request /\
  getBotType ua = getBotType ua' /\
  isAICrawler ua = isAICrawler ua' /\
  getAICrawlerName ua = getAICrawlerName ua'.
Proof.
  intros H.
  pose proof (fun src => test_fold src ua ua' H) as Ht.
  pose proof (truthy_fold ua ua' H) as Hy.
  repeat split.
  - unfold isBot, BOT_PATTERNS. now rewrite Hy, (existsb_test_fold _ ua ua' H).
  - unfold getBotType. cbv zeta. now rewrite Hy, !Ht.
  - unfold isAICrawler, AI_CRAWLER_PATTERNS.
    now rewrite Hy, (existsb_test_fold _ ua ua' H).
  - unfold getAICrawlerName. cbv zeta. now rewrite Hy, !Ht.
Qed.

Lemma classifiers_ignore_case_witness :
  toLowerCase "GPTBOT/1.0" = toLowerCase "gptbot/1.0" /\
  isBot "GPTBOT/1.0" None = isBot "gptbot/1.0" None /\
  getBotType "GPTBOT/1.0" = getBotType "gptbot/1.0" /\
  isAICrawler "GPTBOT/1.0" = isAICrawler "gptbot/1.0" /\
  getAICrawlerName "GPTBOT/1.0" = getAICrawlerName "gptbot/1.0".
Proof.
  split; [reflexivity|].
  apply classifiers_ignore_case. reflexivity.
Defined.

(** A match at the head of a string is a prefix with the letters of the
    pattern, in some case. *)
Lemma match_here_inv (pat s : string) :
  match_here true pat s = true ->
  exists mid post, s = mid +:+ post /\ toLowerCase mid = toLowerCase pat.
Proof.
  revert s. induction pat as [|p pat IH]; intros s H.
  - exists "", s. split; reflexivity.
  - destruct s as [|c s]; [discriminate|].
    simpl in H. apply andb_prop in H. destruct H as [Hc Hrest].
    apply Ascii.eqb_eq in Hc.
    destruct (IH _ Hrest) as (mid & post & -> & Hmid).
    exists (String c mid), post. split; [reflexivity|].
    simpl. rewrite Hmid. f_equal. symmetry. now apply upper_char_lower_char.
Qed.

Lemma search_inv (pat s : string) :
  search true pat s = true ->
  exists pre mid post,
    s = pre +:+ mid +:+ post /\ toLowerCase mid = toLowerCase pat.
Proof.
  induction s as [|c s IH]; cbn [search]; intros H.
  - apply orb_prop in H. destruct H as [H|H]; [|discriminate].
    destruct (match_here_inv _ _ H) as (mid & post & E & Hm).
    exists "", mid, post. now split.
  - apply orb_prop in H. destruct H as [H|H].
    + destruct (match_here_inv _ _ H) as (mid & post & E & Hm).
      exists "", mid, post. now split.
    + destruct (IH H) as (pre & mid & post & -> & Hm).
      exists (String c pre), mid, post. now split.
Qed.

Lemma existsb_test_iff (names : list string) (ua : string) :
  existsb (fun pattern => test pattern ua) (map re_i names) = true <->
  exists re, In re (map re_i names) /\
             Spec.contains_ignoring_case (toLowerCase (source re)) ua.
Proof.
  rewrite existsb_exists. split.
  - intros (re & Hin & Ht). exists re. split; [exact Hin|].
    apply in_map_iff in Hin. destruct Hin as (n & <- & _).
    apply search_inv in Ht. exact Ht.
  - intros (re & Hin & (pre & mid & post & -> & Hmid)).
    exists re. split; [exact Hin|].
    apply in_map_iff in Hin. destruct Hin as (n & <- & _).
    unfold test. cbn [ignoreCase source re_i] in *.
    now apply search_skip, search_here, match_here_same_case.
Qed.

Lemma contains_nonempty (names : list string) (re : RegExp) (ua : string) :
  forallb (fun n => negb (String.eqb n "")) names = true ->
  In re (map re_i names) ->
  Spec.contains_ignoring_case (toLowerCase (source re)) ua ->
  truthy ua = true.
Proof.
  intros Hall Hin Hc. apply in_map_iff in Hin. destruct Hin as (n & <- & Hn).
  rewrite forallb_forall in Hall. specialize (Hall n Hn).
  apply (contains_truthy (toLowerCase n)); [|exact Hc].
  destruct n; [discriminate|]. discriminate.
Qed.

(** X9. What the classifiers look for. [isAICrawler] answers true exactly
    for the User-Agent strings that contain, in some letter case, one of
    the sixteen crawler names; [isBot] without the request answers true
    exactly for the empty string and for the strings that contain, in some
    letter case, one of the names of its list. *)
Theorem classifiers_by_name (ua : string) :
  (isAICrawler ua = true <->
   exists re, In re AI_CRAWLER_PATTERNS /\
              Spec.contains_ignoring_case (toLowerCase (source re)) ua) /\
  (isBot ua None = true <->
   ua = "" \/
   exists re, In re BOT_PATTERNS /\
              Spec.contains_ignoring_case (toLowerCase (source re)) ua).
Proof.
  split.
  - unfold isAICrawler, AI_CRAWLER_PATTERNS. rewrite <- existsb_test_iff.
    destruct (truthy ua) eqn:Eua; cbn [negb]; [reflexivity|].
    split; [discriminate|].
    intros H. apply existsb_test_iff in H. destruct H as (re & Hin & Hc).
    rewrite <- Eua. eapply contains_nonempty; [|exact Hin|exact Hc]. reflexivity.
  - unfold isBot, BOT_PATTERNS.
    destruct (truthy ua) eqn:Eua; cbn [negb].
    + rewrite <- existsb_test_iff.
      destruct (existsb _ _); split; auto.
      intros [->|H]; [discriminate | exact H].
    + destruct ua; [|discriminate]. split; auto.
Qed.

End ClassifierFacts.

(** ** JSON texts *)

Module JsonTextFacts.
Import Js JsFacts Utf8 Utf8Facts JSON JSONFacts JsonText.

(** Induction on a value and on the values inside it. *)
Lemma json_ind' (P : json -> Prop) :
  P JNull ->
  (forall b, P (JBool b)) ->
  (forall z, P (JNum z)) ->
  (forall m e, P (JFloat m e)) ->
  (forall s, P (JStr s)) ->
  (forall items, Forall P items -> P (JArr items)) ->
  (forall members, Forall (fun kv => P (snd kv)) members -> P (JObj members)) ->
  forall v, P v.
Proof.
  intros Hnull Hbool Hnum Hfloat Hstr Harr Hobj.
  fix IH 1. intros [|b|z|m e|s|items|members].
  - exact Hnull.
  - apply Hbool.
  - apply Hnum.
  - apply Hfloat.
  - apply Hstr.
  - apply Harr. revert items. fix IHl 1. intros [|x r].
    + constructor.
    + constructor; [apply IH | apply IHl].
  - apply Hobj. revert members. fix IHl 1. intros [|kv r].
    + constructor.
    + constructor; [apply IH | apply IHl].
Qed.

Lemma stringify_array (items : list json) :
  stringify (JArr items) = String "[" (elements items +:+ "]").
Proof. reflexivity. Qed.

Lemma stringify_object (members : list (string * json)) :
  stringify (JObj members) = String "{" (properties members +:+ "}").
Proof. reflexivity. Qed.

Lemma delimited_not_digit (rest : string) :
  delimited rest = true ->
  match rest with String c _ => is_digit c = false | EmptyString => True end.
Proof.
  destruct rest as [|c r]; [trivial|]. cbn [delimited].
  char_cases c.
Qed.

(** An integer literal followed by a delimiter. *)
Lemma parse_number_delimited (neg : bool) (s : string) (d : uint)
    (x : ascii) (more rest : string) :
  lex_sign s = (neg, NilEmpty.string_of_uint d +:+ rest) ->
  delimited rest = true ->
  NilEmpty.string_of_uint d = String x more ->
  Ascii.eqb x "0" && negb (String.eqb more "") = false ->
  parse_number s = Some (JNum (signed neg (Z.of_N (N.of_uint d))), rest).
Proof.
  intros Hsign Hc Hd Hz. unfold parse_number. rewrite Hsign.
  rewrite span_digits_uint by (now apply delimited_not_digit).
  rewrite Hd, Hz, <- Hd, nat_of_digits_uint.
  destruct rest as [|c r]; [reflexivity|].
  cbn [delimited] in Hc. revert Hc. char_cases c.
Qed.

Lemma read_back_number (z : Z) : read_back (JNum z).
Proof.
  intros rest fuel Hrest Hfuel.
  destruct (int_toString_head z) as (x & more & Hhead & Hx).
  cbn [stringify] in *. rewrite Hhead in Hfuel.
  destruct fuel as [|fuel]; [cbn in Hfuel; lia|]. clear Hfuel.
  rewrite Hhead. cbn [append].
  rewrite (parse_value_number _ _ _ Hx).
  change (String x (more +:+ rest)) with (String x more +:+ rest).
  rewrite <- Hhead. clear Hhead Hx x more.
  unfold int_toString.
  destruct z as [|p|p]; cbn [Z.to_int NilEmpty.string_of_int].
  - destruct rest as [|c r]; [reflexivity|].
    cbn [delimited] in Hrest. revert Hrest. char_cases c.
  - destruct (to_uint_head p) as (x & more & Hd & Hx & Hz).
    rewrite (parse_number_delimited false _ (Pos.to_uint p) x more rest);
      [ now rewrite DecimalPos.Unsigned.of_to
      | rewrite Hd; cbn [append]; apply lex_sign_digit, Hx
      | exact Hrest | exact Hd | now rewrite Hz ].
  - destruct (to_uint_head p) as (x & more & Hd & Hx & Hz).
    cbn [append].
    rewrite (parse_number_delimited true _ (Pos.to_uint p) x more rest);
      [ now rewrite DecimalPos.Unsigned.of_to
      | reflexivity | exact Hrest | exact Hd | now rewrite Hz ].
Qed.

Lemma read_back_literal (v : json) :
  v = JNull \/ v = JBool true \/ v = JBool false -> read_back v.
Proof.
  intros H rest fuel _ Hfuel.
  destruct fuel as [|fuel];
    [destruct H as [-> | [-> | ->]]; cbn in Hfuel; lia|].
  destruct H as [-> | [-> | ->]]; reflexivity.
Qed.

Lemma read_back_string (s : string) : read_back (JStr s).
Proof.
  intros rest fuel _ Hfuel.
  destruct fuel as [|fuel]; [cbn in Hfuel; lia|].
  apply parse_value_string.
Qed.

(** The first character of a text is not white space and closes
    nothing. *)
Lemma stringify_head (v : json) :
  exists c t, stringify v = String c t /\
              is_ws c = false /\
              Ascii.eqb c "]" = false /\ Ascii.eqb c "}" = false.
Proof.
  destruct v as [|[]|z|m e|s|items|members];
    try (eexists _, _; repeat split; reflexivity).
  - destruct (int_toString_head z) as (x & more & H & Hx).
    exists x, more. split; [exact H|].
    destruct Hx as [Hx | ->]; [|repeat split; reflexivity].
    revert Hx. clear. char_cases x; repeat split; reflexivity.
  - destruct (int_toString_head m) as (x & more & H & Hx).
    cbn [stringify]. rewrite H. cbn [append]. eexists _, _. split; [reflexivity|].
    destruct Hx as [Hx | ->]; [|repeat split; reflexivity].
    revert Hx. clear. char_cases x; repeat split; reflexivity.
Qed.

Lemma skip_ws_head (c : ascii) (s : string) :
  is_ws c = false -> skip_ws (String c s) = String c s.
Proof. intros H. cbn [skip_ws]. now rewrite H. Qed.

(** Success with some fuel is success with any fuel that covers the
    text consumed. *)
Lemma parse_value_enough (f fuel : nat) (v : json) (text rest : string) :
  parse_value f (text +:+ rest) = Some (v, rest) ->
  String.length text <= fuel ->
  parse_value fuel (text +:+ rest) = Some (v, rest).
Proof.
  intros H Hfuel.
  destruct (fuel_adequate f) as (Hv & _ & _).
  destruct (Hv tt _ _ _ H) as [_ Hall]. apply Hall.
  rewrite length_append. lia.
Qed.

Lemma read_elements (items : list json) :
  Forall read_back items -> items <> [] ->
  forall (acc : list json) (rest : string) (fuel : nat),
    String.length (elements items) < fuel ->
    parse_elements fuel acc (elements items +:+ String "]" rest)
    = Some (JArr (acc ++ items), rest).
Proof.
  induction 1 as [|x r Hx Hr IH]; [congruence|]. intros _ acc rest fuel Hfuel.
  destruct fuel as [|fuel]; [lia|].
  rewrite parse_elements_S. cbn [elements] in *.
  rewrite length_append in Hfuel.
  destruct r as [|y r].
  - rewrite append_assoc. cbn [append].
    rewrite (Hx (String "]" rest) fuel eq_refl) by lia.
    cbn. reflexivity.
  - rewrite append_assoc. cbn [append] in *.
    rewrite (Hx (String "," (elements (y :: r) +:+ String "]" rest)) fuel eq_refl)
      by lia.
    change (skip_ws (String "," ?s)) with (String "," s).
    change (Ascii.eqb "," ",") with true. cbv iota.
    cbn [String.length] in Hfuel.
    rewrite IH by (try discriminate; lia).
    now rewrite <- app_assoc.
Qed.

Lemma parse_value_array (fuel : nat) (r : string) :
  parse_value (S fuel) (String "[" r)
  = match skip_ws r with
    | String c' r' =>
        if Ascii.eqb c' "]" then Some (JArr [], r')
        else parse_elements fuel [] r
    | EmptyString => None
    end.
Proof. reflexivity. Qed.

Lemma parse_value_braces (fuel : nat) (r : string) :
  parse_value (S fuel) (String "{" r)
  = match skip_ws r with
    | String c' r' =>
        if Ascii.eqb c' "}" then Some (JObj [], r')
        else parse_members fuel [] r
    | EmptyString => None
    end.
Proof. reflexivity. Qed.

Lemma read_back_array (items : list json) :
  Forall read_back items -> read_back (JArr items).
Proof.
  intros Hitems rest fuel _ Hfuel.
  apply (parse_value_enough (S (S (String.length (elements items))))); [|exact Hfuel].
  rewrite stringify_array. cbn [append]. rewrite append_assoc. cbn [append].
  rewrite parse_value_array.
  destruct items as [|x r]; [reflexivity|].
  destruct (stringify_head x) as (c & t & Hhead & Hws & Hclose & _).
  assert (exists t', elements (x :: r) +:+ String "]" rest = String c t') as (t' & Ht).
  { cbn [elements]. rewrite Hhead. cbn [append]. eauto. }
  rewrite Ht, (skip_ws_head _ _ Hws), Hclose, <- Ht.
  apply (read_elements (x :: r) Hitems); [discriminate | lia].
Qed.

Lemma distinct_middle (a : list string) (k : string) (b : list string) :
  distinct (a ++ k :: b) = true -> existsb (String.eqb k) a = false.
Proof.
  induction a as [|x a IH]; [reflexivity|]. cbn [app distinct existsb].
  intros [Hx Hd]%andb_prop. apply negb_true_iff in Hx.
  rewrite existsb_app in Hx. apply orb_false_iff in Hx. destruct Hx as [_ Hx].
  cbn [existsb] in Hx. apply orb_false_iff in Hx. destruct Hx as [Hx _].
  rewrite String.eqb_sym, Hx. cbn [orb]. now apply IH.
Qed.

Lemma obj_set_fresh (k : string) (v : json) (acc : list (string * json)) :
  existsb (String.eqb k) (map fst acc) = false ->
  obj_set k v acc = acc ++ [(k, v)].
Proof.
  induction acc as [|kv acc IH]; [reflexivity|]. cbn [map existsb obj_set app].
  intros [Hk Hacc]%orb_false_iff. rewrite String.eqb_sym, Hk.
  now rewrite IH.
Qed.

Lemma read_properties (members : list (string * json)) :
  Forall (fun kv => read_back (snd kv)) members -> members <> [] ->
  forall (acc : list (string * json)) (rest : string) (fuel : nat),
    distinct (map fst (acc ++ members)) = true ->
    String.length (properties members) < fuel ->
    parse_members fuel acc (properties members +:+ String "}" rest)
    = Some (JObj (acc ++ members), rest).
Proof.
  induction 1 as [|[k v] r Hv Hr IH]; [congruence|].
  intros _ acc rest fuel Hd Hfuel.
  destruct fuel as [|fuel]; [lia|].
  assert (obj_set k v acc = acc ++ [(k, v)]) as Hset.
  { apply obj_set_fresh. rewrite map_app in Hd. now apply distinct_middle in Hd. }
  cbn [properties fst snd] in *.
  rewrite !length_append in Hfuel. cbn [String.length] in Hfuel.
  destruct r as [|kv r].
  - rewrite !append_assoc. cbn [append].
    rewrite (parse_members_last fuel acc k _ rest v).
    + now rewrite Hset.
    + apply (Hv (String "}" rest) fuel eq_refl). lia.
  - rewrite !append_assoc. cbn [append].
    rewrite (parse_members_more fuel acc k _
               (properties (kv :: r) +:+ String "}" rest) v).
    + rewrite Hset, IH.
      * now rewrite <- app_assoc.
      * discriminate.
      * now rewrite <- app_assoc.
      * rewrite length_append in Hfuel. cbn [String.length] in Hfuel. lia.
    + apply (Hv (String "," _) fuel eq_refl). lia.
Qed.

Lemma read_back_object (members : list (string * json)) :
  Forall (fun kv => read_back (snd kv)) members ->
  distinct (map fst members) = true ->
  read_back (JObj members).
Proof.
  intros Hmembers Hd rest fuel _ Hfuel.
  apply (parse_value_enough (S (S (String.length (properties members)))));
    [|exact Hfuel].
  rewrite stringify_object. cbn [append]. rewrite append_assoc. cbn [append].
  rewrite parse_value_braces.
  destruct members as [|[k v] r]; [reflexivity|].
  assert (exists t', properties ((k, v) :: r) +:+ String "}" rest
                     = String dquote t') as (t' & Ht).
  { cbn [properties fst]. unfold quote. cbn [append]. eauto. }
  rewrite Ht. change (skip_ws (String dquote t')) with (String dquote t').
  change (Ascii.eqb dquote "}") with false. cbv iota. rewrite <- Ht.
  apply (read_properties _ Hmembers); [discriminate | exact Hd | lia].
Qed.

Lemma plain_read_back (v : json) : plain v = true -> read_back v.
Proof.
  induction v as [|b|z|m e|s|items IH|members IH] using json_ind'; intros Hp.
  - apply read_back_literal. now left.
  - apply read_back_literal. destruct b; auto.
  - apply read_back_number.
  - discriminate.
  - apply read_back_string.
  - apply read_back_array. cbn [plain] in Hp.
    induction IH as [|x r Hx Hr IHr]; constructor.
    + apply andb_prop in Hp. now apply Hx.
    + apply andb_prop in Hp. now apply IHr.
  - cbn [plain] in Hp. apply andb_prop in Hp. destruct Hp as [Hd Hp].
    apply read_back_object; [|exact Hd]. clear Hd.
    induction IH as [|x r Hx Hr IHr]; constructor.
    + apply andb_prop in Hp. destruct Hp as [[_ Hp]%andb_prop _]. now apply Hx.
    + apply andb_prop in Hp. now apply IHr.
Qed.

Lemma append_empty (s : string) : s +:+ "" = s.
Proof. induction s as [|c s IH]; cbn [append]; [reflexivity | now rewrite IH]. Qed.

(** Parsing the text of a value gives the value back. *)
(** The parser, with the fuel that [parse] gives it, reads the text of a
    plain value to its end. *)
Lemma parse_value_stringify (v : json) :
  plain v = true ->
  parse_value (S (String.length (stringify v))) (stringify v) = Some (v, "").
Proof.
  intros Hp.
  pose proof (plain_read_back v Hp "" (S (String.length (stringify v))) eq_refl)
    as H.
  rewrite append_empty in H. apply H. lia.
Qed.

(** X10. [JSON.parse] inverts [JSON.stringify]. For every value made of
    null, booleans, safe integers, strings, arrays and objects whose keys
    are distinct and none of which is made of digits,
    [JSON.parse(JSON.stringify(v))] is [v]. *)
Theorem parse_stringify (v : json) :
  plain v = true -> parse (stringify v) = Some v.
Proof.
  intros Hp. unfold parse.
  rewrite (parse_value_stringify v Hp). reflexivity.
Qed.

Lemma parse_stringify_witness :
  parse (stringify Scenarios.challenge) = Some Scenarios.challenge.
Proof.
  apply parse_stringify. vm_compute. reflexivity.
Defined.

(** The text of a value whose strings are well-formed is well-formed. *)
Lemma valid_stringify (v : json) :
  text v = true ->
  forall r, valid r = true -> valid (stringify v +:+ r) = true.
Proof.
  induction v as [|b|z|m e|s|items IH|members IH] using json_ind';
    intros Ht r Hr.
  - now apply (valid_ascii_app "null").
  - destruct b; [now apply (valid_ascii_app "true") | now apply (valid_ascii_app "false")].
  - apply valid_ascii_app; [apply int_toString_ascii | exact Hr].
  - cbn [stringify]. rewrite !append_assoc.
    apply valid_ascii_app; [apply int_toString_ascii|].
    apply (valid_ascii_app "e"); [reflexivity|].
    apply valid_ascii_app; [apply int_toString_ascii | exact Hr].
  - now apply valid_quote.
  - rewrite stringify_array. cbn [append]. rewrite append_assoc.
    apply (valid_ascii_app "[" (elements items +:+ String "]" r)); [reflexivity|].
    cbn [text] in Ht.
    induction IH as [|x l Hx Hl IHl].
    + now apply (valid_ascii_app "]").
    + apply andb_prop in Ht. destruct Ht as [Htx Htl].
      cbn [elements]. rewrite append_assoc.
      apply Hx; [exact Htx|].
      destruct l as [|y l]; [now apply (valid_ascii_app "]")|].
      rewrite append_assoc.
      apply (valid_ascii_app ","); [reflexivity|]. now apply IHl.
  - rewrite stringify_object. cbn [append]. rewrite append_assoc.
    apply (valid_ascii_app "{" (properties members +:+ String "}" r)); [reflexivity|].
    cbn [text] in Ht.
    induction IH as [|x l Hx Hl IHl].
    + now apply (valid_ascii_app "}").
    + apply andb_prop in Ht. destruct Ht as [[Hk Htx]%andb_prop Htl].
      cbn [properties]. rewrite !append_assoc.
      apply valid_quote; [exact Hk|].
      apply (valid_ascii_app ":"); [reflexivity|].
      apply Hx; [exact Htx|].
      destruct l as [|y l]; [now apply (valid_ascii_app "}")|].
      rewrite append_assoc.
      apply (valid_ascii_app ","); [reflexivity|]. now apply IHl.
Qed.

(** The text of a value, encoded in base64 and decoded as the code decodes
    a header, is read back as the value. *)
Lemma decode_stringify (v : json) :
  plain v = true -> text v = true ->
  PaymentPayload.decodeHeader (Base64.encode (stringify v)) = Some v.
Proof.
  intros Hp Ht. unfold PaymentPayload.decodeHeader.
  rewrite Base64Facts.decode_encode, toString_valid.
  - unfold parse. now rewrite (parse_value_stringify v Hp).
  - rewrite <- (append_empty (stringify v)). now apply valid_stringify.
Qed.

End JsonTextFacts.

(** ** Asynchronous functions *)

Module AsyncFacts.
Import Handler Async.

Section Laws.
Context {R A B : Type}.
Implicit Types (m : M R A) (k : A -> M R B).

Lemma seq_ret (a : A) k log : bind (ret a) k log = k a log.
Proof. reflexivity. Qed.

Lemma seq_lift_inr (a : A) k log : bind (lift (inr a)) k log = k a log.
Proof. reflexivity. Qed.

End Laws.

Lemma seq_return_if_false {R B} (r : R) (k : unit -> M R B) log :
  bind (return_if false r) k log = k tt log.
Proof. reflexivity. Qed.

End AsyncFacts.

(** ** Payment middleware: the payment path *)

Module PaymentFacts.
Import Handler JSON JsValue Async Protocol X402Middleware X402Payment.

(** The payment path, by cases on the header and on the answers of the
    facilitator. *)
Lemma processPayment_cases (rt : Runtime) (net : Internet)
    (fc : FacilitatorConfig) (h : string) (reqs : PaymentRequirements) :
  let verify := facilitator_call (facilitator_url fc) "/verify" h reqs in
  let settle := facilitator_call (facilitator_url fc) "/settle" h reqs in
  let failed (e : JsError) :=
    Refused 500 (JObj [ ("error", JStr "Payment processing failed");
                        ("message", JStr (message e)) ]) in
  run (processPayment rt net fc h reqs) =
  match JSON_parse rt (Utf8.toString (Base64.decode h)) with
  | inl e => (Returned (failed e), [])
  | inr payload =>
  match property (Some payload) "x402Version" with
  | inl e => (Returned (failed e), [])
  | inr version =>
  if negb (is_one version) then
    (Returned (Refused 400
       (JObj [("error", JStr ("Unsupported x402 version: " +:+
                              ToString_opt rt version))])), [])
  else
  if negb (is_string (get payload "scheme") MONAD_SCHEME) then
    (Returned (Refused 400
       (JObj [("error", JStr ("Unsupported payment scheme: " +:+
                              ToString_opt rt (get payload "scheme")))])), [])
  else
  match net [] verify with
  | inl e => (Returned (failed e), [Fetch verify])
  | inr verifyResponse =>
  match Http.body_json verifyResponse with
  | inl e => (Returned (failed e), [Fetch verify])
  | inr verification =>
  match property (Some verification) "isValid" with
  | inl e => (Returned (failed e), [Fetch verify])
  | inr isValid =>
  if negb (truthy_value isValid) then
    (Returned (Refused 403
       (JObj ([("error", JStr "Payment verification failed")]
              ++ optional "message" (get verification "invalidReason")))),
     [Fetch verify])
  else
  match net [Fetch verify] settle with
  | inl e => (Returned (failed e), [Fetch verify; Fetch settle])
  | inr settleResponse =>
  match Http.body_json settleResponse with
  | inl e => (Returned (failed e), [Fetch verify; Fetch settle])
  | inr settlement =>
  match property (Some settlement) "success" with
  | inl e => (Returned (failed e), [Fetch verify; Fetch settle])
  | inr success =>
  if negb (truthy_value success) then
    (Returned (Refused 402
       (JObj ([("error", JStr "Payment settlement failed")]
              ++ optional "message" (get settlement "error")))),
     [Fetch verify; Fetch settle])
  else
    (Returned (Forwarded
       ([("X-Payment-Response", paymentResponseHeader settlement)]
        ++ timing "X-Verification-Time"
             (Http.response_headers verifyResponse !! "x-verification-time")
        ++ timing "X-Settlement-Time"
             (Http.response_headers settleResponse !! "x-settlement-time"))),
     [Fetch verify; Fetch settle])
  end end end end end end end end.
Proof.
  cbv zeta. unfold run, processPayment, try_catch.
  destruct (JSON_parse rt (Utf8.toString (Base64.decode h))) as [e|payload];
    [reflexivity|].
  rewrite AsyncFacts.seq_lift_inr.
  destruct payload as [|b|z|m e|s|items|members]; try reflexivity;
    cbn [property get bind lift ret throw];
    (destruct (negb (is_one _)); [reflexivity|]);
    cbv beta iota delta [bind return_if ret lift property];
    (destruct (negb (is_string _ MONAD_SCHEME)); [reflexivity|]);
    unfold fetch; cbn [app];
    (destruct (net [] _) as [e|rv]; [reflexivity|]);
    (destruct (Http.body_json rv) as [e|vj]; [reflexivity|]);
    (destruct vj; try reflexivity;
     cbv beta iota;
     (destruct (negb (truthy_value _)); [reflexivity|]);
     (destruct (net [Fetch _] _) as [e|rs]; [reflexivity|]);
     (destruct (Http.body_json rs) as [e|sj]; [reflexivity|]);
     destruct sj; try reflexivity;
     cbv beta iota;
     destruct (negb (truthy_value _)); reflexivity).
Qed.

Lemma property_inr (v : json) (k : string) (x : option json) :
  property (Some v) k = inr x -> x = get v k.
Proof. destruct v; cbn; intros [= <-]; reflexivity. Qed.

(** X11. The payment path always answers. It sends the facilitator at most
    two requests, the verification and then the settlement; it sends none
    unless the header decodes to a payload of version 1 and scheme
    "evm-transfer", and it asks for the settlement only after the
    facilitator has answered the verification with a true [isValid]. *)
Theorem payment_path_answers (rt : Runtime) (net : Internet)
    (fc : FacilitatorConfig) (h : string) (reqs : PaymentRequirements) :
  let verify := facilitator_call (facilitator_url fc) "/verify" h reqs in
  let settle := facilitator_call (facilitator_url fc) "/settle" h reqs in
  exists outcome log,
    run (processPayment rt net fc h reqs) = (Returned outcome, log) /\
    (log = [] \/
     (exists payload,
        PaymentPayload.decodeHeader h = Some payload /\
        is_one (get payload "x402Version") = true /\
        get payload "scheme" = Some (JStr MONAD_SCHEME)) /\
     (log = [Fetch verify] \/
      log = [Fetch verify; Fetch settle] /\
      exists verifyResponse verification,
        net [] verify = inr verifyResponse /\
        Http.body_json verifyResponse = inr verification /\
        truthy_value (get verification "isValid") = true)).
Proof.
  cbv zeta. rewrite processPayment_cases. cbv zeta.
  unfold JSON_parse, PaymentPayload.decodeHeader.
  destruct (parse (Utf8.toString (Base64.decode h))) as [payload|];
    [|eexists _, _; split; [reflexivity | now left]].
  destruct (property (Some payload) "x402Version") as [e|version] eqn:Ev;
    [eexists _, _; split; [reflexivity | now left]|].
  apply property_inr in Ev. subst version.
  destruct (is_one _) eqn:E1; cbn [negb];
    [|eexists _, _; split; [reflexivity | now left]].
  destruct (is_string _ MONAD_SCHEME) eqn:E2; cbn [negb];
    [|eexists _, _; split; [reflexivity | now left]].
  assert (exists payload0,
    Some payload = Some payload0 /\
    is_one (get payload0 "x402Version") = true /\
    get payload0 "scheme" = Some (JStr MONAD_SCHEME)) as Hp.
  { exists payload. split; [reflexivity|]. split; [exact E1|].
    now apply VerifyAnswers.is_string_true. }
  destruct (net [] _) as [e|rv] eqn:Erv;
    [eexists _, _; split; [reflexivity | right; split; [exact Hp | now left]]|].
  destruct (Http.body_json rv) as [e|vj] eqn:Evj;
    [eexists _, _; split; [reflexivity | right; split; [exact Hp | now left]]|].
  destruct (property (Some vj) "isValid") as [e|isValid] eqn:Ei;
    [eexists _, _; split; [reflexivity | right; split; [exact Hp | now left]]|].
  apply property_inr in Ei. subst isValid.
  destruct (truthy_value (get vj "isValid")) eqn:Et; cbn [negb];
    [|eexists _, _; split; [reflexivity | right; split; [exact Hp | now left]]].
  assert (exists verifyResponse verification,
    (inr rv : JsError + Http.Response) = inr verifyResponse /\
    Http.body_json verifyResponse = inr verification /\
    truthy_value (get verification "isValid") = true) as Hv.
  { exists rv, vj. repeat split; assumption. }
  destruct (net [Fetch _] _) as [e|rs];
    [eexists _, _; split; [reflexivity | right; split; [exact Hp | right; now split]]|].
  destruct (Http.body_json rs) as [e|sj];
    [eexists _, _; split; [reflexivity | right; split; [exact Hp | right; now split]]|].
  destruct (property (Some sj) "success") as [e|success];
    [eexists _, _; split; [reflexivity | right; split; [exact Hp | right; now split]]|].
  destruct (negb (truthy_value success));
    eexists _, _; (split; [reflexivity | right; split; [exact Hp | right; now split]]).
Qed.

(** What a forwarded request has been through. *)
Lemma forwarded_inv (rt : Runtime) (net : Internet)
    (fc : FacilitatorConfig) (h : string) (reqs : PaymentRequirements)
    (headers : list (string * string)) (log : list Call) :
  let verify := facilitator_call (facilitator_url fc) "/verify" h reqs in
  let settle := facilitator_call (facilitator_url fc) "/settle" h reqs in
  run (processPayment rt net fc h reqs) = (Returned (Forwarded headers), log) ->
  exists verifyResponse verification settleResponse settlement,
    log = [Fetch verify; Fetch settle] /\
    net [] verify = inr verifyResponse /\
    Http.body_json verifyResponse = inr verification /\
    truthy_value (get verification "isValid") = true /\
    net [Fetch verify] settle = inr settleResponse /\
    Http.body_json settleResponse = inr settlement /\
    truthy_value (get settlement "success") = true /\
    headers =
      [("X-Payment-Response", paymentResponseHeader settlement)]
      ++ timing "X-Verification-Time"
           (Http.response_headers verifyResponse !! "x-verification-time")
      ++ timing "X-Settlement-Time"
           (Http.response_headers settleResponse !! "x-settlement-time").
Proof.
  cbv zeta. rewrite processPayment_cases. cbv zeta.
  destruct (JSON_parse rt _) as [e|payload]; [discriminate|].
  destruct (property (Some payload) "x402Version") as [e|version]; [discriminate|].
  destruct (negb (is_one version)); [discriminate|].
  destruct (negb (is_string _ MONAD_SCHEME)); [discriminate|].
  destruct (net [] _) as [e|rv] eqn:Erv; [discriminate|].
  destruct (Http.body_json rv) as [e|vj] eqn:Evj; [discriminate|].
  destruct (property (Some vj) "isValid") as [e|isValid] eqn:Ei; [discriminate|].
  apply property_inr in Ei. subst isValid.
  destruct (truthy_value (get vj "isValid")) eqn:Et; cbn [negb]; [|discriminate].
  destruct (net [Fetch _] _) as [e|rs] eqn:Ers; [discriminate|].
  destruct (Http.body_json rs) as [e|sj] eqn:Esj; [discriminate|].
  destruct (property (Some sj) "success") as [e|success] eqn:Es; [discriminate|].
  apply property_inr in Es. subst success.
  destruct (truthy_value (get sj "success")) eqn:Ets; cbn [negb]; [|discriminate].
  intros [= <- <-]. exists rv, vj, rs, sj. repeat split; assumption.
Qed.

(** X12. The payment path forwards a request to the route only after the
    facilitator has answered the verification with a true [isValid] and
    the settlement with a true [success]; the first header of the
    forwarded response is then X-Payment-Response, and for a settlement
    made of safe integers, well-formed strings, and objects with distinct
    keys none of which is made of digits, its value is the base64 text of
    the object whose property [settlement] is that settlement. *)
Theorem forwarded_only_if_settled (rt : Runtime) (net : Internet)
    (fc : FacilitatorConfig) (h : string) (reqs : PaymentRequirements)
    (headers : list (string * string)) (log : list Call) :
  let verify := facilitator_call (facilitator_url fc) "/verify" h reqs in
  let settle := facilitator_call (facilitator_url fc) "/settle" h reqs in
  run (processPayment rt net fc h reqs) = (Returned (Forwarded headers), log) ->
  exists verifyResponse verification settleResponse settlement value,
    log = [Fetch verify; Fetch settle] /\
    net [] verify = inr verifyResponse /\
    Http.body_json verifyResponse = inr verification /\
    truthy_value (get verification "isValid") = true /\
    net [Fetch verify] settle = inr settleResponse /\
    Http.body_json settleResponse = inr settlement /\
    truthy_value (get settlement "success") = true /\
    headers !! 0%nat = Some ("X-Payment-Response", value) /\
    (JsonText.plain settlement = true -> JsonText.text settlement = true ->
     value = Base64.encode (stringify (JObj [("settlement", settlement)]))).
Proof.
  cbv zeta. intros H.
  destruct (forwarded_inv _ _ _ _ _ _ _ H)
    as (rv & vj & rs & sj & Hlog & Hrv & Hvj & Hv & Hrs & Hsj & Hs & ->).
  exists rv, vj, rs, sj, (paymentResponseHeader sj).
  repeat split; assumption.
Qed.

Lemma forwarded_only_if_settled_witness :
  exists verifyResponse settleResponse settlement,
    Scenarios.facilitator_network Scenarios.chain Samples.header
      Scenarios.route_requirements []
      (facilitator_call (facilitator_url Samples.facilitator) "/verify"
         Samples.header Scenarios.route_requirements)
    = inr verifyResponse /\
    Scenarios.facilitator_network Scenarios.chain Samples.header
      Scenarios.route_requirements
      [Fetch (facilitator_call (facilitator_url Samples.facilitator) "/verify"
                Samples.header Scenarios.route_requirements)]
      (facilitator_call (facilitator_url Samples.facilitator) "/settle"
         Samples.header Scenarios.route_requirements)
    = inr settleResponse /\
    Http.body_json settleResponse = inr settlement /\
    truthy_value (get settlement "success") = true.
Proof.
  edestruct (forwarded_only_if_settled Scenarios.runtime
               (Scenarios.facilitator_network Scenarios.chain Samples.header
                  Scenarios.route_requirements)
               Samples.facilitator Samples.header Scenarios.route_requirements)
    as (vr & v & sr & s & value & _ & Hv & _ & _ & Hs & Hsj & Hsuccess & _).
  - vm_compute. reflexivity.
  - now exists vr, sr, s.
Defined.

End PaymentFacts.

(** ** The middleware and the facilitator *)

Module DeploymentFacts.
Import Handler JSON JsValue Async Protocol MonadUtils X402Middleware Deployment.

(** The middleware before the payment path, by cases. *)
Lemma paymentMiddleware_cases (recipientAddress : string)
    (routes : gmap string RouteConfig) (fc : FacilitatorConfig)
    (request : NextRequest) :
  X402Middleware.paymentMiddleware recipientAddress routes fc request =
  match routes !! pathname request with
  | None => Returned Next
  | Some routeConfig =>
      match X402Middleware.network routeConfig with
      | None =>
          Uncaught (TypeError
            "Cannot read properties of undefined (reading 'startsWith')")
      | Some routeNetwork =>
          if negb (Js.truthy recipientAddress) then
            Returned (ServerError 500
              "Server configuration error: Payment recipient not configured")
          else
            let requirements :=
              requirements_of recipientAddress routeConfig routeNetwork request in
            if Js.truthy_opt (headers_get request "X-PAYMENT") then
              Returned (Process (default "" (headers_get request "X-PAYMENT"))
                          requirements)
            else
              Returned (PaymentRequired 402
                {| x402Version := X402_VERSION; accepts := [requirements] |})
      end
  end.
Proof.
  unfold X402Middleware.paymentMiddleware, Handler.run, middleware.
  destruct (routes !! pathname request) as [routeConfig|]; [|reflexivity].
  destruct (X402Middleware.network routeConfig) as [routeNetwork|];
    [|reflexivity].
  rewrite HandlerFacts.bind_ret.
  destruct (Js.truthy recipientAddress); cbn [negb]; [|reflexivity].
  rewrite HandlerFacts.bind_return_if_false.
  destruct (headers_get request "X-PAYMENT") as [h|]; [|reflexivity].
  cbn [Js.truthy_opt default]. destruct (Js.truthy h); reflexivity.
Qed.

Lemma network_identifier_monad (routeNetwork : string) :
  Js.startsWith (network_identifier routeNetwork) "monad-" = true.
Proof.
  unfold network_identifier.
  destruct (String.eqb routeNetwork "mainnet"); [reflexivity|].
  destruct (String.eqb routeNetwork "testnet"); [reflexivity|].
  destruct (Js.startsWith routeNetwork "monad-") eqn:E; [exact E|].
  clear. now destruct routeNetwork.
Qed.

(** X13. What the middleware answers before the payment path, case by case.
    A request to a path that is not configured passes. For a configured
    route without a network the middleware throws a [TypeError], with an
    empty recipient address as with any other. For a route with a network,
    an empty recipient address is answered 500; otherwise a request
    without payment header, or with an empty one, is challenged with 402
    and version 1, and a request with one enters the payment path. In both
    of these cases the payment requirements name the scheme
    "evm-transfer", a network that starts with "monad-", the configured
    price, the recipient address and the URL of the request. *)
Theorem middleware_answers (recipientAddress : string)
    (routes : gmap string RouteConfig) (fc : FacilitatorConfig)
    (request : NextRequest) :
  let answer :=
    X402Middleware.paymentMiddleware recipientAddress routes fc request in
  (routes !! pathname request = None -> answer = Returned Next) /\
  (forall routeConfig,
     routes !! pathname request = Some routeConfig ->
     X402Middleware.network routeConfig = None ->
     answer = Uncaught (TypeError
       "Cannot read properties of undefined (reading 'startsWith')")) /\
  (forall routeConfig routeNetwork,
     routes !! pathname request = Some routeConfig ->
     X402Middleware.network routeConfig = Some routeNetwork ->
     let requirements :=
       requirements_of recipientAddress routeConfig routeNetwork request in
     (recipientAddress = "" ->
      answer = Returned (ServerError 500
        "Server configuration error: Payment recipient not configured")) /\
     (recipientAddress <> "" ->
      (headers_get request "X-PAYMENT" = None \/
       headers_get request "X-PAYMENT" = Some "") ->
      answer = Returned (PaymentRequired 402
        {| x402Version := 1; accepts := [requirements] |})) /\
     (forall paymentHeader,
        recipientAddress <> "" ->
        headers_get request "X-PAYMENT" = Some paymentHeader ->
        paymentHeader <> "" ->
        answer = Returned (Process paymentHeader requirements)) /\
     scheme requirements = "evm-transfer" /\
     Js.startsWith (Protocol.network requirements) "monad-" = true /\
     maxAmountRequired requirements = price routeConfig /\
     payTo requirements = recipientAddress /\
     resource requirements = url request).
Proof.
  cbv zeta. rewrite paymentMiddleware_cases. cbv zeta.
  split; [intros ->; reflexivity|].
  split; [intros routeConfig -> ->; reflexivity|].
  intros routeConfig routeNetwork -> ->.
  split; [intros ->; reflexivity|].
  split.
  { intros Hne Hh. rewrite (HandlerFacts.truthy_nonempty _ Hne). cbn [negb].
    destruct Hh as [-> | ->]; reflexivity. }
  split.
  { intros h Hne -> Hh. rewrite (HandlerFacts.truthy_nonempty _ Hne). cbn [negb].
    cbn [Js.truthy_opt default]. rewrite (HandlerFacts.truthy_nonempty _ Hh).
    reflexivity. }
  split; [reflexivity|]. split; [apply network_identifier_monad|].
  repeat split.
Qed.

(** The sample route: an unpaid request is challenged for the price of the
    route, to the payee. *)
Lemma middleware_answers_witness :
  exists requirements,
    X402Middleware.paymentMiddleware Samples.payee Samples.routes
      Samples.facilitator Samples.unpaid_request
    = Returned (PaymentRequired 402
        {| x402Version := 1; accepts := [requirements] |}) /\
    payTo requirements = Samples.payee /\
    maxAmountRequired requirements = "1000000000000000" /\
    Protocol.network requirements = MONAD_TESTNET.
Proof.
  pose proof (middleware_answers Samples.payee Samples.routes
                Samples.facilitator Samples.unpaid_request) as H.
  cbv zeta in H. destruct H as (_ & _ & H).
  destruct (H {| price := "1000000000000000";
                 X402Middleware.network := Some "testnet";
                 config := None |} "testnet" eq_refl eq_refl)
    as (_ & Hchallenge & _).
  eexists. split; [apply Hchallenge; [discriminate | left; reflexivity]|].
  repeat split.
Defined.

End DeploymentFacts.

(** ** The middleware in front of the facilitator of the repository *)

Module EndToEnd.
Import Handler JSON JsValue Async Protocol MonadUtils X402Middleware.
Import X402Payment Deployment JsonText.

(** The payload that a header carries is determined by the header. *)
Lemma carries_functional (h : string) (v v' : json) (signedTx signedTx' : string) :
  Spec.carries h v signedTx -> Spec.carries h v' signedTx' ->
  v = v' /\ signedTx = signedTx'.
Proof.
  intros (Hd & _ & p & Hp & Hs) (Hd' & _ & p' & Hp' & Hs').
  assert (v = v') as <- by congruence.
  assert (p = p') as <- by congruence.
  split; [reflexivity | congruence].
Qed.

(** X14. The middleware in front of the facilitator of the repository.
    When the facilitator behind the configured URL is the pair of handlers
    of the repository and the payment path lets a request through, the
    header carries a signed transaction that pays the required amount to
    the required recipient, and the chain accepts the broadcast of this
    transaction and gives it a receipt of status 1. *)
Theorem forwarded_payment_is_on_chain (rt : Runtime) (net : Internet)
    (ethers : Ethers) (fc : FacilitatorConfig) (h : string)
    (reqs : PaymentRequirements) (headers : list (string * string))
    (log : list Call) :
  served_by_handlers net ethers (facilitator_url fc) h reqs ->
  run (processPayment rt net fc h reqs) = (Returned (Forwarded headers), log) ->
  exists v signedTx t txResponse receipt,
    Spec.carries h v signedTx /\
    Transaction_from ethers signedTx = inr t /\
    Spec.same_address (to t) (payTo reqs) /\
    Js.int_toString (value t) = maxAmountRequired reqs /\
    broadcastTransaction ethers testnet_config signedTx = inr txResponse /\
    provider_waitForTransaction ethers testnet_config (hash txResponse) 1
    = inr (Some receipt) /\
    status receipt = Some 1%Z.
Proof.
  intros [Hverify Hsettle] Hrun.
  apply PaymentFacts.forwarded_inv in Hrun
    as (vr & verification & sr & settlement & _ & Hv & Hvj & Hvalid &
        Hs & Hsj & Hsuccess & _).
  destruct (Hverify _ _ Hv) as (vresp & HvP & Hvb).
  destruct (Hsettle _ _ Hs) as (sresp & HsP & Hsb).
  rewrite Hvj in Hvb. injection Hvb as ->.
  rewrite Hsj in Hsb. injection Hsb as ->.
  assert (isValid (Protocol.body vresp) = true) as Hval by exact Hvalid.
  assert (success (Protocol.body sresp) = true) as Hsuc by exact Hsuccess.
  destruct (VerifyAnswers.verify_valid_sound _ _ _ HvP Hval)
    as (reqs1 & signedTx & t & sender & Hreads & Ht & Hto & Hamount & _).
  destruct (SettleAnswers.settle_success_sound _ _ _ HsP Hsuc)
    as (reqs2 & signedTx' & txr & receipt & Hreads' & _ & Hb & Hw & Hst & _).
  destruct Hreads as (_ & Hr1 & _ & _ & h1 & v & Hh1 & _ & Hc & _).
  destruct Hreads' as (_ & Hr2 & _ & _ & h2 & v' & Hh2 & _ & Hc').
  cbn in Hr1, Hr2, Hh1, Hh2.
  injection Hr1 as <-. injection Hr2 as <-.
  injection Hh1 as <-. injection Hh2 as <-.
  destruct (carries_functional _ _ _ _ _ Hc Hc') as [<- <-].
  now exists v, signedTx, t, txr, receipt.
Qed.

Lemma forwarded_payment_is_on_chain_witness :
  exists v signedTx t txResponse receipt,
    Spec.carries Samples.header v signedTx /\
    Transaction_from Scenarios.chain signedTx = inr t /\
    Spec.same_address (to t) (payTo Scenarios.route_requirements) /\
    Js.int_toString (value t) = maxAmountRequired Scenarios.route_requirements /\
    broadcastTransaction Scenarios.chain testnet_config signedTx
    = inr txResponse /\
    provider_waitForTransaction Scenarios.chain testnet_config
      (hash txResponse) 1 = inr (Some receipt) /\
    status receipt = Some 1%Z.
Proof.
  eapply (forwarded_payment_is_on_chain Scenarios.runtime
            (Scenarios.facilitator_network Scenarios.chain Samples.header
               Scenarios.route_requirements)
            Scenarios.chain Samples.facilitator Samples.header
            Scenarios.route_requirements).
  - split; intros log response H; vm_compute in H; injection H as <-;
      eexists; (split; [vm_compute; reflexivity | reflexivity]).
  - vm_compute. reflexivity.
Defined.

Lemma encode_nonempty (s : string) : s <> "" -> Base64.encode s <> "".
Proof.
  destruct s as [|a [|b [|c r]]]; [congruence | | |]; intros _; cbn [Base64.encode].
  - now destruct (Base64.digits_of_3 a Base64.zero Base64.zero) as [[[? ?] ?] ?].
  - now destruct (Base64.digits_of_3 a b Base64.zero) as [[[? ?] ?] ?].
  - now destruct (Base64.digits_of_3 a b c) as [[[? ?] ?] ?].
Qed.

(** X15. The settlement on its way back to the client. The client reads
    from the X-Payment-Response header that the middleware sets the
    object whose property [settlement] is the body of the facilitator's
    settle response, for every such body made of safe integers,
    well-formed strings, and objects with distinct keys none of which is
    made of digits. *)
Theorem payment_response_round_trip (settlement : json) :
  plain settlement = true -> text settlement = true ->
  X402Axios.decodeXPaymentResponse (Some (paymentResponseHeader settlement))
  = JObj [("settlement", settlement)].
Proof.
  intros Hp Ht. unfold X402Axios.decodeXPaymentResponse, paymentResponseHeader.
  assert (Js.truthy (Base64.encode (stringify (JObj [("settlement", settlement)])))
          = true) as ->.
  { apply HandlerFacts.truthy_nonempty, encode_nonempty.
    rewrite JsonTextFacts.stringify_object. discriminate. }
  pose proof (JsonTextFacts.decode_stringify (JObj [("settlement", settlement)]))
    as Hd.
  unfold PaymentPayload.decodeHeader in Hd. rewrite Hd; [reflexivity | |].
  - cbn [plain map fst snd distinct existsb negb andb]. now rewrite Hp.
  - cbn [text fst snd]. now rewrite Ht.
Qed.

Lemma payment_response_round_trip_witness :
  X402Axios.decodeXPaymentResponse
    (Some (paymentResponseHeader
             (settle_response_json
                {| success := true; error := None;
                   txHash := Some "0xabc123";
                   networkId := Some MONAD_TESTNET |})))
  = JObj [("settlement",
           settle_response_json
             {| success := true; error := None;
                txHash := Some "0xabc123";
                networkId := Some MONAD_TESTNET |})].
Proof.
  apply payment_response_round_trip; vm_compute; reflexivity.
Defined.

End EndToEnd.

(** ** Bot protection and AI crawler monetization: the middlewares *)

Module GateFacts.
Import Handler JSON JsValue Async Js JsFacts BotProtection AICrawler.
Import BotMiddleware.

(** The verification of a payment by the bot middleware, by cases on the
    answer of the facilitator. *)
Lemma bot_verification_cases (rt : Runtime) (net : Internet)
    (config : BotProtectionConfig) (paymentHeader botType : string)
    (log : list Call) :
  (try_catch
    (bind (fetch net (verify_call config paymentHeader)) (fun verifyResponse =>
     bind (return_if (negb (Http.ok verifyResponse))
             (Body 402 "Payment verification failed" [])) (fun _ =>
     bind (lift (Http.body_json verifyResponse)) (fun verification =>
     bind (lift (property (Some verification) "valid")) (fun valid =>
     bind (return_if (negb (truthy_value valid))
             (Body 402 "Invalid payment" [])) (fun _ =>
     bind (lift (property (Some verification) "transactionHash"))
       (fun transactionHash =>
     bind (lift (Http.header_value
                   (ToString rt (or_else transactionHash (JStr "")))))
       (fun hash =>
     return_ (Next [ ("X-Payment-Verified", "true");
                     ("X-Transaction-Hash", hash);
                     ("X-Bot-Paid", botType) ])))))))))
    (fun error => return_ (Body 500 "Payment verification failed" []))
   : M Reply Reply) log
  = (Return
       match net log (verify_call config paymentHeader) with
       | inl _ => Body 500 "Payment verification failed" []
       | inr verifyResponse =>
           if negb (Http.ok verifyResponse) then
             Body 402 "Payment verification failed" []
           else
             match Http.body_json verifyResponse with
             | inl _ => Body 500 "Payment verification failed" []
             | inr verification =>
                 match property (Some verification) "valid" with
                 | inl _ => Body 500 "Payment verification failed" []
                 | inr valid =>
                     if negb (truthy_value valid) then Body 402 "Invalid payment" []
                     else
                       match Http.header_value
                               (ToString rt
                                  (or_else (get verification "transactionHash")
                                     (JStr ""))) with
                       | inl _ => Body 500 "Payment verification failed" []
                       | inr hash =>
                           Next [ ("X-Payment-Verified", "true");
                                  ("X-Transaction-Hash", hash);
                                  ("X-Bot-Paid", botType) ]
                       end
                 end
             end
       end,
     log ++ [Fetch (verify_call config paymentHeader)]).
Proof.
  unfold try_catch, bind, fetch.
  destruct (net log _) as [e|rv]; [reflexivity|].
  destruct (negb (Http.ok rv)); [reflexivity|]. cbn [return_if ret].
  destruct (Http.body_json rv) as [e|vj]; [reflexivity|]. cbn [lift ret].
  destruct vj; try reflexivity; cbn [property lift ret];
    (destruct (negb (truthy_value _)); [reflexivity|]); cbn [return_if ret];
    destruct (Http.header_value _); reflexivity.
Qed.

(** The bot middleware, by cases. *)
Lemma botProtectionMiddleware_cases (rt : Runtime) (net : Internet)
    (config : BotProtectionConfig) (request : NextRequest) :
  let userAgent := string_or (headers_get request "user-agent") "" in
  let botType := getBotType userAgent in
  let challenge :=
    Body 402 (stringify (x402Response config request botType))
      [ ("Content-Type", "application/json");
        ("X-Bot-Detected", botType);
        ("X-Payment-Required", "true") ] in
  run (botProtectionMiddleware rt net config request) =
  if negb (enabled config) then (Returned (Next []), [])
  else if negb (match strictMode config with
                | Some true => isBot userAgent (Some request)
                | _ => isBot userAgent None
                end) then (Returned (Next []), [])
  else if match allowedBots config with
          | Some allowedBots =>
              (0 <? length allowedBots)%nat && allowed userAgent allowedBots
          | None => false
          end then (Returned (Next []), [])
  else
    match headers_get request "X-PAYMENT" with
    | Some paymentHeader =>
        if Js.truthy paymentHeader then
          (Returned
             match net [] (verify_call config paymentHeader) with
             | inl _ => Body 500 "Payment verification failed" []
             | inr verifyResponse =>
                 if negb (Http.ok verifyResponse) then
                   Body 402 "Payment verification failed" []
                 else
                   match Http.body_json verifyResponse with
                   | inl _ => Body 500 "Payment verification failed" []
                   | inr verification =>
                       match property (Some verification) "valid" with
                       | inl _ => Body 500 "Payment verification failed" []
                       | inr valid =>
                           if negb (truthy_value valid) then
                             Body 402 "Invalid payment" []
                           else
                             match Http.header_value
                                     (ToString rt
                                        (or_else
                                           (get verification "transactionHash")
                                           (JStr ""))) with
                             | inl _ => Body 500 "Payment verification failed" []
                             | inr hash =>
                                 Next [ ("X-Payment-Verified", "true");
                                        ("X-Transaction-Hash", hash);
                                        ("X-Bot-Paid", botType) ]
                             end
                       end
                   end
             end,
           [Fetch (verify_call config paymentHeader)])
        else (Returned challenge, [])
    | None => (Returned challenge, [])
    end.
Proof.
  cbv zeta. unfold run, botProtectionMiddleware.
  destruct (negb (enabled config)); [reflexivity|].
  rewrite AsyncFacts.seq_return_if_false.
  destruct (negb _); [reflexivity|].
  rewrite AsyncFacts.seq_return_if_false.
  assert (forall (c : bool) (k : unit -> M Reply Reply),
            bind (return_if c (Next [])) k []
            = if c then (Return (Next []), []) else k tt []) as Hif.
  { now intros []. }
  destruct (allowedBots config) as [l|].
  - rewrite Hif. destruct (_ && _); [reflexivity|].
    destruct (headers_get request "X-PAYMENT") as [h|]; [|reflexivity].
    destruct (Js.truthy h); [|reflexivity].
    now rewrite bot_verification_cases.
  - rewrite AsyncFacts.seq_ret.
    destruct (headers_get request "X-PAYMENT") as [h|]; [|reflexivity].
    destruct (Js.truthy h); [|reflexivity].
    now rewrite bot_verification_cases.
Qed.

(** X16. What the bot middleware answers. It never throws and it makes at
    most one call, to the verify endpoint of the facilitator. It lets a
    request through without headers and without a call, or with the
    headers of a verified payment after the facilitator has answered with
    an ok status and a body whose [valid] is truthy. It refuses with 402
    and the challenge without a call when the request has no payment
    header, and with 402 or 500 and no headers after the call. *)
Theorem bot_protection_answers (rt : Runtime) (net : Internet)
    (config : BotProtectionConfig) (request : NextRequest) :
  let userAgent := string_or (headers_get request "user-agent") "" in
  exists reply log,
    run (botProtectionMiddleware rt net config request) = (Returned reply, log) /\
    match reply with
    | Next [] => log = []
    | Next set =>
        exists paymentHeader response verification hash,
          headers_get request "X-PAYMENT" = Some paymentHeader /\
          log = [Fetch (verify_call config paymentHeader)] /\
          net [] (verify_call config paymentHeader) = inr response /\
          Http.ok response = true /\
          Http.body_json response = inr verification /\
          truthy_value (get verification "valid") = true /\
          set = [ ("X-Payment-Verified", "true");
                  ("X-Transaction-Hash", hash);
                  ("X-Bot-Paid", getBotType userAgent) ]
    | Body status body headers =>
        (status = 402%N /\ log = [] /\
         Js.truthy_opt (headers_get request "X-PAYMENT") = false /\
         body = stringify (x402Response config request (getBotType userAgent)) /\
         headers = [ ("Content-Type", "application/json");
                     ("X-Bot-Detected", getBotType userAgent);
                     ("X-Payment-Required", "true") ]) \/
        (exists paymentHeader,
           headers_get request "X-PAYMENT" = Some paymentHeader /\
           log = [Fetch (verify_call config paymentHeader)] /\
           (status = 402%N \/ status = 500%N) /\ headers = [])
    end.
Proof.
  cbv zeta. rewrite botProtectionMiddleware_cases. cbv zeta.
  destruct (negb (enabled config)); [now exists (Next []), []|].
  destruct (negb _); [now exists (Next []), []|].
  destruct (match allowedBots config with Some _ => _ | None => _ end);
    [now exists (Next []), []|].
  destruct (headers_get request "X-PAYMENT") as [h|] eqn:Eh.
  2:{ eexists _, _. split; [reflexivity|]. left. now repeat split. }
  destruct (Js.truthy h) eqn:Et.
  2:{ eexists _, _. split; [reflexivity|]. left. now repeat split. }
  eexists _, _. split; [reflexivity|].
  destruct (net [] (verify_call config h)) as [e|rv] eqn:En.
  { right. exists h. repeat split; auto. }
  destruct (Http.ok rv) eqn:Eok; cbn [negb].
  2:{ right. exists h. repeat split; auto. }
  destruct (Http.body_json rv) as [e|vj] eqn:Ej.
  { right. exists h. repeat split; auto. }
  destruct (property (Some vj) "valid") as [e|valid] eqn:Ep.
  { right. exists h. repeat split; auto. }
  apply PaymentFacts.property_inr in Ep. subst valid.
  destruct (truthy_value (get vj "valid")) eqn:Etv; cbn [negb].
  2:{ right. exists h. repeat split; auto. }
  destruct (Http.header_value _) as [e|hash].
  { right. exists h. repeat split; auto. }
  exists h, rv, vj, hash. now repeat split.
Qed.

Lemma startsWith_iff (s p : string) :
  startsWith s p = true <-> exists post, s = p +:+ post.
Proof.
  unfold startsWith. revert s. induction p as [|c p IH]; intros s.
  - split; [now exists s | now destruct s].
  - destruct s as [|d s]; cbn [String.prefix append].
    + split; [discriminate | now intros [post H]].
    + destruct (ascii_dec c d) as [<-|Hn].
      * rewrite IH. split; intros [post H]; exists post; congruence.
      * split; [discriminate | intros [post H]; congruence].
Qed.

Lemma includes_iff (s sub : string) :
  includes s sub = true <-> exists pre post, s = pre +:+ sub +:+ post.
Proof.
  induction s as [|c s IH]; cbn [includes].
  - rewrite orb_false_r, startsWith_iff. split.
    + intros [post H]. now exists "", post.
    + intros (pre & post & H). destruct pre; [now exists post | discriminate].
  - rewrite orb_true_iff, startsWith_iff, IH. split.
    + intros [[post H] | (pre & post & ->)].
      * now exists "", post.
      * now exists (String c pre), post.
    + intros (pre & post & H). destruct pre as [|d pre].
      * left. now exists post.
      * right. cbn [append] in H. injection H as _ ->. now exists pre, post.
Qed.

Lemma toLowerCase_app (a b : string) :
  toLowerCase (a +:+ b) = toLowerCase a +:+ toLowerCase b.
Proof.
  induction a as [|c a IH]; [reflexivity|].
  cbn [append toLowerCase]. now rewrite IH.
Qed.

Lemma toLowerCase_app_inv (s x y : string) :
  toLowerCase s = x +:+ y ->
  exists a b, s = a +:+ b /\ toLowerCase a = x /\ toLowerCase b = y.
Proof.
  revert s. induction x as [|c x IH]; intros s H.
  - now exists "", s.
  - destruct s as [|d s]; [discriminate|].
    cbn [append toLowerCase] in H. injection H as Hc H.
    destruct (IH _ H) as (a & b & -> & Ha & Hb).
    exists (String d a), b. cbn [append toLowerCase]. now rewrite Hc, Ha.
Qed.

(** A name of the white list is looked for in the user agent without
    regard to the case of letters. *)
Lemma includes_ignoring_case (ua name : string) :
  includes (toLowerCase ua) (toLowerCase name) = true <->
  Spec.contains_ignoring_case (toLowerCase name) ua.
Proof.
  rewrite includes_iff. split.
  - intros (pre & post & H).
    apply toLowerCase_app_inv in H as (a & b & -> & _ & H).
    apply toLowerCase_app_inv in H as (m & c & -> & Hm & _).
    now exists a, m, c.
  - intros (pre & mid & post & -> & Hm).
    exists (toLowerCase pre), (toLowerCase post).
    now rewrite !toLowerCase_app, Hm.
Qed.

(** X17. Who passes [blockAllBotsExceptSEO] without paying. A request is
    let through without the headers of a payment exactly when its user
    agent is not one of a bot, or contains one of the names googlebot,
    bingbot, yahoo and duckduckbot in some letter case. *)
Theorem seo_white_list (rt : Runtime) (net : Internet)
    (recipientAddress : string) (price : option string)
    (request : NextRequest) :
  let userAgent := string_or (headers_get request "user-agent") "" in
  fst (run (blockAllBotsExceptSEO rt net recipientAddress price request))
  = Returned (Next []) <->
  isBot userAgent None = false \/
  exists name,
    In name ["googlebot"; "bingbot"; "yahoo"; "duckduckbot"] /\
    Spec.contains_ignoring_case name userAgent.
Proof.
  cbv zeta. unfold blockAllBotsExceptSEO.
  rewrite botProtectionMiddleware_cases. cbv zeta.
  cbn [enabled strictMode allowedBots negb].
  set (ua := string_or (headers_get request "user-agent") "").
  destruct (isBot ua None) eqn:Eb; cbn [negb].
  2:{ split; [now left | reflexivity]. }
  assert (allowed ua ["Googlebot"; "Bingbot"; "Yahoo"; "DuckDuckBot"] = true <->
          exists name,
            In name ["googlebot"; "bingbot"; "yahoo"; "duckduckbot"] /\
            Spec.contains_ignoring_case name ua) as Hallowed.
  { unfold allowed. cbn [existsb].
    rewrite !orb_true_iff, !includes_ignoring_case. cbn [toLowerCase lower_char].
    split.
    - intros [H | [H | [H | [H | H]]]]; [| | | |discriminate];
        eexists; (split; [|exact H]); cbn; tauto.
    - intros (name & [<- | [<- | [<- | [<- | []]]]] & H); tauto. }
  cbn [length Nat.ltb Nat.leb andb].
  destruct (allowed ua _) eqn:Ea.
  { split; [|reflexivity]. intros _. right. now apply Hallowed. }
  split.
  - destruct (headers_get request "X-PAYMENT") as [h|]; [|discriminate].
    destruct (Js.truthy h); [|discriminate]. cbn [fst].
    destruct (net [] _) as [e|rv]; [discriminate|].
    destruct (negb (Http.ok rv)); [discriminate|].
    destruct (Http.body_json rv) as [e|vj]; [discriminate|].
    destruct (property (Some vj) "valid") as [e|valid]; [discriminate|].
    destruct (negb (truthy_value valid)); [discriminate|].
    destruct (Http.header_value _); discriminate.
  - intros [H | H]; [discriminate|]. apply Hallowed in H. discriminate.
Qed.

(** X18. Browsers pay too. Every request whose user agent contains "moz" in
    some letter case, as the user agents of the common browsers do, and
    that carries no payment is answered by [blockAllBots] with 402 and the
    challenge, in strict mode or not. *)
Theorem browsers_are_charged (rt : Runtime) (net : Internet)
    (recipientAddress : string) (price : option string)
    (strictMode : option bool) (request : NextRequest) (userAgent : string) :
  headers_get request "user-agent" = Some userAgent ->
  Spec.contains_ignoring_case "moz" userAgent ->
  Js.truthy_opt (headers_get request "X-PAYMENT") = false ->
  run (blockAllBots rt net recipientAddress price strictMode request)
  = (Returned
       (Body 402
          (stringify
             (JObj
                [ ("x402Version", JNum 1);
                  ("accepts",
                   JArr
                     [ JObj
                         [ ("scheme", JStr "exact");
                           ("network", JStr "monad-testnet");
                           ("maxAmountRequired",
                            JStr (default "1000000000000000" price));
                           ("payTo", JStr recipientAddress);
                           ("description",
                            JStr "Universal Bot Protection - Payment required for all automated access");
                           ("resource", JStr (url request));
                           ("botDetected", JStr (getBotType userAgent));
                           ("message",
                            JStr "This website requires payment for bot access. Please pay to proceed.")
                         ] ]) ]))
          [ ("Content-Type", "application/json");
            ("X-Bot-Detected", getBotType userAgent);
            ("X-Payment-Required", "true") ]),
     []).
Proof.
  intros Hua Hmoz Hpay. unfold blockAllBots.
  rewrite botProtectionMiddleware_cases. cbv zeta.
  cbn [enabled BotMiddleware.strictMode allowedBots negb].
  rewrite Hua. unfold string_or.
  rewrite (contains_truthy "moz" userAgent); [|discriminate|exact Hmoz].
  assert (forall r, isBot userAgent r = true) as Hbot.
  { intros r. apply (BotFacts.isBot_of_pattern _ _ (re_i "Moz")).
    - unfold BOT_PATTERNS. apply in_map. cbn. tauto.
    - unfold test. cbn [ignoreCase source re_i].
      destruct Hmoz as (pre & mid & post & -> & Hmid).
      now apply search_skip, search_here, match_here_same_case. }
  assert (match default false strictMode with
          | true => isBot userAgent (Some request)
          | false => isBot userAgent None
          end = true) as ->.
  { destruct (default false strictMode); apply Hbot. }
  cbn [negb].
  destruct (headers_get request "X-PAYMENT") as [h|]; [|reflexivity].
  cbn [truthy_opt] in Hpay. now rewrite Hpay.
Qed.

Lemma browsers_are_charged_witness :
  exists reply,
    run (blockAllBots Scenarios.runtime (fun _ _ => inl (Error "offline"))
           Samples.payee None None Samples.unpaid_request)
    = (Returned reply, []) /\
    match reply with Body status _ _ => status = 402%N | Next _ => False end.
Proof.
  eexists. split.
  - apply (browsers_are_charged _ _ _ _ _ _ "Mozilla/5.0").
    + reflexivity.
    + now exists "", "Moz", "illa/5.0".
    + reflexivity.
  - reflexivity.
Defined.

(** *** The AI crawler middleware *)

Lemma ai_verification_cases (rt : Runtime) (net : Internet)
    (config : AIMiddleware.AICrawlerConfig) (paymentHeader crawler : string)
    (log : list Call) :
  (try_catch
    (bind (fetch net (AIMiddleware.verify_call config paymentHeader))
       (fun verifyResponse =>
     bind (return_if (negb (Http.ok verifyResponse))
             (Body 402 "Payment verification failed" [])) (fun _ =>
     bind (lift (Http.body_json verifyResponse)) (fun verification =>
     bind (lift (property (Some verification) "valid")) (fun valid =>
     bind (return_if (negb (truthy_value valid))
             (Body 402 "Invalid payment" [])) (fun _ =>
     bind (lift (property (Some verification) "transactionHash"))
       (fun transactionHash =>
     bind (lift (Http.header_value
                   (ToString rt (or_else transactionHash (JStr "")))))
       (fun hash =>
     return_ (Next [ ("X-Payment-Verified", "true");
                     ("X-Transaction-Hash", hash);
                     ("X-AI-Crawler-Paid", crawler) ])))))))))
    (fun error => return_ (Body 500 "Payment verification failed" []))
   : M Reply Reply) log
  = (Return
       match net log (AIMiddleware.verify_call config paymentHeader) with
       | inl _ => Body 500 "Payment verification failed" []
       | inr verifyResponse =>
           if negb (Http.ok verifyResponse) then
             Body 402 "Payment verification failed" []
           else
             match Http.body_json verifyResponse with
             | inl _ => Body 500 "Payment verification failed" []
             | inr verification =>
                 match property (Some verification) "valid" with
                 | inl _ => Body 500 "Payment verification failed" []
                 | inr valid =>
                     if negb (truthy_value valid) then Body 402 "Invalid payment" []
                     else
                       match Http.header_value
                               (ToString rt
                                  (or_else (get verification "transactionHash")
                                     (JStr ""))) with
                       | inl _ => Body 500 "Payment verification failed" []
                       | inr hash =>
                           Next [ ("X-Payment-Verified", "true");
                                  ("X-Transaction-Hash", hash);
                                  ("X-AI-Crawler-Paid", crawler) ]
                       end
                 end
             end
       end,
     log ++ [Fetch (AIMiddleware.verify_call config paymentHeader)]).
Proof.
  unfold try_catch, bind, fetch.
  destruct (net log _) as [e|rv]; [reflexivity|].
  destruct (negb (Http.ok rv)); [reflexivity|]. cbn [return_if ret].
  destruct (Http.body_json rv) as [e|vj]; [reflexivity|]. cbn [lift ret].
  destruct vj; try reflexivity; cbn [property lift ret];
    (destruct (negb (truthy_value _)); [reflexivity|]); cbn [return_if ret];
    destruct (Http.header_value _); reflexivity.
Qed.

(** The AI crawler middleware, by cases. *)
Lemma aiCrawlerMiddleware_cases (rt : Runtime) (net : Internet)
    (config : AIMiddleware.AICrawlerConfig) (request : NextRequest) :
  let userAgent := string_or (headers_get request "user-agent") "" in
  let crawlerName := getAICrawlerName userAgent in
  let challenge :=
    Body 402 (stringify (AIMiddleware.x402Response config request crawlerName))
      [ ("Content-Type", "application/json");
        ("X-AI-Crawler-Detected", AIMiddleware.name_or_unknown crawlerName);
        ("X-Payment-Required", "true") ] in
  run (AIMiddleware.aiCrawlerMiddleware rt net config request) =
  if negb (AIMiddleware.enabled config) then (Returned (Next []), [])
  else if negb (isAICrawler userAgent) then (Returned (Next []), [])
  else if match AIMiddleware.allowedCrawlers config with
          | Some allowedCrawlers =>
              (0 <? length allowedCrawlers)%nat
              && allowed userAgent allowedCrawlers
          | None => false
          end then (Returned (Next []), [])
  else
    match headers_get request "X-PAYMENT" with
    | Some paymentHeader =>
        if Js.truthy paymentHeader then
          (Returned
             match net [] (AIMiddleware.verify_call config paymentHeader) with
             | inl _ => Body 500 "Payment verification failed" []
             | inr verifyResponse =>
                 if negb (Http.ok verifyResponse) then
                   Body 402 "Payment verification failed" []
                 else
                   match Http.body_json verifyResponse with
                   | inl _ => Body 500 "Payment verification failed" []
                   | inr verification =>
                       match property (Some verification) "valid" with
                       | inl _ => Body 500 "Payment verification failed" []
                       | inr valid =>
                           if negb (truthy_value valid) then
                             Body 402 "Invalid payment" []
                           else
                             match Http.header_value
                                     (ToString rt
                                        (or_else
                                           (get verification "transactionHash")
                                           (JStr ""))) with
                             | inl _ => Body 500 "Payment verification failed" []
                             | inr hash =>
                                 Next [ ("X-Payment-Verified", "true");
                                        ("X-Transaction-Hash", hash);
                                        ("X-AI-Crawler-Paid",
                                         AIMiddleware.name_or_unknown crawlerName) ]
                             end
                       end
                   end
             end,
           [Fetch (AIMiddleware.verify_call config paymentHeader)])
        else (Returned challenge, [])
    | None => (Returned challenge, [])
    end.
Proof.
  cbv zeta. unfold run, AIMiddleware.aiCrawlerMiddleware.
  destruct (negb (AIMiddleware.enabled config)); [reflexivity|].
  rewrite AsyncFacts.seq_return_if_false.
  destruct (negb (isAICrawler _)); [reflexivity|].
  rewrite AsyncFacts.seq_return_if_false.
  assert (forall (c : bool) (k : unit -> M Reply Reply),
            bind (return_if c (Next [])) k []
            = if c then (Return (Next []), []) else k tt []) as Hif.
  { now intros []. }
  destruct (AIMiddleware.allowedCrawlers config) as [l|].
  - rewrite Hif. destruct (_ && _); [reflexivity|].
    destruct (headers_get request "X-PAYMENT") as [h|]; [|reflexivity].
    destruct (Js.truthy h); [|reflexivity].
    now rewrite ai_verification_cases.
  - rewrite AsyncFacts.seq_ret.
    destruct (headers_get request "X-PAYMENT") as [h|]; [|reflexivity].
    destruct (Js.truthy h); [|reflexivity].
    now rewrite ai_verification_cases.
Qed.

(** A user agent that is one of an AI crawler has a name, which is not
    empty. *)
Lemma crawler_is_named (userAgent : string) :
  isAICrawler userAgent = true ->
  exists name,
    getAICrawlerName userAgent = Some name /\
    AIMiddleware.name_or_unknown (Some name) = name /\
    In name [ "OpenAI GPTBot"; "ChatGPT"; "Anthropic Claude"; "Google Gemini";
              "Perplexity"; "Common Crawl"; "ByteDance"; "AI Crawler" ].
Proof.
  unfold isAICrawler, getAICrawlerName. cbv zeta.
  destruct (negb (truthy userAgent)); [discriminate|]. intros _.
  repeat (match goal with
          | |- context [if test ?re userAgent then _ else _] =>
              destruct (test re userAgent)
          end;
          [eexists; split; [reflexivity|]; split; [reflexivity|]; cbn; tauto|]).
  eexists; split; [reflexivity|]; split; [reflexivity|]; cbn; tauto.
Qed.

(** X19. What the AI crawler middleware answers. It never throws and it
    makes at most one call, to the verify endpoint of the facilitator. It
    lets a request through without headers and without a call, or with
    the headers of a verified payment after the facilitator has answered
    with an ok status and a body whose [valid] is truthy. It refuses with
    402 and the challenge without a call when the request has no payment
    header, and with 402 or 500 and no headers after the call. The
    crawler is always named: the header never says Unknown. *)
Theorem ai_crawler_answers (rt : Runtime) (net : Internet)
    (config : AIMiddleware.AICrawlerConfig) (request : NextRequest) :
  let userAgent := string_or (headers_get request "user-agent") "" in
  exists reply log,
    run (AIMiddleware.aiCrawlerMiddleware rt net config request)
    = (Returned reply, log) /\
    match reply with
    | Next [] => log = []
    | Next set =>
        exists paymentHeader response verification hash name,
          headers_get request "X-PAYMENT" = Some paymentHeader /\
          log = [Fetch (AIMiddleware.verify_call config paymentHeader)] /\
          net [] (AIMiddleware.verify_call config paymentHeader) = inr response /\
          Http.ok response = true /\
          Http.body_json response = inr verification /\
          truthy_value (get verification "valid") = true /\
          getAICrawlerName userAgent = Some name /\ name <> "Unknown" /\
          set = [ ("X-Payment-Verified", "true");
                  ("X-Transaction-Hash", hash);
                  ("X-AI-Crawler-Paid", name) ]
    | Body status body headers =>
        (exists name,
           status = 402%N /\ log = [] /\
           Js.truthy_opt (headers_get request "X-PAYMENT") = false /\
           getAICrawlerName userAgent = Some name /\ name <> "Unknown" /\
           body = stringify (AIMiddleware.x402Response config request (Some name)) /\
           headers = [ ("Content-Type", "application/json");
                       ("X-AI-Crawler-Detected", name);
                       ("X-Payment-Required", "true") ]) \/
        (exists paymentHeader,
           headers_get request "X-PAYMENT" = Some paymentHeader /\
           log = [Fetch (AIMiddleware.verify_call config paymentHeader)] /\
           (status = 402%N \/ status = 500%N) /\ headers = [])
    end.
Proof.
  cbv zeta. rewrite aiCrawlerMiddleware_cases. cbv zeta.
  destruct (negb (AIMiddleware.enabled config)); [now exists (Next []), []|].
  destruct (isAICrawler _) eqn:Eai; cbn [negb]; [|now exists (Next []), []].
  destruct (crawler_is_named _ Eai) as (name & -> & -> & Hname).
  assert (name <> "Unknown") as Hunknown.
  { intros ->. cbn in Hname. intuition discriminate. }
  destruct (match AIMiddleware.allowedCrawlers config with
            | Some _ => _ | None => _ end);
    [now exists (Next []), []|].
  destruct (headers_get request "X-PAYMENT") as [h|] eqn:Eh.
  2:{ eexists _, _. split; [reflexivity|]. left. exists name. now repeat split. }
  destruct (Js.truthy h) eqn:Et.
  2:{ eexists _, _. split; [reflexivity|]. left. exists name. now repeat split. }
  eexists _, _. split; [reflexivity|].
  destruct (net [] (AIMiddleware.verify_call config h)) as [e|rv] eqn:En.
  { right. exists h. repeat split; auto. }
  destruct (Http.ok rv) eqn:Eok; cbn [negb].
  2:{ right. exists h. repeat split; auto. }
  destruct (Http.body_json rv) as [e|vj] eqn:Ej.
  { right. exists h. repeat split; auto. }
  destruct (property (Some vj) "valid") as [e|valid] eqn:Ep.
  { right. exists h. repeat split; auto. }
  apply PaymentFacts.property_inr in Ep. subst valid.
  destruct (truthy_value (get vj "valid")) eqn:Etv; cbn [negb].
  2:{ right. exists h. repeat split; auto. }
  destruct (Http.header_value _) as [e|hash].
  { right. exists h. repeat split; auto. }
  exists h, rv, vj, hash, name. now repeat split.
Qed.

(** A word that is contained contains its own parts. *)
Lemma contains_part (x y z ua : string) :
  Spec.contains_ignoring_case (x +:+ y +:+ z) ua ->
  Spec.contains_ignoring_case y ua.
Proof.
  intros (pre & mid & post & -> & Hm).
  apply toLowerCase_app_inv in Hm as (a & b & -> & _ & Hm).
  apply toLowerCase_app_inv in Hm as (m & c & -> & Hm & _).
  exists (pre +:+ a), m, (c +:+ post).
  split; [|exact Hm]. now rewrite !Utf8Facts.append_assoc.
Qed.

(** A user agent that contains a word of which a pattern of [isBot] is a
    part is one of a bot. *)
Lemma bot_by_part (p x y z ua : string) (request : option NextRequest) :
  In p (map source BOT_PATTERNS) -> toLowerCase p = y ->
  Spec.contains_ignoring_case (x +:+ y +:+ z) ua ->
  isBot ua request = true.
Proof.
  intros Hin Hp Hc. apply contains_part in Hc.
  apply (BotFacts.isBot_of_pattern _ _ (re_i p)).
  - unfold BOT_PATTERNS in *. rewrite map_map in Hin. cbn [source re_i] in Hin.
    rewrite map_id in Hin. now apply in_map.
  - destruct Hc as (pre & mid & post & -> & Hmid).
    unfold test. cbn [ignoreCase source re_i].
    apply search_skip, search_here, match_here_same_case. congruence.
Qed.

(** X20. An AI crawler is a bot, but for one name. Every user agent that
    [isAICrawler] accepts is accepted by [isBot], with or without the
    request, unless it is accepted for the name cohere-ai. The exception
    is real: no pattern of [isBot] matches the user agent "cohere-ai",
    which [isAICrawler] accepts and [isBot], without the request, does
    not. *)
Theorem ai_crawlers_are_bots (userAgent : string)
    (request : option NextRequest) :
  (isAICrawler userAgent = true ->
   isBot userAgent request = true \/
   Spec.contains_ignoring_case "cohere-ai" userAgent) /\
  isAICrawler "cohere-ai" = true /\
  isBot "cohere-ai" None = false /\
  (forall re, In re BOT_PATTERNS -> test re "cohere-ai" = false).
Proof.
  split.
  2:{ split; [reflexivity|]. split; [reflexivity|].
      intros re Hin.
      assert (forallb (fun re => negb (test re "cohere-ai")) BOT_PATTERNS = true)
        as Hall by (vm_compute; reflexivity).
      rewrite forallb_forall in Hall. now apply negb_true_iff, Hall. }
  intros H. unfold isAICrawler in H.
  destruct (negb (truthy userAgent)); [discriminate|].
  unfold AI_CRAWLER_PATTERNS in H.
  apply ClassifierFacts.existsb_test_iff in H as (re & Hin & Hc).
  assert (forall p x y z,
            toLowerCase (source re) = x +:+ y +:+ z ->
            existsb (String.eqb p) (map source BOT_PATTERNS) = true ->
            toLowerCase p = y -> isBot userAgent request = true) as Hbot.
  { intros p x y z Hre Hp Hy. apply (bot_by_part p x y z); [|exact Hy|].
    - apply existsb_exists in Hp as (q & Hq & E).
      apply String.eqb_eq in E. now subst q.
    - now rewrite <- Hre. }
  cbn [map In] in Hin.
  destruct Hin as [<-|[<-|[<-|[<-|[<-|[<-|[<-|[<-|
                  [<-|[<-|[<-|[<-|[<-|[<-|[<-|[<-|[]]]]]]]]]]]]]]]]].
  - left. now apply (Hbot "bot" "gpt" "bot" "").
  - left. now apply (Hbot "ChatGPT" "" "chatgpt" "-user").
  - left. now apply (Hbot "Claude" "" "claude" "-web").
  - left. now apply (Hbot "Claude" "" "claude" "bot").
  - left. now apply (Hbot "Google-Extended" "" "google-extended" "").
  - left. now apply (Hbot "anthropic" "" "anthropic" "-ai").
  - right. exact Hc.
  - left. now apply (Hbot "PerplexityBot" "" "perplexitybot" "").
  - left. now apply (Hbot "bot" "omgili" "bot" "").
  - left. now apply (Hbot "bot" "facebook" "bot" "").
  - left. now apply (Hbot "bot" "apple" "bot" "-extended").
  - left. now apply (Hbot "Bytespider" "" "bytespider" "").
  - left. now apply (Hbot "CCBot" "" "ccbot" "").
  - left. now apply (Hbot "anthropic" "" "anthropic" "").
  - left. now apply (Hbot "bot" "ai2" "bot" "").
  - left. now apply (Hbot "bot" "you" "bot" "").
Qed.

(** The user agent of the Cohere crawler is one of an AI crawler and is
    not one of a bot: it is accepted for the name cohere-ai. *)
Lemma ai_crawlers_are_bots_witness :
  isAICrawler "cohere-ai/1.0 (+https://cohere.com)" = true /\
  isBot "cohere-ai/1.0 (+https://cohere.com)" None = false /\
  Spec.contains_ignoring_case "cohere-ai" "cohere-ai/1.0 (+https://cohere.com)".
Proof.
  assert (isAICrawler "cohere-ai/1.0 (+https://cohere.com)" = true) as Hai
    by reflexivity.
  assert (isBot "cohere-ai/1.0 (+https://cohere.com)" None = false) as Hbot
    by reflexivity.
  split; [exact Hai|]. split; [exact Hbot|].
  destruct (proj1 (ai_crawlers_are_bots "cohere-ai/1.0 (+https://cohere.com)" None)
              Hai) as [H | H].
  - rewrite Hbot in H. discriminate H.
  - exact H.
Defined.

(** The payment branch never lets a request through without headers. *)
Lemma ai_free_pass (rt : Runtime) (net : Internet)
    (config : AIMiddleware.AICrawlerConfig) (request : NextRequest) :
  let userAgent := string_or (headers_get request "user-agent") "" in
  fst (run (AIMiddleware.aiCrawlerMiddleware rt net config request))
  = Returned (Next []) <->
  AIMiddleware.enabled config = false \/
  isAICrawler userAgent = false \/
  exists allowedCrawlers,
    AIMiddleware.allowedCrawlers config = Some allowedCrawlers /\
    allowed userAgent allowedCrawlers = true.
Proof.
  cbv zeta. rewrite aiCrawlerMiddleware_cases. cbv zeta.
  destruct (AIMiddleware.enabled config); cbn [negb]; [|split; auto].
  destruct (isAICrawler _); cbn [negb]; [|split; auto].
  assert (match AIMiddleware.allowedCrawlers config with
          | Some l => (0 <? length l)%nat && allowed
                        (string_or (headers_get request "user-agent") "") l
          | None => false
          end = true <->
          exists l, AIMiddleware.allowedCrawlers config = Some l /\
                    allowed (string_or (headers_get request "user-agent") "") l
                    = true) as Hlist.
  { destruct (AIMiddleware.allowedCrawlers config) as [l|].
    - split.
      + intros H. apply andb_true_iff in H as [_ H]. now exists l.
      + intros (l' & [= <-] & H). rewrite H.
        destruct l; [discriminate | reflexivity].
    - split; [discriminate | now intros (l & [=] & _)]. }
  destruct (match AIMiddleware.allowedCrawlers config with
            | Some _ => _ | None => _ end).
  { split; [|reflexivity]. intros _. right. right. now apply Hlist. }
  split.
  - destruct (headers_get request "X-PAYMENT") as [h|]; [|discriminate].
    destruct (Js.truthy h); [|discriminate]. cbn [fst].
    destruct (net [] _) as [e|rv]; [discriminate|].
    destruct (negb (Http.ok rv)); [discriminate|].
    destruct (Http.body_json rv) as [e|vj]; [discriminate|].
    destruct (property (Some vj) "valid") as [e|valid]; [discriminate|].
    destruct (negb (truthy_value valid)); [discriminate|].
    destruct (Http.header_value _); discriminate.
  - intros [H | [H | H]]; [discriminate.. |].
    apply Hlist in H. discriminate.
Qed.

(** X21. Who passes the AI crawler helpers without paying. [blockAICrawlers]
    lets a request through without the headers of a payment exactly when
    its user agent is not one of an AI crawler; [allowSpecificCrawlers],
    given allowed names made of ASCII characters, does so exactly when the
    user agent is not one of an AI crawler or contains, after both are put
    in lower case, one of the allowed names. *)
Theorem ai_helpers_free_pass (rt : Runtime) (net : Internet)
    (recipientAddress : string) (price : option string)
    (allowedCrawlers : list string) (request : NextRequest) :
  let userAgent := string_or (headers_get request "user-agent") "" in
  (fst (run (AIMiddleware.blockAICrawlers rt net recipientAddress price request))
   = Returned (Next []) <->
   isAICrawler userAgent = false) /\
  (forallb (Js.forall_chars Utf8.is_ascii) allowedCrawlers = true ->
   (fst (run (AIMiddleware.allowSpecificCrawlers rt net recipientAddress
                allowedCrawlers price request))
    = Returned (Next []) <->
    isAICrawler userAgent = false \/
    exists name,
      In name allowedCrawlers /\
      Js.includes (Js.toLowerCase userAgent) (Js.toLowerCase name) = true)).
Proof.
  cbv zeta. unfold AIMiddleware.blockAICrawlers, AIMiddleware.allowSpecificCrawlers.
  rewrite !ai_free_pass. cbv zeta.
  cbn [AIMiddleware.enabled AIMiddleware.allowedCrawlers]. split.
  - split.
    + intros [H | [H | (l & [=] & _)]]; [discriminate | exact H].
    + auto.
  - intros _. split.
    + intros [H | [H | (l & [= <-] & H)]]; [discriminate | now left |].
      right. unfold allowed in H. apply existsb_exists in H. exact H.
    + intros [H | H]; [auto|]. right. right. exists allowedCrawlers.
      split; [reflexivity|]. unfold allowed. now apply existsb_exists.
Qed.

(** The crawler of OpenAI, allowed by name, passes without paying. *)
Lemma ai_helpers_free_pass_witness :
  forallb (Js.forall_chars Utf8.is_ascii) ["gptbot"] = true /\
  isAICrawler "Mozilla/5.0 (compatible; GPTBot/1.0)" = true /\
  fst (run (AIMiddleware.allowSpecificCrawlers Scenarios.runtime
              Scenarios.paywall Samples.payee ["gptbot"] None
              {| headers :=
                   {[ "user-agent" := "Mozilla/5.0 (compatible; GPTBot/1.0)" ]};
                 url := "https://example.org/articles/1";
                 pathname := "/articles/1" |}))
  = Returned (Next []).
Proof.
  split; [reflexivity|]. split; [reflexivity|].
  apply (proj2 (ai_helpers_free_pass Scenarios.runtime Scenarios.paywall
                  Samples.payee None ["gptbot"]
                  {| headers :=
                       {[ "user-agent" := "Mozilla/5.0 (compatible; GPTBot/1.0)" ]};
                     url := "https://example.org/articles/1";
                     pathname := "/articles/1" |})
               eq_refl).
  right. exists "gptbot". split; [now left | reflexivity].
Defined.

End GateFacts.

(** ** The facilitator client *)

Module ClientFacts.
Import Handler JSON JsValue Async FacilitatorClient.

(** X22. What [verifyPaymentSimple] reports. Without a facilitator URL it
    throws before any call. With one it never throws and makes exactly one
    call, a POST to the URL followed by /verify, and the result has a
    truthy [valid] only if the facilitator answered with an ok status and
    the result is the body of that answer. *)
Theorem verifyPaymentSimple_answers (net : Internet)
    (facilitatorUrl signedTransaction expectedRecipient expectedAmount : string)
    (expectedNetwork : option string) :
  match run (verifyPaymentSimple net facilitatorUrl signedTransaction
               expectedRecipient expectedAmount expectedNetwork) with
  | (Uncaught e, log) =>
      facilitatorUrl = "" /\ log = [] /\
      e = Error "Facilitator URL is required - no default available"
  | (Returned result, log) =>
      facilitatorUrl <> "" /\
      exists request,
        log = [Fetch request] /\
        Http.url request = facilitatorUrl +:+ "/verify" /\
        Http.method request = "POST" /\
        Http.body request =
          Some (stringify
                  (JObj [ ("signedTransaction", JStr signedTransaction);
                          ("expectedRecipient", JStr expectedRecipient);
                          ("expectedAmount", JStr expectedAmount);
                          ("expectedNetwork",
                           JStr (default "testnet" expectedNetwork)) ])) /\
        (truthy_value (get result "valid") = true ->
         exists response,
           net [] request = inr response /\
           Http.ok response = true /\
           Http.body_json response = inr result)
  end.
Proof.
  unfold verifyPaymentSimple.
  destruct (Js.truthy facilitatorUrl) eqn:Eu; cbn [negb].
  2:{ destruct facilitatorUrl; [|discriminate]. now repeat split. }
  apply HandlerFacts.truthy_true in Eu.
  unfold run, verifyPayment, try_catch, bind, fetch. cbn [app default].
  destruct (net [] _) as [e|response] eqn:En.
  { split; [exact Eu|]. eexists. repeat split. discriminate. }
  destruct (Http.body_json response) as [e|data] eqn:Ej; cbn [lift throw ret].
  { split; [exact Eu|]. eexists. repeat split. discriminate. }
  destruct (Http.ok response) eqn:Eok; cbn [negb].
  - split; [exact Eu|]. eexists. repeat split. intros _. now exists response.
  - destruct data; cbn [property lift throw ret return_];
      (split; [exact Eu|]); eexists; repeat split; discriminate.
Qed.

(** X23. What [settlePaymentSimple] reports. Without a facilitator URL it
    throws before any call. With one it never throws and makes exactly one
    call, a POST to the URL followed by /settle, and the result has a
    truthy [settled] only if the facilitator answered with an ok status
    and the result is the body of that answer. *)
Theorem settlePaymentSimple_answers (net : Internet)
    (facilitatorUrl signedTransaction : string)
    (expectedNetwork : option string) :
  match run (settlePaymentSimple net facilitatorUrl signedTransaction
               expectedNetwork) with
  | (Uncaught e, log) =>
      facilitatorUrl = "" /\ log = [] /\
      e = Error "Facilitator URL is required - no default available"
  | (Returned result, log) =>
      facilitatorUrl <> "" /\
      exists request,
        log = [Fetch request] /\
        Http.url request = facilitatorUrl +:+ "/settle" /\
        Http.method request = "POST" /\
        Http.body request =
          Some (stringify
                  (JObj [ ("signedTransaction", JStr signedTransaction);
                          ("expectedNetwork",
                           JStr (default "testnet" expectedNetwork)) ])) /\
        (truthy_value (get result "settled") = true ->
         exists response,
           net [] request = inr response /\
           Http.ok response = true /\
           Http.body_json response = inr result)
  end.
Proof.
  unfold settlePaymentSimple.
  destruct (Js.truthy facilitatorUrl) eqn:Eu; cbn [negb].
  2:{ destruct facilitatorUrl; [|discriminate]. now repeat split. }
  apply HandlerFacts.truthy_true in Eu.
  unfold run, settlePayment, try_catch, bind, fetch. cbn [app default].
  destruct (net [] _) as [e|response] eqn:En.
  { split; [exact Eu|]. eexists. repeat split. discriminate. }
  destruct (Http.body_json response) as [e|data] eqn:Ej; cbn [lift throw ret].
  { split; [exact Eu|]. eexists. repeat split. discriminate. }
  destruct (Http.ok response) eqn:Eok; cbn [negb].
  - split; [exact Eu|]. eexists. repeat split. intros _. now exists response.
  - destruct data; cbn [property lift throw ret return_];
      (split; [exact Eu|]); eexists; repeat split; discriminate.
Qed.

End ClientFacts.

(** ** Chain utilities: the functions that take a network *)

Module ChainFacts.
Import Handler MonadUtils Wallets Async MonadChain.

(** X24. The main network is not configured. On it the functions that
    take a network throw the same [Error] before the chain SDK is asked
    anything, whatever their other arguments, and [verifyTransaction]
    reports a verdict that is not valid, with the message of this error
    for its reason. *)
Theorem mainnet_not_configured (sdk : Sdk) :
  let unsupported := Error "Unsupported Monad network: mainnet" in
  (forall (privateKey : string) log,
     createMonadWallet (R := unit) sdk privateKey mainnet log
     = (Throw unsupported, log)) /\
  (forall (from : string) (to amount : JSON.json) log,
     buildTransferTransaction (R := unit) sdk from to amount mainnet log
     = (Throw unsupported, log)) /\
  (forall (address : string) log,
     getBalance (R := unit) sdk address mainnet log = (Throw unsupported, log)) /\
  (forall (txHash : string) log,
     getExplorerUrl (R := unit) txHash mainnet log = (Throw unsupported, log)) /\
  (forall (address : string) log,
     getAddressExplorerUrl (R := unit) address mainnet log
     = (Throw unsupported, log)) /\
  (forall txHash expectedRecipient expectedAmount : string,
     run (verifyTransaction sdk txHash expectedRecipient expectedAmount mainnet)
     = (Returned {| valid := false;
                    reason := Some "Unsupported Monad network: mainnet";
                    transaction := None |}, [])).
Proof.
  cbv zeta. repeat split.
Qed.

(** X25. When a transaction on the chain is valid. [verifyTransaction]
    never throws, and on the test network its verdict is valid exactly
    when the chain knows a transaction with this hash whose recipient is
    the expected one, up to the case of letters, and whose value, in
    decimal digits, is the expected amount; the verdict then carries the
    transaction. *)
Theorem verifyTransaction_valid_iff (sdk : Sdk)
    (txHash expectedRecipient expectedAmount : string) :
  exists verdict,
    run (verifyTransaction sdk txHash expectedRecipient expectedAmount testnet)
    = (Returned verdict, []) /\
    (valid verdict = true <->
     exists tx,
       getTransaction sdk testnet_config txHash = inr (Some tx) /\
       Spec.same_address (chain_to tx) expectedRecipient /\
       Js.int_toString (chain_value tx) = expectedAmount /\
       verdict = {| valid := true; reason := None; transaction := Some tx |}).
Proof.
  unfold run, verifyTransaction, try_catch, createMonadProvider, getMonadNetwork.
  change (MONAD_NETWORKS !! network_name testnet) with (Some testnet_config).
  unfold bind, lift, ret, throw.
  destruct (getTransaction sdk testnet_config txHash) as [e|[tx|]] eqn:Eg.
  - eexists. split; [reflexivity|]. split; [discriminate|].
    intros (tx & [=] & _).
  - cbv beta iota.
    destruct (FacilitatorVerify.recipient_differs (chain_to tx) expectedRecipient)
      eqn:Er; cbn [return_if return_ ret].
    { eexists. split; [reflexivity|]. split; [discriminate|].
      intros (tx' & [= <-] & Hto & _).
      apply VerifyFacts.recipient_differs_false in Hto. congruence. }
    destruct (String.eqb (Js.int_toString (chain_value tx)) expectedAmount)
      eqn:Ea; cbn [negb return_if return_ ret].
    + eexists. split; [reflexivity|]. split; [|reflexivity].
      intros _. exists tx. split; [reflexivity|].
      split; [now apply VerifyFacts.recipient_differs_false|].
      split; [now apply String.eqb_eq | reflexivity].
    + eexists. split; [reflexivity|]. split; [discriminate|].
      intros (tx' & [= <-] & _ & Ham & _).
      apply String.eqb_neq in Ea. contradiction.
  - eexists. split; [reflexivity|]. split; [discriminate|].
    intros (tx & [=] & _).
Qed.

End ChainFacts.

(** ** The client: x402axios *)

Module AxiosFacts.
Import Handler JSON JsValue Wallets Async X402Axios.

Section Inversion.
Context {R A B : Type}.

(** A sequence ends where its first part ends, or goes on with the value
    of its first part. *)
Lemma bind_inv (m : M R A) (k : A -> M R B) (log log' : list Call)
    (o : outcome R B) :
  bind m k log = (o, log') ->
  (exists a l, m log = (Value a, l) /\ k a l = (o, log')) \/
  (exists r, m log = (Return r, log') /\ o = Return r) \/
  (exists e, m log = (Throw e, log') /\ o = Throw e).
Proof.
  unfold bind. destruct (m log) as [[a|r|e] l]; intros H.
  - left. now exists a, l.
  - right. left. exists r. now injection H as <- <-.
  - right. right. exists e. now injection H as <- <-.
Qed.

Lemma fetch_inv (net : Internet) (request : Http.Request)
    (log log' : list Call) (o : outcome R Http.Response) :
  fetch net request log = (o, log') ->
  log' = log ++ [Fetch request] /\
  match net log request with
  | inr response => o = Value response
  | inl e => o = Throw e
  end.
Proof.
  unfold fetch. destruct (net log request); intros [= <- <-]; now split.
Qed.

End Inversion.

(** The functions of the chain utilities leave the log as it is, but for
    the signature. *)
Lemma provider_of_log {R} (rt : Runtime) (networkId : JSON.json)
    (log log' : list Call) (o : outcome R MonadUtils.Network) :
  provider_of (mapped_network rt networkId) log = (o, log') ->
  log' = log /\
  match o with
  | Value n => n = MonadUtils.testnet
  | Return _ => False
  | Throw _ => True
  end.
Proof.
  unfold provider_of.
  destruct (mapped_network rt networkId) as [[]|shown];
    intros [= <- <-]; now split.
Qed.

Lemma createMonadWallet_log {R} (sdk : Sdk) (privateKey : string)
    (network : MonadUtils.Network) (log log' : list Call)
    (o : outcome R Wallet) :
  MonadChain.createMonadWallet sdk privateKey network log = (o, log') ->
  log' = log /\ match o with Return _ => False | _ => True end.
Proof.
  unfold MonadChain.createMonadWallet. destruct network.
  - cbn. destruct (new_Wallet sdk _); intros [= <- <-]; now split.
  - intros [= <- <-]. now split.
Qed.

Lemma buildTransferTransaction_inv {R} (sdk : Sdk) (from : string)
    (to amount : JSON.json) (network : MonadUtils.Network)
    (log log' : list Call) (o : outcome R TransactionRequest) :
  MonadChain.buildTransferTransaction sdk from to amount network log = (o, log') ->
  log' = log /\
  match o with
  | Value t =>
      exists feeData nonce,
        network = MonadUtils.testnet /\
        getFeeData sdk MonadUtils.testnet_config = inr feeData /\
        getTransactionCount sdk MonadUtils.testnet_config from = inr nonce /\
        t = {| Wallets.from := from;
               Wallets.to := to;
               Wallets.value := amount;
               Wallets.nonce := nonce;
               gasLimit := 21000;
               request_maxFeePerGas :=
                 MonadChain.nonzero (maxFeePerGas feeData);
               request_maxPriorityFeePerGas :=
                 MonadChain.nonzero (maxPriorityFeePerGas feeData);
               Wallets.chainId := MonadUtils.MONAD_TESTNET_CHAIN_ID;
               type := 2 |}
  | Return _ => False
  | Throw _ => True
  end.
Proof.
  unfold MonadChain.buildTransferTransaction, MonadChain.createMonadProvider,
    MonadChain.getMonadNetwork, bind, lift.
  destruct network.
  - change (MonadUtils.MONAD_NETWORKS !! MonadUtils.network_name MonadUtils.testnet)
      with (Some MonadUtils.testnet_config).
    cbv beta iota delta [ret throw].
    destruct (getFeeData sdk _) as [e|feeData] eqn:Ef.
    { intros [= <- <-]. now split. }
    destruct (getTransactionCount sdk _ from) as [e|nonce] eqn:En.
    { intros [= <- <-]. now split. }
    intros [= <- <-]. split; [reflexivity|]. now exists feeData, nonce.
  - intros [= <- <-]. now split.
Qed.

Lemma signTransaction_inv {R} (sdk : Sdk) (wallet : Wallet)
    (transaction : TransactionRequest) (log log' : list Call)
    (o : outcome R string) :
  MonadChain.signTransaction sdk wallet transaction log = (o, log') ->
  log' = log ++ [Sign wallet transaction] /\
  match wallet_signTransaction sdk wallet transaction with
  | inr signedTx => o = Value signedTx
  | inl e => o = Throw e
  end.
Proof.
  unfold MonadChain.signTransaction.
  destruct (wallet_signTransaction sdk wallet transaction);
    intros [= <- <-]; now split.
Qed.

Lemma run_inv {R} (m : M R R) (outcome : completion R) (log : list Call) :
  run m = (outcome, log) ->
  exists o, m [] = (o, log) /\
    match o with
    | Value r | Return r => outcome = Returned r
    | Throw e => outcome = Uncaught e
    end.
Proof.
  unfold run. destruct (m []) as [[r|r|e] l]; intros [= <- <-];
    eexists; (split; [reflexivity|]); reflexivity.
Qed.

Lemma lift_value {R A} (x : JsError + A) (a : A) (log l : list Call) :
  lift (R := R) x log = (Value a, l) -> x = inr a /\ l = log.
Proof. destruct x; intros [= <- <-]; now split. Qed.

Lemma lift_return {R A} (x : JsError + A) (r : R) (log l : list Call) :
  lift x log = (Return r, l) -> False.
Proof. destruct x; discriminate. Qed.

Lemma lift_log {R A} (x : JsError + A) (o : outcome R A) (log l : list Call) :
  lift x log = (o, l) -> l = log.
Proof. destruct x; now intros [= <- <-]. Qed.

Lemma fetch_value {R} (net : Internet) (request : Http.Request)
    (response : Http.Response) (log l : list Call) :
  fetch (R := R) net request log = (Value response, l) ->
  net log request = inr response /\ l = log ++ [Fetch request].
Proof.
  unfold fetch. destruct (net log request); intros [= <- <-]; now split.
Qed.

Lemma fetch_log {R} (net : Internet) (request : Http.Request)
    (o : outcome R Http.Response) (log l : list Call) :
  fetch net request log = (o, l) -> l = log ++ [Fetch request].
Proof.
  unfold fetch. destruct (net log request); now intros [= <- <-].
Qed.

(** The parts of the function that call nothing. *)
Lemma quiet_ret {R A} (a : A) : quiet (ret (R := R) a).
Proof. now intros log o l [= <- <-]. Qed.

Lemma quiet_throw {R A} (e : JsError) : quiet (throw (R := R) (A := A) e).
Proof. now intros log o l [= <- <-]. Qed.

Lemma quiet_return {R A} (r : R) : quiet (return_ (A := A) r).
Proof. now intros log o l [= <- <-]. Qed.

Lemma quiet_lift {R A} (x : JsError + A) : quiet (lift (R := R) x).
Proof. intros log o l. apply lift_log. Qed.

Lemma quiet_bind {R A B} (m : M R A) (k : A -> M R B) :
  quiet m -> (forall a, quiet (k a)) -> quiet (bind m k).
Proof.
  intros Hm Hk log o l H.
  apply bind_inv in H as [(a & l1 & H1 & H2) | [(r & H1 & _) | (e & H1 & _)]].
  - apply Hm in H1. subst l1. now apply Hk in H2.
  - now apply Hm in H1.
  - now apply Hm in H1.
Qed.

Ltac quiet :=
  repeat first
    [ apply quiet_ret | apply quiet_throw | apply quiet_return
    | apply quiet_lift
    | apply quiet_bind; [|intros ?]
    | match goal with
      | |- quiet (match ?x with _ => _ end) => destruct x
      | |- quiet (if ?c then _ else _) => destruct c
      end ].

Lemma step_ret {R A} (a : A) : step (ret (R := R) a).
Proof. now intros log o l [= <- <-]. Qed.

Lemma step_throw {R A} (e : JsError) : step (throw (R := R) (A := A) e).
Proof. now intros log o l [= <- <-]. Qed.

Lemma step_lift {R A} (x : JsError + A) : step (lift (R := R) x).
Proof. destruct x; [apply step_throw | apply step_ret]. Qed.

Lemma step_bind {R A B} (m : M R A) (k : A -> M R B) :
  step m -> (forall a, step (k a)) -> step (bind m k).
Proof.
  intros Hm Hk log o l H.
  apply bind_inv in H as [(a & l1 & H1 & H2) | [(r & H1 & ->) | (e & H1 & ->)]].
  - apply Hm in H1 as [-> _]. now apply Hk in H2.
  - apply Hm in H1 as [_ H1]. now destruct (H1 r).
  - apply Hm in H1 as [-> _]. now split.
Qed.

Lemma step_provider_of {R} (rt : Runtime) (networkId : JSON.json) :
  step (provider_of (R := R) (mapped_network rt networkId)).
Proof.
  intros log o l H. apply provider_of_log in H as [-> H].
  split; [reflexivity|]. now intros r ->.
Qed.

Lemma step_createMonadWallet {R} (sdk : Sdk) (privateKey : string)
    (n : MonadUtils.Network) :
  step (MonadChain.createMonadWallet (R := R) sdk privateKey n).
Proof.
  intros log o l H. apply createMonadWallet_log in H as [-> H].
  split; [reflexivity|]. now intros r ->.
Qed.

Lemma step_buildTransferTransaction {R} (sdk : Sdk) (from : string)
    (to amount : JSON.json) (n : MonadUtils.Network) :
  step (MonadChain.buildTransferTransaction (R := R) sdk from to amount n).
Proof.
  intros log o l H. apply buildTransferTransaction_inv in H as [-> H].
  split; [reflexivity|]. now intros r ->.
Qed.

Ltac step :=
  repeat first
    [ apply step_ret | apply step_throw | apply step_lift
    | apply step_provider_of | apply step_createMonadWallet
    | apply step_buildTransferTransaction
    | apply step_bind; [|intros ?]
    | match goal with
      | |- step (match ?x with _ => _ end) => destruct x
      | |- step (if ?c then _ else _) => destruct c
      end ].

Lemma scheme_evm_transfer (scheme : option JSON.json) :
  is_string (Some (or_else scheme (JStr "exact"))) "evm-transfer" = true ->
  scheme = Some (JStr "evm-transfer").
Proof.
  destruct scheme as [x|]; [|discriminate]. unfold or_else.
  destruct (truthy_value (Some x)); [|discriminate].
  destruct x; try discriminate. cbn. intros H.
  apply String.eqb_eq in H. now subst.
Qed.

Ltac bind_step H a l Hm :=
  apply bind_inv in H as [(a & l & Hm & H) | [(? & Hm & ->) | (? & Hm & ->)]].

(** One step of a sequence [H], with the value [a] of the step when it
    has one; [fin] ends the case in which the step throws. *)
Ltac next H a Hm fin :=
  let l := fresh "l" in
  let r := fresh "r" in
  let e := fresh "e" in
  let Hs := fresh "Hs" in
  match type of H with
  | bind ?m _ _ = _ =>
      assert (step m) as Hs by step;
      apply bind_inv in H as [(a & l & Hm & H) | [(r & Hm & ->) | (e & Hm & ->)]];
      [ pose proof (Hs _ _ _ Hm) as [-> _]; clear Hs
      | apply Hs in Hm as [_ Hm]; now destruct (Hm r)
      | apply Hs in Hm as [-> _]; clear Hs; fin ]
  end.

Ltac next_lift H a Hm fin :=
  let l := fresh "l" in
  let r := fresh "r" in
  let e := fresh "e" in
  apply bind_inv in H as [(a & l & Hm & H) | [(r & Hm & ->) | (e & Hm & ->)]];
  [ apply lift_value in Hm as [Hm ->]
  | now apply lift_return in Hm
  | apply lift_log in Hm as ->; fin ].

(** What a call of the client does: it fails before any request; or it
    sends one request and returns its response, or fails; or it sends
    the request, is answered 402, signs one transaction and sends the
    request again with the payment. *)
Lemma x402axios_trace (rt : Runtime) (net : Internet) (sdk : Sdk)
    (finalConfig : AxiosRequestConfig)
    (outcome : completion AxiosResponse) (log : list Call) :
  run (x402axiosMain rt net sdk finalConfig) = (outcome, log) ->
  (log = [] /\ exists e, outcome = Uncaught e) \/
  (exists init,
     Http.url init = buildURL rt finalConfig /\
     Http.method init = method_name (default GET (method finalConfig)) /\
     ((log = [Fetch init] /\
       match net [] init with
       | inl e => outcome = Uncaught e
       | inr response =>
           if (Http.status response =? 402)%N
           then exists e, outcome = Uncaught e
           else
             match read_response (default json (responseType finalConfig))
                     response with
             | inl e => outcome = Uncaught e
             | inr responseData =>
                 match transformResponseData responseData finalConfig with
                 | inl e => outcome = Uncaught e
                 | inr transformedData =>
                     outcome =
                     Returned
                       {| response_data := transformedData;
                          status := Http.status response;
                          statusText := Http.statusText response;
                          response_headers := Http.response_headers response;
                          config := finalConfig;
                          paymentInfo := None |}
                 end
             end
       end) \/
      (exists w t response responseData reqs networkId
              payTo paymentAddress maxAmountRequired price rest,
         log = Fetch init :: Sign w t :: rest /\
         net [] init = inr response /\
         Http.status response = 402%N /\
         read_response (default json (responseType finalConfig)) response
         = inr responseData /\
         paymentReqs responseData = inr reqs /\
         data_property reqs "scheme" = inr (Some (JStr "evm-transfer")) /\
         data_property reqs "network" = inr (Some networkId) /\
         data_property reqs "payTo" = inr payTo /\
         data_property reqs "paymentAddress" = inr paymentAddress /\
         or_undefined payTo paymentAddress = Some (Wallets.to t) /\
         data_property reqs "maxAmountRequired" = inr maxAmountRequired /\
         data_property reqs "price" = inr price /\
         or_undefined maxAmountRequired price = Some (Wallets.value t) /\
         Wallets.from t = address w /\
         Wallets.chainId t = MonadUtils.MONAD_TESTNET_CHAIN_ID /\
         (rest = [] \/
          exists signedTx,
            wallet_signTransaction sdk w t = inr signedTx /\
            rest = [Fetch {| Http.url := Http.url init;
                             Http.method := Http.method init;
                             Http.headers :=
                               <[ "X-PAYMENT" :=
                                    Base64.encode
                                      (stringify
                                         (paymentPayload (JStr "evm-transfer")
                                            networkId signedTx)) ]>
                                 (Http.headers init);
                             Http.body := Http.body init |}])))).
Proof.
  intros Hrun. apply run_inv in Hrun as (o & H & Ho).
  unfold x402axiosMain in H. cbv zeta in H.
  next H body Hbody ltac:(left; split; [reflexivity | eauto]).
  clear Hbody. right.
  set (init := {| Http.url := buildURL rt finalConfig;
                  Http.body := request_body rt body |}) in *.
  exists init. split; [reflexivity|]. split; [reflexivity|].
  bind_step H response l1 Hfetch.
  2:{ apply fetch_inv in Hfetch as [_ Hfetch].
      destruct (net [] init); discriminate. }
  2:{ apply fetch_inv in Hfetch as [-> Hfetch]. left. split; [reflexivity|].
      destruct (net [] init); [|discriminate]. now injection Hfetch as <-. }
  apply fetch_value in Hfetch as [Hnet ->]. cbn [app] in H.
  destruct (Http.status response =? 402)%N eqn:Estatus.
  2:{ left. rewrite Hnet, Estatus. cbn [negb] in H.
      unfold bind, lift in H.
      destruct (read_response _ response) as [e|responseData].
      { injection H as <- <-. now split. }
      cbn [ret] in H.
      destruct (transformResponseData responseData finalConfig) as [e|d];
        injection H as <- <-; now split. }
  cbn [negb] in H.
  assert (forall e, o = Throw e -> log = [Fetch init] ->
            log = [Fetch init] /\
            match net [] init with
            | inl e => outcome = Uncaught e
            | inr response =>
                if (Http.status response =? 402)%N
                then exists e, outcome = Uncaught e
                else
                  match read_response (default json (responseType finalConfig))
                          response with
                  | inl e => outcome = Uncaught e
                  | inr responseData =>
                      match transformResponseData responseData finalConfig with
                      | inl e => outcome = Uncaught e
                      | inr transformedData =>
                          outcome =
                          Returned
                            {| response_data := transformedData;
                               status := Http.status response;
                               statusText := Http.statusText response;
                               response_headers := Http.response_headers response;
                               config := finalConfig;
                               paymentInfo := None |}
                      end
                  end
            end) as Hfail.
  { intros e -> ->. split; [reflexivity|]. rewrite Hnet, Estatus. eauto. }
  apply N.eqb_eq in Estatus.
  next_lift H responseData Hread ltac:(left; eapply Hfail; reflexivity).
  rewrite AsyncFacts.seq_ret in H.
  next_lift H reqs Hreqs ltac:(left; eapply Hfail; reflexivity).
  next_lift H payTo HpayTo ltac:(left; eapply Hfail; reflexivity).
  next_lift H paymentAddress HpaymentAddress
    ltac:(left; eapply Hfail; reflexivity).
  next_lift H maxAmountRequired HmaxAmountRequired
    ltac:(left; eapply Hfail; reflexivity).
  next_lift H price Hprice ltac:(left; eapply Hfail; reflexivity).
  next_lift H networkId Hnetwork ltac:(left; eapply Hfail; reflexivity).
  destruct networkId as [networkId|];
    [|injection H as <- <-; left; eapply Hfail; reflexivity].
  destruct (negb (truthy_value (Some networkId)));
    [injection H as <- <-; left; eapply Hfail; reflexivity|].
  next_lift H scheme Hscheme ltac:(left; eapply Hfail; reflexivity).
  destruct (or_undefined payTo paymentAddress) as [recipient|] eqn:Erecipient;
    [|injection H as <- <-; left; eapply Hfail; reflexivity].
  destruct (or_undefined maxAmountRequired price) as [amount|] eqn:Eamount;
    [|injection H as <- <-; left; eapply Hfail; reflexivity].
  destruct (_ || _); [injection H as <- <-; left; eapply Hfail; reflexivity|].
  next H u Hslice ltac:(left; eapply Hfail; reflexivity). clear Hslice u.
  next H monadWallet Hwallet ltac:(left; eapply Hfail; reflexivity).
  clear Hwallet.
  next H u Hcheck ltac:(left; eapply Hfail; reflexivity).
  destruct (is_string (Some (or_else scheme (JStr "exact"))) "evm-transfer")
    eqn:Eis; [|discriminate]. clear Hcheck u.
  next H n Hn ltac:(left; eapply Hfail; reflexivity). clear Hn.
  next H transaction Hbuild ltac:(left; eapply Hfail; reflexivity).
  apply buildTransferTransaction_inv
    in Hbuild as [_ (fee & nonce & _ & _ & _ & Ht)].
  apply scheme_evm_transfer in Eis. subst scheme transaction.
  cbn [or_else truthy_value Js.truthy String.eqb Ascii.eqb Bool.eqb negb] in H.
  clear Hfail. right.
  eexists monadWallet, _, response, responseData, reqs, networkId, payTo,
    paymentAddress, maxAmountRequired, price.
  bind_step H signedTx l8 Hsign;
    apply signTransaction_inv in Hsign as [-> Hsign]; cbn [app] in *.
  2,3: exists []; repeat (split; [first [reflexivity | assumption]|]);
       now left.
  destruct (wallet_signTransaction sdk monadWallet _) as [e|s] eqn:Es;
    [discriminate|]. injection Hsign as ->.
  eexists. split.
  { bind_step H response2 l9 Hfetch2; apply fetch_log in Hfetch2 as ->;
      [|reflexivity..].
    cbn [app] in H.
    match type of H with
    | ?m ?l = _ => assert (quiet m) as Hq by quiet
    end.
    apply Hq in H. subst log. reflexivity. }
  repeat (split; [first [reflexivity | assumption]|]).
  right. exists s. now split.
Qed.


(** X26. The client signs only what it is asked. When a call of the
    client signs a transaction, it has sent one request before, the
    answer had status 402, the requirements in its body name the scheme
    evm-transfer, and the transaction is a transfer, on the test network
    and from the wallet, of the amount that the requirements ask to the
    recipient that they name. Nothing else is signed, and the only call
    after the signature is the same request with the payment header. *)
Theorem x402axios_signs_what_is_asked (rt : Runtime) (net : Internet)
    (sdk : Sdk) (finalConfig : AxiosRequestConfig)
    (outcome : completion AxiosResponse) (log : list Call)
    (w : Wallet) (t : TransactionRequest) :
  run (x402axiosMain rt net sdk finalConfig) = (outcome, log) ->
  In (Sign w t) log ->
  exists init response responseData reqs networkId
         payTo paymentAddress maxAmountRequired price rest,
    log = Fetch init :: Sign w t :: rest /\
    net [] init = inr response /\
    Http.status response = 402%N /\
    read_response (default json (responseType finalConfig)) response
    = inr responseData /\
    paymentReqs responseData = inr reqs /\
    data_property reqs "scheme" = inr (Some (JStr "evm-transfer")) /\
    data_property reqs "network" = inr (Some networkId) /\
    data_property reqs "payTo" = inr payTo /\
    data_property reqs "paymentAddress" = inr paymentAddress /\
    or_undefined payTo paymentAddress = Some (Wallets.to t) /\
    data_property reqs "maxAmountRequired" = inr maxAmountRequired /\
    data_property reqs "price" = inr price /\
    or_undefined maxAmountRequired price = Some (Wallets.value t) /\
    Wallets.from t = address w /\
    Wallets.chainId t = MonadUtils.MONAD_TESTNET_CHAIN_ID /\
    (rest = [] \/
     exists signedTx,
       wallet_signTransaction sdk w t = inr signedTx /\
       rest = [Fetch {| Http.url := Http.url init;
                        Http.method := Http.method init;
                        Http.headers :=
                          <[ "X-PAYMENT" :=
                               Base64.encode
                                 (stringify
                                    (paymentPayload (JStr "evm-transfer")
                                       networkId signedTx)) ]>
                            (Http.headers init);
                        Http.body := Http.body init |}]).
Proof.
  intros Hrun Hin.
  destruct (x402axios_trace _ _ _ _ _ _ Hrun)
    as [[-> _] | (init & _ & _ & [[-> _] | H])].
  - destruct Hin.
  - destruct Hin as [Hin | []]. discriminate.
  - destruct H as (w' & t' & response & responseData & reqs & networkId &
                   payTo & paymentAddress & maxAmountRequired & price & rest &
                   -> & H).
    assert (Sign w t = Sign w' t') as E.
    { destruct Hin as [Hin | [Hin | Hin]]; [discriminate | now symmetry |].
      destruct H as (_ & _ & _ & _ & _ & _ & _ & _ & _ & _ & _ & _ & _ & _ &
                     [-> | (s & _ & ->)]).
      - destruct Hin.
      - destruct Hin as [Hin | []]. discriminate. }
    injection E as -> ->.
    now exists init, response, responseData, reqs, networkId, payTo,
      paymentAddress, maxAmountRequired, price, rest.
Qed.

Lemma x402axios_signs_what_is_asked_witness :
  exists init rest,
    snd (run (x402axiosMain Scenarios.runtime Scenarios.paywall Scenarios.sdk
                Scenarios.client_config))
    = Fetch init :: Sign Scenarios.wallet
        {| from := Samples.payer;
           to := JStr Samples.payee;
           value := JStr "1000000000000000";
           nonce := 7;
           gasLimit := 21000;
           request_maxFeePerGas := Some 2000000000%Z;
           request_maxPriorityFeePerGas := None;
           chainId := MonadUtils.MONAD_TESTNET_CHAIN_ID;
           type := 2 |} :: rest.
Proof.
  destruct (x402axios_signs_what_is_asked Scenarios.runtime Scenarios.paywall
              Scenarios.sdk Scenarios.client_config _ _ Scenarios.wallet
              {| from := Samples.payer;
                 to := JStr Samples.payee;
                 value := JStr "1000000000000000";
                 nonce := 7;
                 gasLimit := 21000;
                 request_maxFeePerGas := Some 2000000000%Z;
                 request_maxPriorityFeePerGas := None;
                 chainId := MonadUtils.MONAD_TESTNET_CHAIN_ID;
                 type := 2 |}
              (surjective_pairing _))
    as (init & _ & _ & _ & _ & _ & _ & _ & _ & rest & H & _).
  - vm_compute. right. left. reflexivity.
  - now exists init, rest.
Defined.

(** X27. A status that is not 402 is returned. When the answer to the
    request has a status other than 402, the status of a failure
    included, the client makes no other call and returns a response with
    this status and the data read from the body; it throws only if the
    body cannot be read or a response transformer throws. *)
Theorem x402axios_without_challenge (rt : Runtime) (net : Internet)
    (sdk : Sdk) (finalConfig : AxiosRequestConfig)
    (outcome : completion AxiosResponse) (init : Http.Request)
    (rest : list Call) (response : Http.Response) :
  run (x402axiosMain rt net sdk finalConfig) = (outcome, Fetch init :: rest) ->
  net [] init = inr response ->
  Http.status response <> 402%N ->
  rest = [] /\
  match read_response (default json (responseType finalConfig)) response with
  | inl e => outcome = Uncaught e
  | inr responseData =>
      match transformResponseData responseData finalConfig with
      | inl e => outcome = Uncaught e
      | inr transformedData =>
          outcome =
          Returned {| response_data := transformedData;
                      status := Http.status response;
                      statusText := Http.statusText response;
                      response_headers := Http.response_headers response;
                      config := finalConfig;
                      paymentInfo := None |}
      end
  end.
Proof.
  intros Hrun Hnet Hstatus.
  destruct (x402axios_trace _ _ _ _ _ _ Hrun)
    as [[[=] _] | (init' & _ & _ & [[[= -> ->] H] | H])].
  - split; [reflexivity|]. rewrite Hnet in H.
    apply N.eqb_neq in Hstatus. now rewrite Hstatus in H.
  - destruct H as (w & t & response' & responseData & reqs & networkId &
                   payTo & paymentAddress & maxAmountRequired & price & rest' &
                   [= -> _] & Hnet' & Hstatus' & _).
    congruence.
Qed.

Lemma x402axios_without_challenge_witness :
  fst (run (x402axiosMain Scenarios.runtime Scenarios.broken_server
              Scenarios.sdk Scenarios.client_config))
  = Returned
      {| response_data := Plain (JObj [("error", JStr "unavailable")]);
         status := 500;
         statusText := "";
         response_headers := ∅;
         config := Scenarios.client_config;
         paymentInfo := None |}.
Proof.
  destruct (x402axios_without_challenge Scenarios.runtime
              Scenarios.broken_server Scenarios.sdk Scenarios.client_config
              _ _ _ _ (surjective_pairing _) eq_refl) as [_ H].
  - vm_compute. discriminate.
  - exact H.
Defined.

(** X28. The client does not pay the bot and AI crawler middlewares. When
    the answer to the request is the 402 challenge of the bot middleware
    or of the AI crawler middleware, read as JSON, the call of the client
    fails: it signs nothing and does not send the request again, because
    the challenge names the scheme exact and the client pays evm-transfer
    only. *)
Theorem gate_challenge_is_not_paid (rt : Runtime) (net : Internet)
    (sdk : Sdk) (finalConfig : AxiosRequestConfig)
    (outcome : completion AxiosResponse) (init : Http.Request)
    (rest : list Call) (response : Http.Response) (challenge : JSON.json) :
  run (x402axiosMain rt net sdk finalConfig) = (outcome, Fetch init :: rest) ->
  net [] init = inr response ->
  Http.status response = 402%N ->
  default json (responseType finalConfig) = json ->
  Http.body_json response = inr challenge ->
  (exists config request botType,
     challenge = BotMiddleware.x402Response config request botType) \/
  (exists config request crawlerName,
     challenge = AIMiddleware.x402Response config request crawlerName) ->
  rest = [] /\ exists e, outcome = Uncaught e.
Proof.
  intros Hrun Hnet Hstatus Htype Hbody Hchallenge.
  destruct (x402axios_trace _ _ _ _ _ _ Hrun)
    as [[[=] _] | (init' & _ & _ & [[[= -> ->] H] | H])].
  - split; [reflexivity|]. rewrite Hnet in H.
    apply N.eqb_eq in Hstatus. now rewrite Hstatus in H.
  - exfalso.
    destruct H as (w & t & response' & responseData & reqs & networkId &
                   payTo & paymentAddress & maxAmountRequired & price & rest' &
                   [= -> _] & Hnet' & _ & Hread & Hreqs & Hscheme & _).
    rewrite Hnet in Hnet'. injection Hnet' as <-.
    rewrite Htype in Hread. cbn [read_response] in Hread.
    rewrite Hbody in Hread. injection Hread as <-.
    destruct Hchallenge as [(c & r & b & ->) | (c & r & n & ->)];
      injection Hreqs as <-; discriminate.
Qed.

Lemma gate_challenge_is_not_paid_witness :
  exists e,
    fst (run (x402axiosMain Scenarios.runtime Scenarios.bot_paywall
                Scenarios.sdk Scenarios.client_config))
    = Uncaught e.
Proof.
  destruct (gate_challenge_is_not_paid Scenarios.runtime Scenarios.bot_paywall
              Scenarios.sdk Scenarios.client_config
              _ _ _ _ _ (surjective_pairing _) eq_refl eq_refl eq_refl eq_refl)
    as [_ H].
  - left. eexists _, _, _. reflexivity.
  - exact H.
Defined.

(** ** The client and the facilitator *)

(** X29. The payment of the client is read by the facilitator. The header
    that the client builds for a signed transaction and the network of
    the requirements passes the checks that the payment path of the
    middleware makes on the header, and the checks that verify and settle
    make before they look at the transaction, for every requirements with
    the scheme evm-transfer and a network that starts with monad-. *)
Theorem client_payment_is_read (reqs : Protocol.PaymentRequirements)
    (signedTx : string) :
  Protocol.scheme reqs = Protocol.MONAD_SCHEME ->
  Js.startsWith (Protocol.network reqs) "monad-" = true ->
  Utf8.valid (Protocol.network reqs) = true ->
  Utf8.valid signedTx = true ->
  signedTx <> "" ->
  let payload :=
    paymentPayload (JStr "evm-transfer") (JStr (Protocol.network reqs)) signedTx in
  let h := Base64.encode (stringify payload) in
  PaymentPayload.decodeHeader h = Some payload /\
  is_one (get payload "x402Version") = true /\
  is_string (get payload "scheme") Protocol.MONAD_SCHEME = true /\
  Spec.verify_reads
    {| FacilitatorVerify.x402Version := Protocol.X402_VERSION;
       FacilitatorVerify.paymentHeader := Some h;
       FacilitatorVerify.paymentRequirements := Some reqs |} reqs signedTx /\
  Spec.settle_reads
    {| FacilitatorSettle.x402Version := Protocol.X402_VERSION;
       FacilitatorSettle.paymentHeader := Some h;
       FacilitatorSettle.paymentRequirements := Some reqs |} reqs signedTx.
Proof.
  intros Hscheme Hnetwork Hvalid Hsigned Hne payload h.
  assert (PaymentPayload.decodeHeader h = Some payload) as Hdecode.
  { apply JsonTextFacts.decode_stringify.
    - reflexivity.
    - unfold payload, paymentPayload. cbn [JsonText.text fst snd].
      rewrite Hvalid, Hsigned. vm_compute. reflexivity. }
  assert (h <> "") as Hh.
  { apply EndToEnd.encode_nonempty. unfold payload, paymentPayload.
    rewrite JsonTextFacts.stringify_object. discriminate. }
  assert (Spec.carries h payload signedTx) as Hcarries.
  { split; [exact Hdecode|]. split; [exact Hne|].
    exists (JObj [("signedTransaction", JStr signedTx)]).
    split; vm_compute; reflexivity. }
  split; [exact Hdecode|]. split; [reflexivity|]. split; [reflexivity|].
  split.
  - split; [reflexivity|]. split; [reflexivity|]. split; [exact Hscheme|].
    split; [exact Hnetwork|]. exists h, payload.
    split; [reflexivity|]. split; [exact Hh|]. split; [exact Hcarries|].
    split; [now rewrite Hscheme | reflexivity].
  - split; [reflexivity|]. split; [reflexivity|]. split; [exact Hscheme|].
    split.
    + apply (HandlerFacts.startsWith_nonempty _ "monad-");
        [discriminate | exact Hnetwork].
    + exists h, payload. split; [reflexivity|].
      split; [exact Hh | exact Hcarries].
Qed.

Lemma client_payment_is_read_witness :
  Spec.verify_reads
    {| FacilitatorVerify.x402Version := Protocol.X402_VERSION;
       FacilitatorVerify.paymentHeader :=
         Some (Base64.encode
                 (stringify
                    (paymentPayload (JStr "evm-transfer")
                       (JStr "monad-testnet") "0x02f86b")));
       FacilitatorVerify.paymentRequirements :=
         Some Scenarios.route_requirements |}
    Scenarios.route_requirements "0x02f86b".
Proof.
  apply (client_payment_is_read Scenarios.route_requirements "0x02f86b");
    first [reflexivity | discriminate].
Defined.

(** ** The URL of a request *)

(** The characters of a serialized query: the ones left as they are, and
    the ones that escaping and joining add. *)
Lemma form_byte_escaped (c : ascii) :
  Js.forall_chars
    (fun d => form_safe d || Ascii.eqb d "+" || Ascii.eqb d "%") (form_byte c)
  = true.
Proof.
  apply (JsFacts.ascii_forall
           (fun c => Js.forall_chars
              (fun d => form_safe d || Ascii.eqb d "+" || Ascii.eqb d "%")
              (form_byte c))).
  vm_compute. reflexivity.
Qed.

Lemma forall_chars_app (P : ascii -> bool) (a b : string) :
  Js.forall_chars P (a +:+ b) = Js.forall_chars P a && Js.forall_chars P b.
Proof.
  induction a as [|c a IH]; [reflexivity|].
  cbn [append Js.forall_chars]. now rewrite IH, andb_assoc.
Qed.

Lemma forall_chars_weaken (P Q : ascii -> bool) (s : string) :
  (forall c, P c = true -> Q c = true) ->
  Js.forall_chars P s = true -> Js.forall_chars Q s = true.
Proof.
  intros HPQ. induction s as [|c s IH]; [reflexivity|].
  cbn [Js.forall_chars]. intros H. apply andb_true_iff in H as [Hc Hs].
  now rewrite (HPQ c Hc), IH.
Qed.

Lemma form_urlencode_escaped (s : string) :
  Js.forall_chars
    (fun d => form_safe d || Ascii.eqb d "+" || Ascii.eqb d "%")
    (form_urlencode s) = true.
Proof.
  induction s as [|c s IH]; [reflexivity|].
  cbn [form_urlencode]. now rewrite forall_chars_app, form_byte_escaped, IH.
Qed.

Lemma query_string_escaped (rt : Runtime)
    (params : list (string * option JSON.json)) :
  Js.forall_chars
    (fun d => form_safe d || Ascii.eqb d "+" || Ascii.eqb d "%"
              || Ascii.eqb d "=" || Ascii.eqb d "&")
    (query_string rt params) = true.
Proof.
  assert (forall s,
            Js.forall_chars
              (fun d => form_safe d || Ascii.eqb d "+" || Ascii.eqb d "%"
                        || Ascii.eqb d "=" || Ascii.eqb d "&")
              (form_urlencode s) = true) as Hvalue.
  { intros s. eapply forall_chars_weaken; [|apply form_urlencode_escaped].
    intros c H. cbv beta in H |- *. now rewrite H. }
  induction params as [|[key value] params IH]; [reflexivity|].
  cbn [query_string].
  destruct value as [v|]; [|exact IH].
  destruct v; try exact IH;
    (destruct (Js.truthy (query_string rt params));
     rewrite ?forall_chars_app, ?Hvalue, ?IH; reflexivity).
Qed.

(** X30. The parameters of a request are escaped. The URL that the client
    requests is the URL built without the parameters, followed by nothing
    or by a question mark or an ampersand and a query made only of
    letters, digits and the characters * - . _ + % = and the ampersand:
    no parameter can add another character to the URL. *)
Theorem buildURL_escapes_params (rt : Runtime) (config : AxiosRequestConfig) :
  let without :=
    {| url := url config; method := method config;
       baseURL := baseURL config; headers := headers config;
       data := data config; params := None; timeout := timeout config;
       responseType := responseType config;
       transformRequest := transformRequest config;
       transformResponse := transformResponse config;
       privateKey := privateKey config; wallet := wallet config |} in
  buildURL rt config = buildURL rt without \/
  exists separator query,
    buildURL rt config
    = buildURL rt without +:+ String separator query /\
    (separator = "?"%char \/ separator = "&"%char) /\
    query <> "" /\
    Js.forall_chars
      (fun d => form_safe d || Ascii.eqb d "+" || Ascii.eqb d "%"
                || Ascii.eqb d "=" || Ascii.eqb d "&") query = true.
Proof.
  cbv zeta. unfold buildURL. cbn [url baseURL params].
  destruct (params config) as [ps|]; [|now left].
  destruct (Js.truthy (query_string rt ps)) eqn:Eq; [|now left].
  right.
  destruct (Js.includes _ "?");
    [exists "&"%char, (query_string rt ps) | exists "?"%char, (query_string rt ps)];
    (split; [reflexivity|]); (split; [auto|]);
    (split; [now apply HandlerFacts.truthy_true | apply query_string_escaped]).
Qed.

End AxiosFacts.
